(** * fix-pal: timecode correction and tool-invocation planning

    A shallow embedding of [fix_pal.py].  Text is modelled as [string]
    whose characters are code points below 256; Python exceptions are a
    small error type; binary64 floats are exact rationals produced by
    round-to-nearest-even. *)

From Stdlib Require Import ZArith QArith Qround Qabs Qpower Lia Lqa List Bool.
From Stdlib Require Import Ascii String.
Import ListNotations.
Open Scope string_scope.
Open Scope Z_scope.

(** ** Exceptions and results *)

Inductive exn : Type :=
| ValueError
| AttributeError
| FileNotFoundError
| ZeroDivisionError
| CalledProcessError (tool : string).

Inductive result (A : Type) : Type :=
| Ok (a : A)
| Raise (e : exn).
Arguments Ok {A} a.
Arguments Raise {A} e.

Definition rbind {A B} (r : result A) (k : A -> result B) : result B :=
  match r with
  | Ok a => k a
  | Raise e => Raise e
  end.

Notation "x <- r ;; k" := (rbind r (fun x => k))
  (at level 61, r at next level, right associativity).

(** ** Characters and digits *)

Definition is_digit (c : ascii) : bool :=
  let n := nat_of_ascii c in (48 <=? n)%nat && (n <=? 57)%nat.

Definition digit_val (c : ascii) : Z := Z.of_nat (nat_of_ascii c) - 48.

Definition digit_char (d : Z) : ascii := ascii_of_nat (Z.to_nat (d + 48)).

Fixpoint all_digits (s : string) : bool :=
  match s with
  | EmptyString => true
  | String c s' => is_digit c && all_digits s'
  end.

Definition LF : ascii := ascii_of_nat 10.
Definition CR : ascii := ascii_of_nat 13.

(** Python slicing [s[a:]] and [s[a:b]] for [0 <= a <= b]. *)
Fixpoint drop (n : nat) (s : string) : string :=
  match n, s with
  | O, _ => s
  | S n', String _ s' => drop n' s'
  | S _, EmptyString => EmptyString
  end.

Fixpoint take (n : nat) (s : string) : string :=
  match n, s with
  | S n', String c s' => String c (take n' s')
  | _, _ => EmptyString
  end.

Definition slice (a b : nat) (s : string) : string := take (b - a) (drop a s).

(** ** Decimal literals: [int()] and [float()] on unsigned text

    Every string that reaches [int] or [float] in this program is a slice
    of a pattern match or of a rendered timecode, so it carries neither a
    sign nor surrounding white space; these parsers cover the unsigned
    grammar (digits with single underscores between them, a fraction, an
    exponent) and raise [ValueError] on anything else. *)

(** Digits after the first one: (value, number of digits read, rest). *)
Fixpoint digits_tail (acc : Z) (n : nat) (s : string) : Z * nat * string :=
  match s with
  | EmptyString => (acc, n, s)
  | String c s' =>
      if is_digit c then digits_tail (10 * acc + digit_val c) (S n) s'
      else if Ascii.eqb c "_" then
        match s' with
        | String c2 s'' =>
            if is_digit c2
            then digits_tail (10 * acc + digit_val c2) (S n) s''
            else (acc, n, s)
        | EmptyString => (acc, n, s)
        end
      else (acc, n, s)
  end.

Definition digitpart (s : string) : option (Z * nat * string) :=
  match s with
  | String c s' =>
      if is_digit c then Some (digits_tail (digit_val c) 1 s') else None
  | EmptyString => None
  end.

Definition py_int (s : string) : result Z :=
  match digitpart s with
  | Some (v, _, EmptyString) => Ok v
  | _ => Raise ValueError
  end.

(** ** binary64 values

    A finite non-negative double is the rational it denotes.  Every
    arithmetic operation of IEEE 754 returns the exact result rounded to
    the nearest representable value, ties to even. *)

Inductive pyfloat : Type :=
| Fin (q : Q)
| Inf
| NaN.
Arguments Fin q%_Q.

(** [pow2 e] is 2^e as a rational, for any integer [e]. *)
Definition pow2 (e : Z) : Q := (2 ^ e)%Q.

(** [2^d <= p/q], for positive [p] and [q]. *)
Definition pow2_le (d p q : Z) : bool :=
  if 0 <=? d then q * 2 ^ d <=? p else q <=? p * 2 ^ (- d).

(** floor (log2 (p/q)) for positive [p] and [q]. *)
Definition ilog2 (p q : Z) : Z :=
  let d := Z.log2 p - Z.log2 q in
  if pow2_le d p q then d else d - 1.

(** Nearest integer to [p/q] ([q > 0]), ties to even. *)
Definition round_half_even (p q : Z) : Z :=
  let f := p / q in
  match 2 * (p mod q) ?= q with
  | Lt => f
  | Gt => f + 1
  | Eq => if Z.even f then f else f + 1
  end.

Definition Qround_half_even (x : Q) : Z :=
  round_half_even (Qnum x) (Zpos (Qden x)).
Arguments Qround_half_even x%_Q.

(** The double nearest to a non-negative rational: 53 significant bits,
    least exponent -1074, overflow to infinity from 2^1024. *)
Definition rnd (x : Q) : pyfloat :=
  if Qnum x <=? 0 then Fin 0
  else
    let e := Z.max (ilog2 (Qnum x) (Zpos (Qden x)) - 52) (-1074) in
    let m := Qround_half_even (x / pow2 e) in
    let y := (inject_Z m * pow2 e)%Q in
    if Qle_bool (pow2 1024) y then Inf else Fin y.
Arguments rnd x%_Q.

Definition fadd (a b : pyfloat) : pyfloat :=
  match a, b with
  | Fin x, Fin y => rnd (x + y)
  | NaN, _ | _, NaN => NaN
  | _, _ => Inf
  end.

Definition fmul (a b : pyfloat) : pyfloat :=
  match a, b with
  | Fin x, Fin y => rnd (x * y)
  | NaN, _ | _, NaN => NaN
  | Inf, Fin y | Fin y, Inf => if Qnum y <=? 0 then NaN else Inf
  | Inf, Inf => Inf
  end.

(** [a - b] for [b <= a]. *)
Definition fsub (a b : pyfloat) : pyfloat :=
  match a, b with
  | Fin x, Fin y => rnd (x - y)
  | Inf, Fin _ => Inf
  | _, _ => NaN
  end.

(** [a / b] for finite positive [b]. *)
Definition fdiv (a : pyfloat) (b : Q) : pyfloat :=
  match a with
  | Fin x => rnd (x / b)
  | Inf => Inf
  | NaN => NaN
  end.

(** C's [fmod(x, y)] for [y > 0]: exact on finite [x]. *)
Definition c_fmod (a : pyfloat) (y : Q) : pyfloat :=
  match a with
  | Fin x => Fin (x - y * inject_Z (Qfloor (x / y)%Q))
  | _ => NaN
  end.

Definition is_zero (a : pyfloat) : bool :=
  match a with
  | Fin x => Qnum x =? 0
  | _ => false
  end.

Definition c_floor (a : pyfloat) : pyfloat :=
  match a with
  | Fin x => Fin (inject_Z (Qfloor x))
  | _ => a
  end.

(** [a > 1/2]. *)
Definition gt_half (a : pyfloat) : bool :=
  match a with
  | Fin x => negb (Qle_bool x (1 # 2)%Q)
  | Inf => true
  | NaN => false
  end.

(** [float.__mod__] with a positive finite divisor: the remainder of
    [fmod] already has the divisor's sign. *)
Definition float_mod (a : pyfloat) (y : Q) : pyfloat := c_fmod a y.

(** [float.__floordiv__] with a positive finite divisor, after CPython's
    [float_divmod]: divide the part that [fmod] left, then snap the
    quotient to the nearest integral value. *)
Definition float_floordiv (a : pyfloat) (y : Q) : pyfloat :=
  let md := c_fmod a y in
  let dv := fdiv (fsub a md) y in
  if is_zero dv then Fin 0
  else
    let fl := c_floor dv in
    if gt_half (fsub dv fl) then fadd fl (Fin 1) else fl.

(** ** [float()] of an unsigned literal *)

Definition pow10 (e : Z) : Q := (10 ^ e)%Q.

Definition is_exp_mark (c : ascii) : bool :=
  Ascii.eqb c "e" || Ascii.eqb c "E".

(** Optional exponent: (exponent, rest), [None] when malformed. *)
Definition exponent_part (s : string) : option (Z * string) :=
  match s with
  | String c s' =>
      if is_exp_mark c then
        match s' with
        | String sg s'' =>
            if Ascii.eqb sg "-" then
              match digitpart s'' with
              | Some (v, _, r) => Some (- v, r)
              | None => None
              end
            else if Ascii.eqb sg "+" then
              match digitpart s'' with
              | Some (v, _, r) => Some (v, r)
              | None => None
              end
            else
              match digitpart s' with
              | Some (v, _, r) => Some (v, r)
              | None => None
              end
        | EmptyString => None
        end
      else Some (0, s)
  | EmptyString => Some (0, s)
  end.

(** Optional fraction after the integer part: (digits value, count, rest). *)
Definition fraction_part (s : string) : Z * nat * string :=
  match s with
  | String c s' =>
      if Ascii.eqb c "." then
        match digitpart s' with
        | Some r => r
        | None => (0, O, s')
        end
      else (0, O, s)
  | EmptyString => (0, O, s)
  end.

Definition py_float (s : string) : result pyfloat :=
  match digitpart s with
  | Some (ip, _, r1) =>
      let '(fp, k, r2) := fraction_part r1 in
      match exponent_part r2 with
      | Some (ex, EmptyString) =>
          let mant := ip * 10 ^ Z.of_nat k + fp in
          Ok (rnd (inject_Z mant * pow10 (ex - Z.of_nat k)))
      | _ => Raise ValueError
      end
  | None => Raise ValueError
  end.

(** ** Rendering numbers *)

(** The decimal digits of [n >= 0], least significant last; [fuel] bounds
    the number of digits. *)
Fixpoint digits_of (fuel : nat) (n : Z) (acc : string) : string :=
  match fuel with
  | O => acc
  | S fuel' =>
      let acc' := String (digit_char (n mod 10)) acc in
      if n <? 10 then acc' else digits_of fuel' (n / 10) acc'
  end.

Definition str_of_Z (n : Z) : string :=
  digits_of (S (Z.to_nat (Z.log2 n))) n EmptyString.

Fixpoint zeros (n : nat) : string :=
  match n with
  | O => EmptyString
  | S n' => String "0" (zeros n')
  end.

(** Left-pad with zeros to [width] characters. *)
Definition zfill (width : nat) (s : string) : string :=
  zeros (width - String.length s) ++ s.

(** [format(x, "0<width>.<prec>f")]: round half-even to [prec] decimals. *)
Definition format_f (width prec : nat) (a : pyfloat) : string :=
  match a with
  | Fin x =>
      let scale := 10 ^ Z.of_nat prec in
      let n := Qround_half_even (x * inject_Z scale) in
      let ip := str_of_Z (n / scale) in
      let body :=
        match prec with
        | O => ip
        | _ => ip ++ "." ++ zfill prec (str_of_Z (n mod scale))
        end in
      zfill width body
  | Inf => zfill width "inf"
  | NaN => zfill width "nan"
  end.

(** ** [fractions.Fraction] *)

(** [Fraction("n/d")] and [Fraction("n")], in lowest terms. *)
Definition split_slash (s : string) : string * option string :=
  match index 0 "/" s with
  | Some i => (take i s, Some (drop (S i) s))
  | None => (s, None)
  end.

Definition Fraction (s : string) : result (Z * Z) :=
  let '(ns, ds) := split_slash s in
  n <- py_int ns ;;
  match ds with
  | None => Ok (n, 1)
  | Some ds =>
      d <- py_int ds ;;
      if d =? 0 then Raise ZeroDivisionError
      else let g := Z.gcd n d in Ok (n / g, d / g)
  end.

(** [1 / Fraction] for a non-negative fraction. *)
Definition Fraction_inv (f : Z * Z) : result (Z * Z) :=
  let '(n, d) := f in
  if n =? 0 then Raise ZeroDivisionError else Ok (d, n).

Definition Fraction_str (f : Z * Z) : string :=
  let '(n, d) := f in
  if d =? 1 then str_of_Z n else str_of_Z n ++ "/" ++ str_of_Z d.

(** [float(Fraction)]: correctly rounded integer true division. *)
Definition Fraction_float (f : Z * Z) : pyfloat :=
  let '(n, d) := f in rnd (Qmake n (Z.to_pos d)).

Definition CORRECTION_FACTOR : string := "25/24".

(** ** adjust_timestamp *)

(** ["{:02.0f}:{:02.0f}:{:02.9f}".format(t // 3600, t % 3600 // 60, t % 60)] *)
Definition format_timestamp (t : pyfloat) : string :=
  format_f 2 0 (float_floordiv t 3600%Q)
  ++ ":" ++
  format_f 2 0 (float_floordiv (float_mod t 3600%Q) 60%Q)
  ++ ":" ++
  format_f 2 9 (float_mod t 60%Q).

(** [factor] stands for the module constant [CORRECTION_FACTOR]; the
    argument is [matchobj.group(0)]. *)
Definition adjust_timestamp_by (factor : string) (old_timestamp : string)
  : result string :=
  hrs <- py_int (slice 0 2 old_timestamp) ;;
  mins <- py_int (slice 3 5 old_timestamp) ;;
  secs <- py_float (drop 6 old_timestamp) ;;
  let old_total_secs := fadd (rnd (inject_Z (3600 * hrs + 60 * mins))) secs in
  f <- Fraction factor ;;
  let new_total_secs := fmul (Fraction_float f) old_total_secs in
  Ok (format_timestamp new_total_secs).

Definition adjust_timestamp : string -> result string :=
  adjust_timestamp_by CORRECTION_FACTOR.


(** ** The timecode pattern and [re.sub]

    [r"\d{2}:\d{2}:\d{2}.\d+"]: the dot is unescaped, so the ninth
    character is any character but a line feed; the final [\d+] is greedy. *)

Fixpoint span_digits (s : string) : string * string :=
  match s with
  | String c s' =>
      if is_digit c
      then let '(ds, r) := span_digits s' in (String c ds, r)
      else (EmptyString, s)
  | EmptyString => (EmptyString, s)
  end.

Definition is_colon (c : ascii) : bool := Ascii.eqb c ":".

(** A match anchored at the start of [s]: (matched text, rest). *)
Definition match_timecode (s : string) : option (string * string) :=
  match s with
  | String h1 (String h2 (String c1 (String m1 (String m2 (String c2
      (String s1 (String s2 (String sep r)))))))) =>
      if is_digit h1 && is_digit h2 && is_colon c1 &&
         is_digit m1 && is_digit m2 && is_colon c2 &&
         is_digit s1 && is_digit s2 && negb (Ascii.eqb sep LF)
      then
        match span_digits r with
        | (String d ds, r') =>
            Some (String h1 (String h2 (String c1 (String m1 (String m2
                   (String c2 (String s1 (String s2 (String sep
                      (String d ds))))))))), r')
        | (EmptyString, _) => None
        end
      else None
  | _ => None
  end.

(** The pieces [re.sub] sees, left to right: a character no match starts
    at, or a match (after which scanning resumes behind it). *)
Inductive piece : Type :=
| Lit (c : ascii)
| Hit (m : string).

Fixpoint scan (fuel : nat) (s : string) : list piece :=
  match fuel with
  | O => []
  | S fuel' =>
      match match_timecode s with
      | Some (m, r) => Hit m :: scan fuel' r
      | None =>
          match s with
          | String c s' => Lit c :: scan fuel' s'
          | EmptyString => []
          end
      end
  end.

Definition pieces (s : string) : list piece := scan (String.length s) s.

Definition piece_src (p : piece) : string :=
  match p with
  | Lit c => String c EmptyString
  | Hit m => m
  end.

Fixpoint substitute (repl : string -> result string) (ps : list piece)
  : result string :=
  match ps with
  | [] => Ok EmptyString
  | Lit c :: ps' => t <- substitute repl ps' ;; Ok (String c t)
  | Hit m :: ps' =>
      r <- repl m ;; t <- substitute repl ps' ;; Ok (r ++ t)
  end.

(** [re.sub(pattern, repl, s)] with a callable [repl]. *)
Definition re_sub (repl : string -> result string) (s : string)
  : result string :=
  substitute repl (pieces s).

(** ** Text files: universal newlines *)

(** Reading with [newline=None]: CR LF and lone CR become LF. *)
Fixpoint read_translate (s : string) : string :=
  match s with
  | EmptyString => EmptyString
  | String c s' =>
      if Ascii.eqb c CR then
        match s' with
        | String c' s'' =>
            if Ascii.eqb c' LF then String LF (read_translate s'')
            else String LF (read_translate s')
        | EmptyString => String LF EmptyString
        end
      else String c (read_translate s')
  end.

(** Writing with [newline=None]: LF becomes [os.linesep]. *)
Fixpoint write_translate (linesep : string) (s : string) : string :=
  match s with
  | EmptyString => EmptyString
  | String c s' =>
      if Ascii.eqb c LF then linesep ++ write_translate linesep s'
      else String c (write_translate linesep s')
  end.

(** Iterating a text file: lines keep their LF; [cur] is the line read
    so far. *)
Fixpoint lines_from (cur : string) (s : string) : list string :=
  match s with
  | EmptyString =>
      match cur with
      | EmptyString => []
      | _ => [cur]
      end
  | String c s' =>
      if Ascii.eqb c LF
      then (cur ++ String c EmptyString) :: lines_from EmptyString s'
      else lines_from (cur ++ String c EmptyString) s'
  end.

Definition file_lines (s : string) : list string := lines_from EmptyString s.

(** The loop of [edit_timecodes] over the lines read: what was written
    before the loop ended, and how it ended. *)
Fixpoint rewrite_lines (linesep : string) (ls : list string) (written : string)
  : string * result unit :=
  match ls with
  | [] => (written, Ok tt)
  | line :: ls' =>
      match re_sub adjust_timestamp line with
      | Ok fixed_line =>
          rewrite_lines linesep ls' (written ++ write_translate linesep fixed_line)
      | Raise e => (written, Raise e)
      end
  end.

(** ** Case folding, substrings, lines of a report *)

(** [str.casefold] on code points below 256.  U+00DF folds to "ss";
    U+00B5 folds to U+03BC, outside this alphabet, and is kept: no text
    searched for below contains either. *)
Definition casefold_char (c : ascii) : string :=
  let n := nat_of_ascii c in
  if ((65 <=? n) && (n <=? 90))%nat then String (ascii_of_nat (n + 32)) ""
  else if ((192 <=? n) && (n <=? 222) && negb (n =? 215))%nat
       then String (ascii_of_nat (n + 32)) ""
  else if (n =? 223)%nat then "ss"
  else String c "".

Fixpoint casefold (s : string) : string :=
  match s with
  | EmptyString => EmptyString
  | String c s' => casefold_char c ++ casefold s'
  end.

(** [needle in hay]. *)
Fixpoint contains (needle hay : string) : bool :=
  prefix needle hay ||
  match hay with
  | EmptyString => false
  | String _ hay' => contains needle hay'
  end.

(** [a.casefold() in b.casefold()]. *)
Definition in_casefold (a b : string) : bool :=
  contains (casefold a) (casefold b).

(** Line boundaries of [str.splitlines] below 256, CR LF apart. *)
Definition is_linebreak (c : ascii) : bool :=
  let n := nat_of_ascii c in
  ((n =? 10) || (n =? 11) || (n =? 12) || (n =? 13) ||
   (n =? 28) || (n =? 29) || (n =? 30) || (n =? 133))%nat.

Fixpoint splitlines_from (cur : string) (s : string) : list string :=
  match s with
  | EmptyString =>
      match cur with
      | EmptyString => []
      | _ => [cur]
      end
  | String c s' =>
      if is_linebreak c then
        cur ::
        (if Ascii.eqb c CR then
           match s' with
           | String c' s'' =>
               if Ascii.eqb c' LF then splitlines_from EmptyString s''
               else splitlines_from EmptyString s'
           | EmptyString => []
           end
         else splitlines_from EmptyString s')
      else splitlines_from (cur ++ String c EmptyString) s'
  end.

Definition splitlines (s : string) : list string :=
  splitlines_from EmptyString s.

(** [re.search(r"()\d+(?=:)", line)]: the leftmost run of digits that a
    colon follows ([None] when there is none). *)
Fixpoint search_id (line : string) : option string :=
  match line with
  | EmptyString => None
  | String c line' =>
      if is_digit c then
        match span_digits line with
        | (ds, String c' _) => if is_colon c' then Some ds else search_id line'
        | (_, EmptyString) => search_id line'
        end
      else search_id line'
  end.

(** [re.search(r"\d+\.?\d*", line)]: the first run of digits, with a dot
    and further digits when they follow. *)
Fixpoint search_number (line : string) : option string :=
  match line with
  | EmptyString => None
  | String c line' =>
      if is_digit c then
        match span_digits line with
        | (ds, String c' r) =>
            if Ascii.eqb c' "."
            then Some (ds ++ "." ++ fst (span_digits r))
            else Some ds
        | (ds, EmptyString) => Some ds
        end
      else search_number line'
  end.

(** ** The world: files and external tools *)

Record CompletedProcess : Type := {
  returncode : Z;
  stdout : string
}.

Definition fs : Type := string -> option string.

Definition fs_write (path content : string) (f : fs) : fs :=
  fun p => if String.eqb p path then Some content else f p.

Record world : Type := {
  files : fs;
  invoked : list (list string)    (* argument vectors, oldest first *)
}.

(** A computation that runs tools and touches files. *)
Definition M (A : Type) : Type := world -> result A * world.

Definition ret {A} (a : A) : M A := fun w => (Ok a, w).

Definition raise {A} (e : exn) : M A := fun w => (Raise e, w).

Definition bind {A B} (m : M A) (k : A -> M B) : M B :=
  fun w =>
    match m w with
    | (Ok a, w') => k a w'
    | (Raise e, w') => (Raise e, w')
    end.

Notation "x <~ m ;; k" := (bind m (fun x => k))
  (at level 61, m at next level, right associativity).

(** What a function hands to [list.extend]: a string is iterated
    character by character. *)
Inductive iterable : Type :=
| PyStr (s : string)
| PyList (l : list string).

Fixpoint chars (s : string) : list string :=
  match s with
  | EmptyString => []
  | String c s' => String c EmptyString :: chars s'
  end.

Definition extend (l : list string) (it : iterable) : list string :=
  match it with
  | PyStr s => (l ++ chars s)%list
  | PyList l' => (l ++ l')%list
  end.

(** [str(x)] inside an f-string, for a value that is [None] or a string. *)
Definition str_opt (o : option string) : string :=
  match o with
  | None => "None"
  | Some s => s
  end.

Section Tools.

(** The dict [tools] after [check_prereqs]: each tool's absolute path. *)
Variable tools : string -> string.

(** What a tool does when run: its exit status, what it prints, the
    files it leaves. *)
Variable exec : list string -> fs -> CompletedProcess * fs.

(** [os.linesep]. *)
Variable linesep : string.

(** [subprocess.run(cmd, ...)]: no [check=True], so the exit status is
    recorded in the result and nothing is raised. *)
Definition subprocess_run (cmd : list string) : M CompletedProcess :=
  fun w =>
    let '(cp, f') := exec cmd (files w) in
    (Ok cp, {| files := f'; invoked := (invoked w ++ [cmd])%list |}).

(** Both files are opened before the loop: the source must exist, the
    destination is truncated.  The file map has no directories: every
    path can be opened for writing, so a destination whose directory is
    missing (for which [open] raises [FileNotFoundError] too) is not
    covered. *)
Definition edit_timecodes (infile outfile : string) : M unit :=
  fun w =>
    match files w infile with
    | None => (Raise FileNotFoundError, w)
    | Some _ =>
        let f0 := fs_write outfile EmptyString (files w) in
        let raw := match f0 infile with Some r => r | None => EmptyString end in
        let '(written, r) :=
          rewrite_lines linesep (file_lines (read_translate raw)) EmptyString in
        (r, {| files := fs_write outfile written f0; invoked := invoked w |})
    end.

Definition fix_chapters (infile tmpdir : string) : M iterable :=
  let cmd := [tools "mkvmerge"; "-i"; infile] in
  cp <~ subprocess_run cmd ;;
  if negb (in_casefold "Chapters" (stdout cp)) then ret (PyStr "")
  else
    let old_chapter_file := tmpdir ++ "/hello-old-chap.xml" in
    let new_chapter_file := tmpdir ++ "/hello-new-chap.xml" in
    _ <~ subprocess_run [tools "mkvextract"; infile; "chapters"; old_chapter_file] ;;
    _ <~ edit_timecodes old_chapter_file new_chapter_file ;;
    ret (PyList ["--chapters"; new_chapter_file]).

(** The loop of [get_sync_flags] over the report's lines. *)
Fixpoint sync_loop (lines : list string) (sync_args : list string)
  : result (list string) :=
  match lines with
  | [] => Ok sync_args
  | line :: lines' =>
      if in_casefold "Track ID" line then
        if negb (in_casefold "audio" line) then
          match search_id line with
          | None => Raise AttributeError
          | Some track_id =>
              sync_loop lines'
                (sync_args ++ ["--sync"; (track_id ++ ":0," ++ CORRECTION_FACTOR)%string])%list
          end
        else sync_loop lines' sync_args
      else sync_loop lines' sync_args
  end.

Definition get_sync_flags (infile : string) : M (list string) :=
  let cmd := [tools "mkvmerge"; "-i"; infile] in
  cp <~ subprocess_run cmd ;;
  fun w => (sync_loop (splitlines (stdout cp)) [], w).

(** The loop of [get_audio_sample_rate]; falling off the end returns
    [None]. *)
Fixpoint rate_loop (lines : list string) : result (option string) :=
  match lines with
  | [] => Ok None
  | line :: lines' =>
      if in_casefold "Sampling frequency" line then
        match search_number line with
        | None => Raise AttributeError
        | Some r => Ok (Some r)
        end
      else rate_loop lines'
  end.

Definition get_audio_sample_rate (file : string) : M (option string) :=
  let cmd := [tools "mkvinfo"; file] in
  cp <~ subprocess_run cmd ;;
  fun w => (rate_loop (splitlines (stdout cp)), w).

Definition ffmpeg_cmd (infile outfile filter : string) : list string :=
  [tools "ffmpeg"; "-y"; "-i"; infile; "-map"; "0"; "-filter:a"; filter;
   "-c:v"; "copy"; "-c:s"; "copy"; "-max_interleave_delta"; "0"; outfile].

Definition fix_audio (infile outfile : string) : M unit :=
  fun w =>
    match (f <- Fraction CORRECTION_FACTOR ;; Fraction_inv f) with
    | Raise e => (Raise e, w)
    | Ok audio_factor =>
        (sample_rate <~ get_audio_sample_rate infile ;;
         let cmd :=
           ffmpeg_cmd infile outfile
             ("asetrate=" ++ str_opt sample_rate ++ "*" ++ Fraction_str audio_factor) in
         _ <~ subprocess_run cmd ;;
         ret tt) w
    end.

(** [main] once the tools are resolved, the arguments validated and the
    temporary directory created. *)
Definition main (infile outfile tmpdir : string) : M unit :=
  let tmpfile := tmpdir ++ "/temp.mkv" in
  chapter_args <~ fix_chapters infile tmpdir ;;
  sync_args <~ get_sync_flags infile ;;
  let cmd := [tools "mkvmerge"; "--output"; tmpfile] in
  let cmd := extend cmd (PyList sync_args) in
  let cmd := (cmd ++ ["--no-chapters"])%list in
  let cmd := extend cmd chapter_args in
  let cmd := (cmd ++ [infile])%list in
  _ <~ subprocess_run cmd ;;
  fix_audio tmpfile outfile.

End Tools.

(** ** The front end: prerequisites, arguments, the console *)

(** What [sys.exit] was given: nothing, or a message. *)
Inductive exit_arg : Type :=
| ExitNone
| ExitMsg (msg : string).

(** How a step of the front end ends. *)
Inductive ending (A : Type) : Type :=
| Returns (a : A)
| SystemExit (code : exit_arg)
| EOFError
| Uncaught (e : exn).
Arguments Returns {A} a.
Arguments SystemExit {A} code.
Arguments EOFError {A}.
Arguments Uncaught {A} e.

Definition TAB : ascii := ascii_of_nat 9.

(** The module-level dict [tools], in insertion order. *)
Definition dict : Type := list (string * option string).

Definition tools_dict : dict :=
  [("ffmpeg", None); ("mkvextract", None); ("mkvinfo", None); ("mkvmerge", None)].

Definition keys (d : dict) : list string := map fst d.

Fixpoint dict_get (k : string) (d : dict) : option (option string) :=
  match d with
  | [] => None
  | (k', v) :: d' => if String.eqb k' k then Some v else dict_get k d'
  end.

(** [d[k] = v]: an existing key keeps its place. *)
Fixpoint dict_set (k : string) (v : option string) (d : dict) : dict :=
  match d with
  | [] => [(k, v)]
  | (k', v') :: d' =>
      if String.eqb k' k then (k', v) :: d' else (k', v') :: dict_set k v d'
  end.

(** Truth value of what [shutil.which] returns: [None] and the empty
    string are false. *)
Definition truthy (o : option string) : bool :=
  match o with
  | Some (String _ _) => true
  | _ => false
  end.

(** The lines waiting on the input stream and the texts the script has
    written to the output stream, oldest first. *)
Record console : Type := {
  typed : list string;
  shown : list string
}.

(** [input(query)]: the query is shown, one line is read. *)
Definition input (query : string) (c : console) : ending string * console :=
  match typed c with
  | [] => (EOFError, {| typed := []; shown := (shown c ++ [query])%list |})
  | line :: rest =>
      (Returns line, {| typed := rest; shown := (shown c ++ [query])%list |})
  end.

Definition print (s : string) (c : console) : console :=
  {| typed := typed c;
     shown := (shown c ++ [(s ++ String LF "")%string])%list |}.

(** What a path leads to, links followed. *)
Inductive node : Type :=
| RegularFile
| Directory
| OtherNode.

Section FrontEnd.

(** [shutil.which]. *)
Variable which : string -> option string.

(** [str(Path(p))]: the path as pathlib writes it. *)
Variable Path_str : string -> string.

(** What [os.stat] finds at a path ([None]: nothing there). *)
Variable stat : string -> option node.

(** [os.path.realpath]. *)
Variable realpath : string -> string.

(** How [handle_args] ends: argparse's reading of the command line. *)
Variable handle_args : ending (string * string).

(** The first loop of [check_prereqs], over the dict's keys. *)
Fixpoint prereq_loop (names : list string) (tools : dict)
  (missing_tools : list string) : dict * list string :=
  match names with
  | [] => (tools, missing_tools)
  | tool :: names' =>
      let path := which tool in
      if negb (truthy path)
      then prereq_loop names' tools (missing_tools ++ [tool])%list
      else prereq_loop names' (dict_set tool path tools) missing_tools
  end.

(** The second loop: one line per missing tool. *)
Fixpoint missing_lines (msg : string) (missing_tools : list string) : string :=
  match missing_tools with
  | [] => msg
  | tool :: rest =>
      missing_lines (msg ++ String LF (String TAB "") ++ tool) rest
  end.

Definition check_prereqs (tools : dict) : ending dict :=
  let '(tools', missing_tools) := prereq_loop (keys tools) tools [] in
  if (0 <? List.length missing_tools)%nat then
    let msg := "Error: the following utilities are missing from your system:" in
    let msg := missing_lines msg missing_tools in
    let msg := msg ++ String LF "Please install them in order to use this script." in
    SystemExit (ExitMsg msg)
  else Returns tools'.

Definition Path_exists (p : string) : bool :=
  match stat p with
  | Some _ => true
  | None => false
  end.

Definition Path_is_file (p : string) : bool :=
  match stat p with
  | Some RegularFile => true
  | _ => false
  end.

Definition Path_is_dir (p : string) : bool :=
  match stat p with
  | Some Directory => true
  | _ => false
  end.

Definition check_exists (path : string) : ending unit :=
  let path := Path_str path in
  if negb (Path_exists path)
  then SystemExit (ExitMsg "Error: input path does not exist.")
  else if negb (Path_is_file path)
  then SystemExit (ExitMsg "Error: input path is not a regular file.")
  else Returns tt.

Definition overwrite_query (path : string) : string :=
  "Output file `" ++ path ++ "` already exists." ++ String LF "" ++
  "Do you want to overwrite it? [y|N] ".

Definition confirm_overwrite (path : string) (c : console)
  : ending unit * console :=
  let path := Path_str path in
  if Path_exists path then
    if Path_is_dir path
    then (SystemExit (ExitMsg "Error: output path is a directory!"), c)
    else
      let query := overwrite_query path in
      match input query c with
      | (Returns proceed, c') =>
          if negb (String.eqb (casefold proceed) (casefold "y"))
          then (SystemExit ExitNone, print "Stopping." c')
          else (Returns tt, c')
      | (SystemExit a, c') => (SystemExit a, c')
      | (EOFError, c') => (EOFError, c')
      | (Uncaught e, c') => (Uncaught e, c')
      end
  else (Returns tt, c).

Definition get_and_validate_args (c : console)
  : ending (string * string) * console :=
  match handle_args with
  | Returns (infile, outfile) =>
      match check_exists infile with
      | Returns _ =>
          if String.eqb (realpath infile) (realpath outfile)
          then (SystemExit (ExitMsg "Error: input and output paths are identical."), c)
          else
            match confirm_overwrite outfile c with
            | (Returns _, c') => (Returns (infile, outfile), c')
            | (SystemExit a, c') => (SystemExit a, c')
            | (EOFError, c') => (EOFError, c')
            | (Uncaught e, c') => (Uncaught e, c')
            end
      | SystemExit a => (SystemExit a, c)
      | EOFError => (EOFError, c)
      | Uncaught e => (Uncaught e, c)
      end
  | SystemExit a => (SystemExit a, c)
  | EOFError => (EOFError, c)
  | Uncaught e => (Uncaught e, c)
  end.

(** [shutil.rmtree]: every file below the directory is gone. *)
Definition rmtree (dir : string) (f : fs) : fs :=
  fun p => if prefix (dir ++ "/") p then None else f p.

(** [tools[t]] once [check_prereqs] has returned. *)
Definition tool_path (tools : dict) (t : string) : string :=
  match dict_get t tools with
  | Some (Some path) => path
  | _ => ""
  end.

Variable exec : list string -> fs -> CompletedProcess * fs.
Variable linesep : string.

(** The whole of the script's [main]: [tmpdir] is the directory
    [tempfile.TemporaryDirectory] creates; it is removed when the block is
    left, by an exception or not. *)
Definition run_main (tmpdir : string) (c : console) (w : world)
  : ending unit * console * world :=
  match check_prereqs tools_dict with
  | Returns tools =>
      match get_and_validate_args c with
      | (Returns (infile, outfile), c') =>
          let '(r, w') :=
            main (tool_path tools) exec linesep infile outfile tmpdir w in
          let w'' := {| files := rmtree tmpdir (files w');
                        invoked := invoked w' |} in
          (match r with
           | Ok _ => Returns tt
           | Raise e => Uncaught e
           end, c', w'')
      | (SystemExit a, c') => (SystemExit a, c', w)
      | (EOFError, c') => (EOFError, c', w)
      | (Uncaught e, c') => (Uncaught e, c', w)
      end
  | SystemExit a => (SystemExit a, c, w)
  | EOFError => (EOFError, c, w)
  | Uncaught e => (Uncaught e, c, w)
  end.

End FrontEnd.

(** * Notions the properties are stated with *)

(** ** Timecodes as text and as numbers *)

(** The number a string of digits denotes. *)
Fixpoint dec_val_from (acc : Z) (s : string) : Z :=
  match s with
  | EmptyString => acc
  | String c s' => dec_val_from (10 * acc + digit_val c) s'
  end.

Definition dec_val (s : string) : Z := dec_val_from 0 s.

Definition slen (s : string) : Z := Z.of_nat (String.length s).

Definition nonempty (s : string) : bool :=
  match s with EmptyString => false | _ => true end.

(** The pattern's shape, with a literal dot: DD:DD:DD.D+ *)
Definition is_timecode (s : string) : bool :=
  match s with
  | String h1 (String h2 (String c1 (String m1 (String m2 (String c2
      (String s1 (String s2 (String dot fr)))))))) =>
      is_digit h1 && is_digit h2 && is_colon c1 &&
      is_digit m1 && is_digit m2 && is_colon c2 &&
      is_digit s1 && is_digit s2 && Ascii.eqb dot "." &&
      all_digits fr && nonempty fr
  | _ => false
  end.

(** The seconds a text "H..:M..:S...F.." denotes, exactly. *)
Definition timecode_value (s : string) : option Q :=
  let '(hh, r1) := span_digits s in
  match r1 with
  | String c1 r2 =>
      let '(mm, r3) := span_digits r2 in
      match r3 with
      | String c2 r4 =>
          let '(ip, r5) := span_digits r4 in
          match r5 with
          | String c3 fp =>
              if is_colon c1 && is_colon c2 && Ascii.eqb c3 "." &&
                 all_digits fp && nonempty hh && nonempty mm &&
                 nonempty ip && nonempty fp
              then Some (inject_Z (3600 * dec_val hh + 60 * dec_val mm + dec_val ip)
                         + inject_Z (dec_val fp) / inject_Z (10 ^ slen fp))%Q
              else None
          | EmptyString => None
          end
      | EmptyString => None
      end
  | EmptyString => None
  end.

(** A text of shape DD:DD:D+.D+ (the pattern's shape has two digits of
    seconds; rendered timecodes may have one). *)
Definition timecode_text (h1 h2 m1 m2 : ascii) (ip fp : string) : string :=
  String h1 (String h2 (String ":" (String m1 (String m2 (String ":"
    (ip ++ String "." fp)))))).

Record fields_ok (h1 h2 m1 m2 : ascii) (ip fp : string) : Prop := {
  ok_h1 : is_digit h1 = true;
  ok_h2 : is_digit h2 = true;
  ok_m1 : is_digit m1 = true;
  ok_m2 : is_digit m2 = true;
  ok_ip : all_digits ip = true;
  ok_fp : all_digits fp = true;
  ok_ip_ne : ip <> "";
  ok_fp_ne : fp <> "";
  ok_ip_len : slen ip <= 2
}.

Definition hours_of (h1 h2 : ascii) : Z := 10 * digit_val h1 + digit_val h2.

(** The exact seconds field. *)
Definition secs_of (ip fp : string) : Q :=
  (inject_Z (dec_val ip * 10 ^ slen fp + dec_val fp) * pow10 (0 - slen fp))%Q.

Definition total_of (h1 h2 m1 m2 : ascii) (ip fp : string) : Q :=
  (inject_Z (3600 * hours_of h1 h2 + 60 * hours_of m1 m2) + secs_of ip fp)%Q.

(** ** What the corrector prints *)

(** The exponent [rnd] picks. *)
Definition rnd_exp (x : Q) : Z :=
  Z.max (ilog2 (Qnum x) (Zpos (Qden x)) - 52) (-1074).

(** The fields of a rendered total. *)
Definition hours_field (n : Q) : Z := Qfloor (n / 3600).
Definition minutes_field (n : Q) : Z :=
  Qfloor ((n - 3600 * inject_Z (Qfloor (n / 3600))) / 60).
Definition nanos_field (n : Q) : Z :=
  Qround_half_even ((n - 60 * inject_Z (Qfloor (n / 60))) * inject_Z (10 ^ 9)).

Definition render (n : Q) : string :=
  zfill 2 (str_of_Z (hours_field n)) ++ ":" ++
  zfill 2 (str_of_Z (minutes_field n)) ++ ":" ++
  zfill 2 (str_of_Z (nanos_field n / 10 ^ 9) ++ "." ++
           zfill 9 (str_of_Z (nanos_field n mod 10 ^ 9))).

(** ** Rewriting a text *)

Fixpoint concat_str (l : list string) : string :=
  match l with
  | [] => EmptyString
  | x :: l' => x ++ concat_str l'
  end.

(** What [re.sub] puts in the place of a piece. *)
Definition rewritten (p : piece) (out : string) : Prop :=
  match p with
  | Lit c => out = String c EmptyString
  | Hit m => adjust_timestamp m = Ok out
  end.

(** The whole of [m] is one match of the pattern. *)
Definition matches_pattern (m : string) : bool :=
  match match_timecode m with
  | Some (_, EmptyString) => true
  | _ => false
  end.

Fixpoint no_cr (s : string) : bool :=
  match s with
  | EmptyString => true
  | String c s' => negb (Ascii.eqb c CR) && no_cr s'
  end.

(** ** Reports: track IDs and sample rates *)

Fixpoint no_digit (s : string) : bool :=
  match s with
  | EmptyString => true
  | String c s' => negb (is_digit c) && no_digit s'
  end.

(** A line whose first number is [id], directly followed by a colon. *)
Definition leading_id (line id : string) : Prop :=
  exists pre post,
    line = pre ++ id ++ ":" ++ post /\
    no_digit pre = true /\ all_digits id = true /\ id <> "".

(** A line whose first number is [r]: digits, then possibly a dot and
    further digits, and nothing after it that would extend the number. *)
Definition leading_number (line r : string) : Prop :=
  exists pre ip fr post,
    line = pre ++ r ++ post /\ r = ip ++ fr /\
    no_digit pre = true /\ all_digits ip = true /\ ip <> "" /\
    ((fr = "" /\
      match post with
      | String c _ => is_digit c = false /\ c <> "."%char
      | EmptyString => True
      end) \/
     (exists fd, fr = String "." fd /\ all_digits fd = true /\
                 match post with
                 | String c _ => is_digit c = false
                 | EmptyString => True
                 end)).

(** A line on which [get_sync_flags] acts. *)
Definition is_video_track_line (line : string) : bool :=
  in_casefold "Track ID" line && negb (in_casefold "audio" line).

Definition sync_directive (id : string) : list string :=
  ["--sync"; id ++ ":0,25/24"].

(** Two runs whose tools print the same text and leave the same files,
    whatever their exit statuses. *)
Definition same_output (exec exec' : list string -> fs -> CompletedProcess * fs)
  : Prop :=
  forall cmd f,
    stdout (fst (exec cmd f)) = stdout (fst (exec' cmd f)) /\
    snd (exec cmd f) = snd (exec' cmd f).

(** ** Concrete runs *)

Definition demo_tools (t : string) : string := "/usr/bin/" ++ t.

Definition demo_report : string :=
  "File 'in.mkv': container: Matroska
Track ID 0: video (MPEG-4p10/AVC/H.264)
Track ID 1: audio (AC-3)
Track ID 2: subtitles (SubRip/SRT)
".

Definition demo_info : string :=
  "|  + Track
|   + Track type: audio
|   + Sampling frequency: 48000
|   + Channels: 2
".

(** Tools that print a fixed report and leave the files alone. *)
Definition demo_exec (status : Z) (report : string)
  (cmd : list string) (f : fs) : CompletedProcess * fs :=
  ({| returncode := status; stdout := report |}, f).

Definition empty_world : world := {| files := fun _ => None; invoked := [] |}.

Definition crlf_source : string := "a" ++ String CR (String LF "b").

Definition world_with (path content : string) : world :=
  {| files := fs_write path content (fun _ => None); invoked := [] |}.

Definition chapter_source : string :=
  "<ChapterTimeStart>00:00:50.000000000</ChapterTimeStart>
".

(** ** Matches that are no timecodes *)

(** The characters that, between the seconds and the digits after them,
    still leave a literal [float()] reads. *)
Definition float_separator (c : ascii) : bool :=
  is_digit c || Ascii.eqb c "." || Ascii.eqb c "_" || is_exp_mark c.

Definition half_good_source : string :=
  "00:00:48.000
01:02:03:04
00:00:48.000
".

(** ** Reports, whatever they hold *)

(** A digit directly followed by a colon occurs in [line]. *)
Definition has_id (line : string) : Prop :=
  exists pre d post,
    line = pre ++ String d (String ":" post) /\ is_digit d = true.

(** [id] is a run of digits of [line] that a colon follows. *)
Definition id_in_line (line id : string) : Prop :=
  exists pre post,
    line = pre ++ id ++ ":" ++ post /\ all_digits id = true /\ id <> "".

(** Digits, then possibly a dot and further digits. *)
Definition is_number (r : string) : Prop :=
  exists ip, all_digits ip = true /\ ip <> "" /\
    (r = ip \/ exists fd, r = ip ++ "." ++ fd /\ all_digits fd = true).

(** ** The commands of a run *)

(** The remux command line. *)
Definition remux_cmd (tools : string -> string) (infile tmpfile : string)
  (sync_args chapter_args : list string) : list string :=
  (tools "mkvmerge" :: "--output" :: tmpfile ::
   sync_args ++ "--no-chapters" :: chapter_args ++ [infile])%list.

(** [main] from the call of [get_sync_flags] on, given what
    [fix_chapters] returned. *)
Definition main_rest (tools : string -> string)
  (exec : list string -> fs -> CompletedProcess * fs)
  (infile outfile tmpdir : string) (chapter_args : iterable) : M unit :=
  let tmpfile := tmpdir ++ "/temp.mkv" in
  sync_args <~ get_sync_flags tools exec infile ;;
  let cmd := [tools "mkvmerge"; "--output"; tmpfile] in
  let cmd := extend cmd (PyList sync_args) in
  let cmd := (cmd ++ ["--no-chapters"])%list in
  let cmd := extend cmd chapter_args in
  let cmd := (cmd ++ [infile])%list in
  _ <~ subprocess_run exec cmd ;;
  fix_audio tools exec tmpfile outfile.

(** ** The front end *)

(** The tool is found on the search path. *)
Definition found (which : string -> option string) (tool : string) : bool :=
  truthy (which tool).

Definition missing_from (which : string -> option string) (names : list string)
  : list string :=
  filter (fun t => negb (found which t)) names.

(** The message for a list of missing tools. *)
Definition missing_report (missing : list string) : string :=
  "Error: the following utilities are missing from your system:" ++
  concat_str (map (fun t => String LF (String TAB t)) missing) ++
  String LF "Please install them in order to use this script.".

Definition says_yes (reply : string) : bool :=
  String.eqb reply "y" || String.eqb reply "Y".

(** A machine with every tool but mkvinfo. *)
Definition demo_which (t : string) : option string :=
  if String.eqb t "mkvinfo" then None else Some ("/usr/bin/" ++ t).

(** A directory holding a film, an older output and a folder. *)
Definition demo_stat (p : string) : option node :=
  if String.eqb p "in.mkv" then Some RegularFile
  else if String.eqb p "out.mkv" then Some RegularFile
  else if String.eqb p "films" then Some Directory
  else None.

Definition demo_realpath (p : string) : string := "/home/u/" ++ p.

Definition demo_console (lines : list string) : console :=
  {| typed := lines; shown := [] |}.

(** * Properties *)

(** ** Strings *)

Lemma append_nil_r (s : string) : s ++ "" = s.
Proof. induction s; simpl; congruence. Qed.

Lemma append_assoc (a b c : string) : (a ++ b) ++ c = a ++ (b ++ c).
Proof. induction a; simpl; congruence. Qed.

Lemma length_append (a b : string) :
  String.length (a ++ b) = (String.length a + String.length b)%nat.
Proof. induction a; simpl; congruence. Qed.

Lemma is_digit_not_dash (c : ascii) : is_digit c = true -> c <> "-"%char.
Proof. intros H E; subst c; discriminate H. Qed.

Lemma span_digits_all (ds rest : string) :
  all_digits ds = true ->
  match rest with
  | String c _ => is_digit c = false
  | EmptyString => True
  end ->
  span_digits (ds ++ rest) = (ds, rest).
Proof.
  induction ds as [|c ds IH]; simpl; intros Hd Hr.
  - destruct rest as [|c r]; [reflexivity|]. simpl. now rewrite Hr.
  - apply andb_true_iff in Hd as [Hc Hd]. rewrite Hc.
    now rewrite (IH Hd Hr).
Qed.

Lemma span_digits_head (c : ascii) (s ds r : string) :
  is_digit c = true -> span_digits (String c s) = (ds, r) ->
  exists ds', ds = String c ds'.
Proof.
  simpl. intros ->. destruct (span_digits s) as [d r'].
  intros [= <- _]. now eexists.
Qed.

Lemma search_id_head (line ds : string) :
  search_id line = Some ds ->
  exists c ds', ds = String c ds' /\ is_digit c = true.
Proof.
  induction line as [|c line IH]; [discriminate|].
  cbn [search_id]. destruct (is_digit c) eqn:Hc; [|exact IH].
  destruct (span_digits (String c line)) as [d r] eqn:Hs.
  destruct (span_digits_head _ _ _ _ Hc Hs) as [d' ->].
  destruct r as [|c' r]; [exact IH|].
  destruct (is_colon c'); [|exact IH].
  intros [= <-]. now exists c, d'.
Qed.

Lemma search_id_leading (line id : string) :
  leading_id line id -> search_id line = Some id.
Proof.
  intros (pre & post & -> & Hpre & Hid & Hne).
  induction pre as [|c pre IH].
  - destruct id as [|c id]; [congruence|]. clear Hne.
    pose proof Hid as Hid'. simpl in Hid'.
    apply andb_true_iff in Hid' as [Hc _].
    change ("" ++ String c id ++ ":" ++ post) with (String c (id ++ ":" ++ post)).
    cbn [search_id]. rewrite Hc.
    change (String c (id ++ ":" ++ post)) with (String c id ++ String ":" post).
    rewrite (span_digits_all (String c id) (String ":" post) Hid eq_refl).
    reflexivity.
  - simpl in Hpre. apply andb_true_iff in Hpre as [Hc Hpre].
    apply negb_true_iff in Hc. simpl. rewrite Hc. now apply IH.
Qed.

Lemma search_number_leading (line r : string) :
  leading_number line r -> search_number line = Some r.
Proof.
  intros (pre & ip & fr & post & -> & -> & Hpre & Hip & Hne & Hfr).
  induction pre as [|c pre IH].
  - destruct ip as [|c ip]; [congruence|]. clear Hne.
    pose proof Hip as Hip'. simpl in Hip'.
    apply andb_true_iff in Hip' as [Hc _].
    change ("" ++ (String c ip ++ fr) ++ post)
      with (String c ((ip ++ fr) ++ post)).
    cbn [search_number]. rewrite Hc.
    change (String c ((ip ++ fr) ++ post)) with ((String c ip ++ fr) ++ post).
    rewrite append_assoc.
    destruct Hfr as [[-> Hpost]|(fd & -> & Hfd & Hpost)].
    + change ("" ++ post) with post.
      rewrite (span_digits_all (String c ip) post Hip).
      * rewrite append_nil_r. destruct post as [|c' post]; [reflexivity|].
        destruct Hpost as [_ Hdot].
        destruct (Ascii.eqb_spec c' "."); [contradiction|reflexivity].
      * destruct post; [exact I|tauto].
    + change (String "." fd ++ post) with (String "." (fd ++ post)).
      rewrite (span_digits_all (String c ip) _ Hip) by reflexivity.
      change (Ascii.eqb "." ".") with true. cbv iota.
      rewrite (span_digits_all fd post Hfd Hpost). reflexivity.
  - simpl in Hpre. apply andb_true_iff in Hpre as [Hc Hpre].
    apply negb_true_iff in Hc. simpl. rewrite Hc. now apply IH.
Qed.

Lemma sync_loop_app (id_of : string -> string) (lines acc : list string) :
  (forall l, In l lines -> is_video_track_line l = true ->
             leading_id l (id_of l)) ->
  sync_loop lines acc =
  Ok (acc ++ flat_map (fun l => if is_video_track_line l
                                then sync_directive (id_of l) else [])
                      lines)%list.
Proof.
  revert acc. induction lines as [|l lines IH]; intros acc H; simpl.
  - now rewrite app_nil_r.
  - unfold is_video_track_line in *.
    destruct (in_casefold "Track ID" l) eqn:Ht; simpl.
    + destruct (in_casefold "audio" l) eqn:Ha; simpl.
      * apply IH. intros; apply H; auto. now right.
      * assert (Hl : leading_id l (id_of l)).
        { apply H; [now left|]. now rewrite Ht, Ha. }
        rewrite (search_id_leading _ _ Hl).
        rewrite IH by (intros; apply H; auto; now right).
        unfold sync_directive. now rewrite <- app_assoc.
    + apply IH. intros; apply H; auto. now right.
Qed.

Lemma sync_loop_no_chapters (lines acc r : list string) :
  sync_loop lines acc = Ok r ->
  ~ In "--chapters" acc -> ~ In "--chapters" r.
Proof.
  revert acc. induction lines as [|l lines IH]; intros acc; simpl.
  - now intros [= ->].
  - destruct (in_casefold "Track ID" l); [|apply IH].
    destruct (in_casefold "audio" l); simpl; [apply IH|].
    destruct (search_id l) as [id|] eqn:Hid; [|discriminate].
    intros Hr Hacc. apply (IH _ Hr). intros Hin.
    apply in_app_or in Hin as [Hin|[Hin|[Hin|[]]]]; [tauto|discriminate|].
    destruct (search_id_head _ _ Hid) as (c & d & -> & Hc).
    injection Hin as Hc' _. subst c. discriminate Hc.
Qed.

(** ** get_sync_flags *)

(** C6 (the claim fails): not every report gets one directive per
    non-audio "Track ID" line, nor is the ID always the line's leading
    number.  A non-audio "Track ID" line without a digit directly followed
    by a colon makes the call raise [AttributeError]; the ID taken is the
    first run of digits that a colon follows, here 34 on a line whose
    first number is 12; and a line that names a file with "Track ID" in
    its name gets a directive as well. *)
Lemma get_sync_flags_directives_counterexample :
  is_video_track_line "Track ID 7 (video)" = true /\
  fst (get_sync_flags demo_tools (demo_exec 0 "Track ID 7 (video)") "in.mkv"
         empty_world) = Raise AttributeError /\
  is_video_track_line "Track ID 12a 34: subtitles" = true /\
  search_number "Track ID 12a 34: subtitles" = Some "12" /\
  fst (get_sync_flags demo_tools (demo_exec 0 "Track ID 12a 34: subtitles")
         "in.mkv" empty_world) = Ok ["--sync"; "34:0,25/24"] /\
  fst (get_sync_flags demo_tools
         (demo_exec 0 "File 'Track ID 2024: a.mkv': container: Matroska")
         "in.mkv" empty_world) = Ok ["--sync"; "2024:0,25/24"].
Proof. repeat split; vm_compute; reflexivity. Qed.

(** C6 (amended): on a report whose non-audio "Track ID" lines each
    start their numbers with an ID directly followed by a colon,
    [get_sync_flags] returns, in report order, one
    ["--sync"; "<id>:0,25/24"] pair per line that contains "Track ID" and
    not "audio" (both case-insensitively), and nothing for the other
    lines. *)
Theorem get_sync_flags_directives
  (tools : string -> string) (exec : list string -> fs -> CompletedProcess * fs)
  (infile : string) (w : world) (id_of : string -> string) :
  let report := stdout (fst (exec [tools "mkvmerge"; "-i"; infile] (files w))) in
  (forall l, In l (splitlines report) -> is_video_track_line l = true ->
             leading_id l (id_of l)) ->
  fst (get_sync_flags tools exec infile w) =
  Ok (flat_map (fun l => if is_video_track_line l
                         then ["--sync"; id_of l ++ ":0,25/24"] else [])
               (splitlines report)).
Proof.
  intros report H. subst report.
  unfold get_sync_flags, bind, subprocess_run.
  destruct (exec _ (files w)) as [cp f']. simpl in *.
  now rewrite (sync_loop_app id_of _ [] H).
Qed.

Lemma get_sync_flags_directives_witness :
  fst (get_sync_flags demo_tools (demo_exec 0 demo_report) "in.mkv" empty_world)
  = Ok ["--sync"; "0:0,25/24"; "--sync"; "2:0,25/24"].
Proof.
  apply (get_sync_flags_directives demo_tools (demo_exec 0 demo_report)
           "in.mkv" empty_world
           (fun l => match search_id l with Some i => i | None => "" end)).
  intros l Hl Hv. vm_compute in Hl.
  destruct Hl as [<-|[<-|[<-|[<-|[]]]]]; try discriminate Hv.
  - exists "Track ID ", " video (MPEG-4p10/AVC/H.264)".
    repeat split; discriminate.
  - exists "Track ID ", " subtitles (SubRip/SRT)".
    repeat split; discriminate.
Defined.

Lemma sync_loop_unparseable (before after : list string) (line : string)
  (acc : list string) (id_of : string -> string) :
  (forall l, In l before -> is_video_track_line l = true ->
             leading_id l (id_of l)) ->
  is_video_track_line line = true ->
  search_id line = None ->
  sync_loop (before ++ line :: after) acc = Raise AttributeError.
Proof.
  revert acc. induction before as [|l before IH]; intros acc Hb Hv Hn; simpl.
  - unfold is_video_track_line in Hv. apply andb_true_iff in Hv as [-> Ha].
    rewrite Ha. now rewrite Hn.
  - assert (Hb' : forall l0, In l0 before -> is_video_track_line l0 = true ->
                             leading_id l0 (id_of l0))
      by (intros; apply Hb; auto; now right).
    destruct (in_casefold "Track ID" l) eqn:Ht; [|now apply IH].
    destruct (in_casefold "audio" l) eqn:Ha; simpl; [now apply IH|].
    rewrite (search_id_leading l (id_of l)); [now apply IH|].
    apply Hb; [now left|]. unfold is_video_track_line. now rewrite Ht, Ha.
Qed.

Lemma rate_loop_unparseable (before after : list string) (line : string) :
  (forall l, In l before -> in_casefold "Sampling frequency" l = false) ->
  in_casefold "Sampling frequency" line = true ->
  search_number line = None ->
  rate_loop (before ++ line :: after) = Raise AttributeError.
Proof.
  induction before as [|l before IH]; intros Hb Hs Hn; simpl.
  - now rewrite Hs, Hn.
  - rewrite (Hb l) by now left. apply IH; auto.
    intros; apply Hb; now right.
Qed.

(** C7 (the claim fails): an inspector that exits with status 1 and
    prints a "Track ID" line without a numeric ID makes [get_sync_flags]
    raise [AttributeError], not an error that names the tool; and a
    failing inspector that prints nothing is taken for a file without
    tracks. *)
Lemma inspector_failure_counterexample :
  fst (get_sync_flags demo_tools (demo_exec 1 "Track ID: video") "in.mkv"
         empty_world) = Raise AttributeError /\
  (forall tool,
     fst (get_sync_flags demo_tools (demo_exec 1 "Track ID: video") "in.mkv"
            empty_world) <> Raise (CalledProcessError tool)) /\
  fst (get_sync_flags demo_tools (demo_exec 1 "") "in.mkv" empty_world) = Ok [].
Proof. repeat split. intros tool. discriminate. Qed.

(** C7 (amended): the inspector's exit status is never examined, so runs
    that print the same report give the same result whatever the status;
    a non-audio "Track ID" line with no digits followed by a colon makes
    [get_sync_flags] raise [AttributeError], and a "Sampling frequency"
    line without a digit makes [get_audio_sample_rate] raise
    [AttributeError]. *)
Theorem inspector_failure_behaviour
  (tools : string -> string)
  (exec exec' : list string -> fs -> CompletedProcess * fs)
  (file : string) (w : world) :
  same_output exec exec' ->
  (fst (get_sync_flags tools exec file w) =
   fst (get_sync_flags tools exec' file w) /\
   fst (get_audio_sample_rate tools exec file w) =
   fst (get_audio_sample_rate tools exec' file w)) /\
  (forall before line after id_of,
     splitlines (stdout (fst (exec [tools "mkvmerge"; "-i"; file] (files w))))
     = (before ++ line :: after)%list ->
     (forall l, In l before -> is_video_track_line l = true ->
                leading_id l (id_of l)) ->
     is_video_track_line line = true ->
     search_id line = None ->
     fst (get_sync_flags tools exec file w) = Raise AttributeError) /\
  (forall before line after,
     splitlines (stdout (fst (exec [tools "mkvinfo"; file] (files w))))
     = (before ++ line :: after)%list ->
     (forall l, In l before -> in_casefold "Sampling frequency" l = false) ->
     in_casefold "Sampling frequency" line = true ->
     search_number line = None ->
     fst (get_audio_sample_rate tools exec file w) = Raise AttributeError).
Proof.
  intros Hsame. split; [split|split].
  - unfold get_sync_flags, bind, subprocess_run.
    destruct (Hsame [tools "mkvmerge"; "-i"; file] (files w)) as [Ho _].
    destruct (exec _ (files w)), (exec' _ (files w)). simpl in *. now rewrite Ho.
  - unfold get_audio_sample_rate, bind, subprocess_run.
    destruct (Hsame [tools "mkvinfo"; file] (files w)) as [Ho _].
    destruct (exec _ (files w)), (exec' _ (files w)). simpl in *. now rewrite Ho.
  - intros before line after id_of Hsplit Hb Hv Hn.
    unfold get_sync_flags, bind, subprocess_run.
    destruct (exec _ (files w)) as [cp f']. simpl in *. rewrite Hsplit.
    now apply sync_loop_unparseable with (id_of := id_of).
  - intros before line after Hsplit Hb Hs Hn.
    unfold get_audio_sample_rate, bind, subprocess_run.
    destruct (exec _ (files w)) as [cp f']. simpl in *. rewrite Hsplit.
    now apply rate_loop_unparseable.
Qed.

Lemma inspector_failure_behaviour_witness :
  fst (get_sync_flags demo_tools (demo_exec 0 demo_report) "in.mkv" empty_world)
  = fst (get_sync_flags demo_tools (demo_exec 2 demo_report) "in.mkv" empty_world).
Proof.
  refine (proj1 (proj1 (inspector_failure_behaviour demo_tools
            (demo_exec 0 demo_report) (demo_exec 2 demo_report)
            "in.mkv" empty_world _))).
  intros cmd f. split; reflexivity.
Defined.

(** ** Chapters *)

Lemma tmpfile_not_chapters (tmpdir : string) :
  tmpdir ++ "/temp.mkv" <> "--chapters".
Proof.
  intros E. assert (L := f_equal String.length E).
  rewrite length_append in L. simpl in L.
  destruct tmpdir as [|c [|c' t]]; simpl in *; try lia; discriminate E.
Qed.

(** C8: when the inspector's report has no "Chapters" in it (case
    folded), [fix_chapters] returns after that one inspector call (no
    extractor run, no file written), and the remux command that [main]
    runs is the tool, "--output", the temporary file, the sync directives,
    "--no-chapters" and the input file, with no "--chapters" among its
    options. *)
Theorem no_chapters_no_rewrite
  (tools : string -> string) (exec : list string -> fs -> CompletedProcess * fs)
  (linesep infile outfile tmpdir : string) (w : world) :
  let inspect := [tools "mkvmerge"; "-i"; infile] in
  let w1 := {| files := snd (exec inspect (files w));
               invoked := (invoked w ++ [inspect])%list |} in
  in_casefold "Chapters" (stdout (fst (exec inspect (files w)))) = false ->
  fix_chapters tools exec linesep infile tmpdir w = (Ok (PyStr ""), w1) /\
  forall sync_args w2,
    get_sync_flags tools exec infile w1 = (Ok sync_args, w2) ->
    let options :=
      ("--output" :: (tmpdir ++ "/temp.mkv")%string
         :: sync_args ++ ["--no-chapters"])%list in
    main tools exec linesep infile outfile tmpdir w =
    (_ <~ subprocess_run exec (tools "mkvmerge" :: options ++ [infile])%list ;;
     fix_audio tools exec (tmpdir ++ "/temp.mkv") outfile) w2 /\
    ~ In "--chapters" options.
Proof.
  intros inspect w1 H.
  assert (E : fix_chapters tools exec linesep infile tmpdir w = (Ok (PyStr ""), w1)).
  { unfold fix_chapters, bind, subprocess_run. fold inspect. subst w1.
    destruct (exec inspect (files w)) as [cp f']. simpl in *. now rewrite H. }
  split; [exact E|].
  intros sync_args w2 Hs options. split.
  - unfold main. unfold bind at 1. rewrite E.
    unfold bind at 1. rewrite Hs. unfold extend. subst options.
    simpl. rewrite app_nil_r. rewrite <- !app_assoc. reflexivity.
  - subst options. intros [Hin|[Hin|Hin]]; [discriminate| |].
    + now apply tmpfile_not_chapters in Hin.
    + apply in_app_or in Hin as [Hin|[Hin|[]]]; [|discriminate].
      unfold get_sync_flags, bind, subprocess_run in Hs.
      destruct (exec _ (files w1)) as [cp f']. injection Hs as Hs _.
      now apply (sync_loop_no_chapters _ _ _ Hs (fun x => x)).
Qed.

Lemma no_chapters_no_rewrite_witness :
  fix_chapters demo_tools (demo_exec 0 demo_report) "
" "in.mkv" "/tmp/x" empty_world
  = (Ok (PyStr ""),
     {| files := files empty_world;
        invoked := [["/usr/bin/mkvmerge"; "-i"; "in.mkv"]] |}).
Proof.
  refine (proj1 (no_chapters_no_rewrite demo_tools (demo_exec 0 demo_report)
            "
" "in.mkv" "out.mkv" "/tmp/x" empty_world _)).
  reflexivity.
Defined.

(** ** fix_audio *)

Lemma rate_loop_first (before after : list string) (line r : string) :
  (forall l, In l before -> in_casefold "Sampling frequency" l = false) ->
  in_casefold "Sampling frequency" line = true ->
  search_number line = Some r ->
  rate_loop (before ++ line :: after) = Ok (Some r).
Proof.
  induction before as [|l before IH]; intros Hb Hs Hn; simpl.
  - now rewrite Hs, Hn.
  - rewrite (Hb l) by now left. apply IH; auto.
    intros; apply Hb; now right.
Qed.

Lemma rate_loop_none (lines : list string) :
  (forall l, In l lines -> in_casefold "Sampling frequency" l = false) ->
  rate_loop lines = Ok None.
Proof.
  induction lines as [|l lines IH]; intros H; simpl; [reflexivity|].
  rewrite (H l) by now left. apply IH. intros; apply H; now right.
Qed.

Lemma fix_audio_run
  (tools : string -> string) (exec : list string -> fs -> CompletedProcess * fs)
  (infile outfile : string) (w : world) (rate : option string) :
  rate_loop (splitlines (stdout (fst (exec [tools "mkvinfo"; infile] (files w)))))
  = Ok rate ->
  exists w',
    fix_audio tools exec infile outfile w = (Ok tt, w') /\
    invoked w' =
    (invoked w ++
     [[tools "mkvinfo"; infile];
      ffmpeg_cmd tools infile outfile
        ("asetrate=" ++ str_opt rate ++ "*24/25")%string])%list.
Proof.
  intros H. unfold fix_audio, get_audio_sample_rate, bind, subprocess_run, ret.
  change (f <- Fraction CORRECTION_FACTOR;; Fraction_inv f) with (Ok (24, 25)).
  cbv iota beta.
  destruct (exec [tools "mkvinfo"; infile] (files w)) as [cp f'].
  simpl in H. cbn [files invoked]. rewrite H.
  destruct (exec _ f') as [cp2 f2]. eexists. split; [reflexivity|].
  cbn [invoked]. now rewrite <- app_assoc.
Qed.

(** C9: when the first "Sampling frequency" line of the inspector's
    report on the intermediate container gives the rate R (its first
    number), [fix_audio] runs the inspector and then the transcoder with
    "-map 0", the filter "asetrate=R*24/25", "-c:v copy", "-c:s copy" and
    "-max_interleave_delta 0". *)
Theorem fix_audio_invocation
  (tools : string -> string) (exec : list string -> fs -> CompletedProcess * fs)
  (infile outfile : string) (w : world)
  (before after : list string) (line R : string) :
  splitlines (stdout (fst (exec [tools "mkvinfo"; infile] (files w))))
  = (before ++ line :: after)%list ->
  (forall l, In l before -> in_casefold "Sampling frequency" l = false) ->
  in_casefold "Sampling frequency" line = true ->
  leading_number line R ->
  exists w',
    fix_audio tools exec infile outfile w = (Ok tt, w') /\
    invoked w' =
    (invoked w ++
     [[tools "mkvinfo"; infile];
      [tools "ffmpeg"; "-y"; "-i"; infile; "-map"; "0";
       "-filter:a"; ("asetrate=" ++ R ++ "*24/25")%string;
       "-c:v"; "copy"; "-c:s"; "copy"; "-max_interleave_delta"; "0";
       outfile]])%list.
Proof.
  intros Hsplit Hb Hs HR.
  apply (fix_audio_run tools exec infile outfile w (Some R)).
  rewrite Hsplit. apply rate_loop_first; auto.
  now apply search_number_leading.
Qed.

Lemma fix_audio_invocation_witness :
  exists w',
    fix_audio demo_tools (demo_exec 0 demo_info) "/tmp/x/temp.mkv" "out.mkv"
      empty_world = (Ok tt, w') /\
    invoked w' =
    [["/usr/bin/mkvinfo"; "/tmp/x/temp.mkv"];
     ["/usr/bin/ffmpeg"; "-y"; "-i"; "/tmp/x/temp.mkv"; "-map"; "0";
      "-filter:a"; "asetrate=48000*24/25";
      "-c:v"; "copy"; "-c:s"; "copy"; "-max_interleave_delta"; "0";
      "out.mkv"]].
Proof.
  refine (fix_audio_invocation demo_tools (demo_exec 0 demo_info)
            "/tmp/x/temp.mkv" "out.mkv" empty_world
            ["|  + Track"; "|   + Track type: audio"]
            ["|   + Channels: 2"]
            "|   + Sampling frequency: 48000" "48000" _ _ _ _).
  - reflexivity.
  - intros l [<-|[<-|[]]]; reflexivity.
  - reflexivity.
  - exists "|   + Sampling frequency: ", "48000", "", "".
    repeat split; try discriminate. now left.
Defined.

(** C10: when no line of the inspector's report contains "Sampling
    frequency" (case folded), [get_audio_sample_rate] returns [None] and
    [fix_audio] still runs the transcoder, with the filter
    "asetrate=None*24/25"; nothing is raised. *)
Theorem fix_audio_without_rate
  (tools : string -> string) (exec : list string -> fs -> CompletedProcess * fs)
  (infile outfile : string) (w : world) :
  (forall l,
     In l (splitlines (stdout (fst (exec [tools "mkvinfo"; infile] (files w))))) ->
     in_casefold "Sampling frequency" l = false) ->
  fst (get_audio_sample_rate tools exec infile w) = Ok None /\
  exists w',
    fix_audio tools exec infile outfile w = (Ok tt, w') /\
    invoked w' =
    (invoked w ++
     [[tools "mkvinfo"; infile];
      [tools "ffmpeg"; "-y"; "-i"; infile; "-map"; "0";
       "-filter:a"; "asetrate=None*24/25";
       "-c:v"; "copy"; "-c:s"; "copy"; "-max_interleave_delta"; "0";
       outfile]])%list.
Proof.
  intros H. apply rate_loop_none in H. split.
  - unfold get_audio_sample_rate, bind, subprocess_run.
    destruct (exec _ (files w)) as [cp f']. exact H.
  - exact (fix_audio_run tools exec infile outfile w None H).
Qed.

Lemma fix_audio_without_rate_witness :
  fst (get_audio_sample_rate demo_tools (demo_exec 0 demo_report)
         "/tmp/x/temp.mkv" empty_world) = Ok None /\
  exists w',
    fix_audio demo_tools (demo_exec 0 demo_report) "/tmp/x/temp.mkv" "out.mkv"
      empty_world = (Ok tt, w') /\
    invoked w' =
    [["/usr/bin/mkvinfo"; "/tmp/x/temp.mkv"];
     ["/usr/bin/ffmpeg"; "-y"; "-i"; "/tmp/x/temp.mkv"; "-map"; "0";
      "-filter:a"; "asetrate=None*24/25";
      "-c:v"; "copy"; "-c:s"; "copy"; "-max_interleave_delta"; "0";
      "out.mkv"]].
Proof.
  refine (fix_audio_without_rate demo_tools (demo_exec 0 demo_report)
            "/tmp/x/temp.mkv" "out.mkv" empty_world _).
  intros l Hl. vm_compute in Hl.
  destruct Hl as [<-|[<-|[<-|[<-|[]]]]]; reflexivity.
Defined.

(** ** Rounding to the nearest double *)

Lemma rhe_bound (p q : Z) :
  0 < q -> 2 * Z.abs (p - q * round_half_even p q) <= q.
Proof.
  intros Hq. unfold round_half_even.
  pose proof (Z.div_mod p q ltac:(lia)) as E.
  pose proof (Z.mod_pos_bound p q Hq) as B.
  destruct (Z.compare_spec (2 * (p mod q)) q) as [C|C|C];
    [destruct (Z.even (p / q))| |]; nia.
Qed.

Lemma rhe_scale (k p q : Z) :
  0 < k -> 0 < q -> round_half_even (k * p) (k * q) = round_half_even p q.
Proof.
  intros Hk Hq. unfold round_half_even.
  rewrite Z.div_mul_cancel_l by lia.
  rewrite Z.mul_mod_distr_l by lia.
  replace (2 * (k * (p mod q))) with (k * (2 * (p mod q))) by ring.
  rewrite <- (Zmult_compare_compat_l (2 * (p mod q)) q k) by lia.
  reflexivity.
Qed.

Lemma Qrhe_comp (x y : Q) :
  (x == y)%Q -> Qround_half_even x = Qround_half_even y.
Proof.
  unfold Qeq, Qround_half_even. intros E.
  rewrite <- (rhe_scale (Zpos (Qden y)) (Qnum x) (Zpos (Qden x))) by lia.
  rewrite <- (rhe_scale (Zpos (Qden x)) (Qnum y) (Zpos (Qden y))) by lia.
  f_equal; lia.
Qed.

Lemma Qrhe_inject (x : Q) (n : Z) :
  (x == inject_Z n)%Q -> Qround_half_even x = n.
Proof.
  intros E. rewrite (Qrhe_comp _ _ E).
  unfold Qround_half_even, round_half_even. simpl.
  rewrite Z.div_1_r, Z.mod_1_r. reflexivity.
Qed.

Lemma Qrhe_error (x : Q) :
  (Qabs (x - inject_Z (Qround_half_even x)) <= 1 # 2)%Q.
Proof.
  destruct x as [p q]. unfold Qround_half_even. cbn [Qnum Qden].
  pose proof (rhe_bound p (Zpos q) ltac:(lia)) as B.
  set (m := round_half_even p (Zpos q)) in *.
  apply Qabs_Qle_condition.
  split; unfold Qle, Qminus, Qplus, Qopp, inject_Z; simpl; lia.
Qed.

Lemma pow2_pos (e : Z) : (0 < pow2 e)%Q.
Proof. apply Qpower_0_lt. reflexivity. Qed.

Lemma pow2_add (a b : Z) : (pow2 (a + b) == pow2 a * pow2 b)%Q.
Proof. apply Qpower_plus. discriminate. Qed.

Lemma pow2_mono (a b : Z) : a <= b -> (pow2 a <= pow2 b)%Q.
Proof. intros H. apply Qpower_le_compat_l; [exact H|discriminate]. Qed.

Lemma pow2_lt_inv (a b : Z) : (pow2 a < pow2 b)%Q -> a < b.
Proof. intros H. apply (Qpower_lt_compat_l_inv 2); [exact H|reflexivity]. Qed.

Lemma pow2_Z (n : Z) : 0 <= n -> (pow2 n == inject_Z (2 ^ n))%Q.
Proof. intros H. unfold pow2. now rewrite Zpower_Qpower. Qed.

Lemma pow2_neg (n : Z) : 0 <= n -> (pow2 (- n) == 1 # Z.to_pos (2 ^ n))%Q.
Proof.
  intros H. unfold pow2. rewrite Qpower_opp.
  change (2 ^ n)%Q with (pow2 n). rewrite (pow2_Z n H).
  assert (0 < 2 ^ n) by (apply Z.pow_pos_nonneg; lia).
  destruct (2 ^ n) eqn:E; try lia. reflexivity.
Qed.

Lemma pow2_half (e : Z) : (pow2 (e - 1) == pow2 e * (1 # 2))%Q.
Proof. unfold Z.sub. rewrite pow2_add. reflexivity. Qed.

Lemma pow2_le_sound (d p : Z) (q : positive) :
  pow2_le d p (Zpos q) = true -> (pow2 d <= p # q)%Q.
Proof.
  unfold pow2_le. destruct (Z.leb_spec 0 d) as [Hd|Hd]; intros H.
  - apply Z.leb_le in H. rewrite (pow2_Z d Hd).
    unfold Qle. simpl. lia.
  - apply Z.leb_le in H. replace d with (- (- d)) by lia.
    rewrite (pow2_neg (- d)) by lia.
    assert (0 < 2 ^ (- d)) by (apply Z.pow_pos_nonneg; lia).
    unfold Qle. simpl. rewrite Z2Pos.id by lia. lia.
Qed.

Lemma ilog2_lower (p : Z) (q : positive) :
  0 < p -> (pow2 (ilog2 p (Zpos q)) <= p # q)%Q.
Proof.
  intros Hp. unfold ilog2.
  set (lp := Z.log2 p). set (lq := Z.log2 (Zpos q)).
  destruct (pow2_le (lp - lq) p (Zpos q)) eqn:E.
  - now apply pow2_le_sound.
  - apply pow2_le_sound. unfold pow2_le.
    destruct (Z.log2_spec p Hp) as [Lp _]. fold lp in Lp.
    destruct (Z.log2_spec (Zpos q) ltac:(lia)) as [_ Uq]. fold lq in Uq.
    assert (0 <= lq) by apply Z.log2_nonneg.
    assert (0 <= lp) by apply Z.log2_nonneg.
    destruct (Z.leb_spec 0 (lp - lq - 1)) as [Hd|Hd]; apply Z.leb_le.
    + replace lp with ((lp - lq - 1) + Z.succ lq) in Lp by lia.
      rewrite Z.pow_add_r in Lp by lia.
      assert (0 < 2 ^ (lp - lq - 1)) by (apply Z.pow_pos_nonneg; lia).
      nia.
    + replace (Z.succ lq) with (lp + - (lp - lq - 1)) in Uq by lia.
      rewrite Z.pow_add_r in Uq by lia.
      assert (0 < 2 ^ (- (lp - lq - 1))) by (apply Z.pow_pos_nonneg; lia).
      nia.
Qed.

Lemma rhe_nonneg (p q : Z) : 0 <= p -> 0 < q -> 0 <= round_half_even p q.
Proof.
  intros Hp Hq. unfold round_half_even.
  assert (0 <= p / q) by (apply Z.div_pos; lia).
  destruct (2 * (p mod q) ?= q); [destruct (Z.even (p / q))| |]; lia.
Qed.

Lemma Qrhe_nonneg (x : Q) : (0 <= x)%Q -> 0 <= Qround_half_even x.
Proof.
  intros H. apply rhe_nonneg; [|lia].
  unfold Qle in H. simpl in H. lia.
Qed.

Lemma rnd_pos_spec (x : Q) :
  0 < Qnum x ->
  exists m,
    0 <= m /\
    rnd x = (if Qle_bool (pow2 1024) (inject_Z m * pow2 (rnd_exp x))
             then Inf else Fin (inject_Z m * pow2 (rnd_exp x))) /\
    (x - pow2 (rnd_exp x - 1) <= inject_Z m * pow2 (rnd_exp x)
     <= x + pow2 (rnd_exp x - 1))%Q.
Proof.
  intros Hx. unfold rnd. fold (rnd_exp x).
  destruct (Z.leb_spec (Qnum x) 0) as [C|_]; [lia|].
  set (e := rnd_exp x). set (z := (x / pow2 e)%Q).
  exists (Qround_half_even z).
  pose proof (pow2_pos e) as Pe.
  assert (Hz : (z * pow2 e == x)%Q).
  { unfold z. field. intros E. rewrite E in Pe. discriminate Pe. }
  assert (Hx0 : (0 < x)%Q) by (unfold Qlt; simpl; lia).
  split; [|split].
  - apply Qrhe_nonneg. unfold z. apply Qle_shift_div_l; [exact Pe|]. lra.
  - reflexivity.
  - pose proof (Qrhe_error z) as B. apply Qabs_Qle_condition in B.
    rewrite pow2_half. set (m := inject_Z (Qround_half_even z)) in *.
    set (P := pow2 e) in *. nra.
Qed.

Lemma rnd_exp_le (x : Q) (k : Z) :
  0 < Qnum x -> (x < pow2 (k + 1))%Q -> -1022 <= k -> rnd_exp x <= k - 52.
Proof.
  intros Hx Hk Hm. unfold rnd_exp.
  pose proof (ilog2_lower (Qnum x) (Qden x) Hx) as L.
  assert (E : (Qnum x # Qden x == x)%Q) by (destruct x; reflexivity).
  rewrite E in L.
  assert (ilog2 (Qnum x) (Zpos (Qden x)) < k + 1).
  { apply pow2_lt_inv. eapply Qle_lt_trans; eauto. }
  lia.
Qed.

(** Rounding a value below 2^(k+1) moves it by at most 2^(k-53). *)
Lemma rnd_error (x : Q) (k : Z) :
  (0 <= x)%Q -> (x < pow2 (k + 1))%Q -> -1022 <= k <= 1022 ->
  exists y, rnd x = Fin y /\ (0 <= y)%Q /\
            (x - pow2 (k - 53) <= y <= x + pow2 (k - 53))%Q.
Proof.
  intros H0 Hk Hr.
  pose proof (pow2_pos (k - 53)) as Pk.
  destruct (Z.leb_spec (Qnum x) 0) as [C|C].
  - exists 0%Q. unfold rnd. destruct (Z.leb_spec (Qnum x) 0); [|lia].
    assert (x == 0)%Q by (unfold Qle in H0; unfold Qeq; simpl in *; lia).
    split; [reflexivity|]. split; lra.
  - destruct (rnd_pos_spec x C) as (m & Hm & E & B).
    pose proof (rnd_exp_le x k C Hk ltac:(lia)) as He.
    set (e := rnd_exp x) in *.
    pose proof (pow2_mono (e - 1) (k - 53) ltac:(lia)) as M.
    pose proof (pow2_pos e) as Pe.
    set (y := (inject_Z m * pow2 e)%Q) in *.
    assert (Hy : (0 <= y)%Q).
    { unfold y. apply Qmult_le_0_compat; [|lra].
      unfold Qle; simpl; lia. }
    assert (F : Qle_bool (pow2 1024) y = false).
    { destruct (Qle_bool (pow2 1024) y) eqn:Q; [|reflexivity].
      apply Qle_bool_iff in Q.
      pose proof (pow2_mono (k + 1) 1023 ltac:(lia)) as M1.
      pose proof (pow2_mono (k - 53) 1023 ltac:(lia)) as M2.
      assert (pow2 1024 == pow2 1023 * 2)%Q by reflexivity.
      lra. }
    rewrite F in E. exists y. split; [exact E|]. split; [exact Hy|]. lra.
Qed.

(** Integers below 2^53 are doubles. *)
Lemma rnd_exact (x : Q) (n : Z) :
  (x == inject_Z n)%Q -> 0 <= n < 2 ^ 53 ->
  exists y, rnd x = Fin y /\ (y == inject_Z n)%Q.
Proof.
  intros E Hn.
  destruct (Z.leb_spec (Qnum x) 0) as [C|C].
  - exists 0%Q. unfold rnd. destruct (Z.leb_spec (Qnum x) 0); [|lia].
    split; [reflexivity|].
    unfold Qeq in *. simpl in *. nia.
  - destruct (rnd_pos_spec x C) as (m & Hm & R & _).
    assert (Hx : (x < pow2 53)%Q).
    { rewrite E, (pow2_Z 53) by lia. rewrite <- Zlt_Qlt. lia. }
    pose proof (rnd_exp_le x 52 C Hx ltac:(lia)) as He.
    unfold rnd in R |- *. fold (rnd_exp x) in R |- *.
    destruct (Z.leb_spec (Qnum x) 0); [lia|].
    set (e := rnd_exp x) in *.
    assert (Hz : (x / pow2 e == inject_Z (n * 2 ^ (- e)))%Q).
    { rewrite inject_Z_mult, <- (pow2_Z (- e)) by lia. rewrite E.
      unfold pow2. rewrite Qpower_opp. field.
      intros Z0. pose proof (pow2_pos e) as Pe. unfold pow2 in Pe.
      rewrite Z0 in Pe. discriminate Pe. }
    rewrite (Qrhe_inject _ _ Hz).
    set (y := (inject_Z (n * 2 ^ (- e)) * pow2 e)%Q).
    assert (Hy : (y == inject_Z n)%Q).
    { unfold y. rewrite inject_Z_mult, <- (pow2_Z (- e)) by lia.
      rewrite <- Qmult_assoc, <- pow2_add.
      replace (- e + e) with 0 by lia. change (pow2 0) with 1%Q. ring. }
    assert (F : Qle_bool (pow2 1024) y = false).
    { destruct (Qle_bool (pow2 1024) y) eqn:Q; [|reflexivity].
      apply Qle_bool_iff in Q. rewrite Hy in Q.
      pose proof (pow2_mono 53 1024 ltac:(lia)) as M. rewrite E in Hx. lra. }
    rewrite F. exists y. split; [reflexivity|exact Hy].
Qed.

Lemma rnd_zero (x : Q) : (x == 0)%Q -> rnd x = Fin 0.
Proof.
  intros E. unfold rnd.
  assert (Qnum x = 0) by (unfold Qeq in E; simpl in E; lia).
  destruct (Z.leb_spec (Qnum x) 0); [reflexivity|lia].
Qed.

Lemma Qfloor_div_bounds (n d : Q) :
  (0 < d)%Q -> (0 <= n)%Q ->
  0 <= Qfloor (n / d) /\
  (d * inject_Z (Qfloor (n / d)) <= n)%Q /\
  (n < d * inject_Z (Qfloor (n / d)) + d)%Q.
Proof.
  intros Hd Hn.
  assert (Hq : (0 <= n / d)%Q) by (apply Qle_shift_div_l; lra).
  pose proof (Qfloor_le (n / d)) as L.
  pose proof (Qlt_floor (n / d)) as U.
  rewrite inject_Z_plus in U.
  assert (E : (n / d * d == n)%Q) by (field; lra).
  split; [|split].
  - change 0 with (Qfloor 0). now apply Qfloor_resp_le.
  - set (k := inject_Z (Qfloor (n / d))) in *. set (z := (n / d)%Q) in *. nra.
  - set (k := inject_Z (Qfloor (n / d))) in *. set (z := (n / d)%Q) in *.
    change (inject_Z 1) with 1%Q in U. nra.
Qed.

(** Floor division by a positive integer is exact below 2^53. *)
Lemma float_floordiv_exact (n d : Q) (dz : Z) :
  (d == inject_Z dz)%Q -> 0 < dz -> (0 <= n)%Q -> (n < inject_Z (2 ^ 53))%Q ->
  exists z, float_floordiv (Fin n) d = Fin z /\
            (z == inject_Z (Qfloor (n / d)))%Q.
Proof.
  intros Ed Hd Hn Hb.
  assert (Hdq : (0 < d)%Q) by (rewrite Ed; change 0%Q with (inject_Z 0);
                               rewrite <- Zlt_Qlt; lia).
  destruct (Qfloor_div_bounds n d Hdq Hn) as (Hk & Lk & Uk).
  set (k := Qfloor (n / d)) in *.
  assert (Hk53 : dz * k < 2 ^ 53).
  { rewrite Zlt_Qlt, inject_Z_mult, <- Ed. lra. }
  assert (Hk53' : k < 2 ^ 53) by nia.
  destruct (rnd_exact (n - (n - d * inject_Z k)) (dz * k)) as (y1 & R1 & E1).
  { rewrite inject_Z_mult, <- Ed. ring. }
  { nia. }
  destruct (rnd_exact (y1 / d) k) as (y2 & R2 & E2).
  { rewrite E1, inject_Z_mult, <- Ed. field. lra. }
  { lia. }
  assert (Hdv : fdiv (fsub (Fin n) (c_fmod (Fin n) d)) d = Fin y2).
  { unfold c_fmod, fsub. fold k. rewrite R1. exact R2. }
  unfold float_floordiv. cbv zeta. rewrite Hdv. unfold is_zero.
  destruct (Z.eqb_spec (Qnum y2) 0) as [Z0|Z0].
  - exists 0%Q. split; [reflexivity|].
    rewrite <- E2. unfold Qeq. simpl. lia.
  - unfold c_floor, fsub.
    assert (Fk : Qfloor y2 = k) by (rewrite E2; apply Qfloor_Z).
    rewrite Fk. rewrite (rnd_zero (y2 - inject_Z k)) by (rewrite E2; ring).
    unfold gt_half. change (Qle_bool 0 (1 # 2)) with true. cbn [negb].
    exists (inject_Z k). split; reflexivity.
Qed.

Lemma float_mod_exact (n d : Q) :
  float_mod (Fin n) d = Fin (n - d * inject_Z (Qfloor (n / d))).
Proof. reflexivity. Qed.

(** ** Decimal text *)

Lemma is_digit_val (c : ascii) : is_digit c = true -> 0 <= digit_val c <= 9.
Proof.
  unfold is_digit, digit_val. intros H.
  apply andb_true_iff in H as [A B].
  apply Nat.leb_le in A, B. lia.
Qed.

Lemma digit_char_ok (d : Z) :
  0 <= d <= 9 -> is_digit (digit_char d) = true /\ digit_val (digit_char d) = d.
Proof.
  intros H.
  assert (C : d = 0 \/ d = 1 \/ d = 2 \/ d = 3 \/ d = 4 \/ d = 5 \/ d = 6 \/
              d = 7 \/ d = 8 \/ d = 9) by lia.
  repeat (destruct C as [->|C]; [split; reflexivity|]). subst d.
  split; reflexivity.
Qed.

Lemma dec_val_from_acc (s : string) (acc : Z) :
  dec_val_from acc s = acc * 10 ^ slen s + dec_val s.
Proof.
  unfold dec_val, slen. revert acc.
  induction s as [|c s IH]; intros acc; simpl String.length.
  - simpl. lia.
  - cbn [dec_val_from]. rewrite IH, (IH (10 * 0 + digit_val c)).
    rewrite Nat2Z.inj_succ, Z.pow_succ_r by lia. ring.
Qed.

Lemma dec_val_cons (c : ascii) (s : string) :
  dec_val (String c s) = digit_val c * 10 ^ slen s + dec_val s.
Proof.
  unfold dec_val at 1. cbn [dec_val_from]. rewrite dec_val_from_acc. ring.
Qed.

Lemma dec_val_app (a b : string) :
  dec_val (a ++ b) = dec_val a * 10 ^ slen b + dec_val b.
Proof.
  induction a as [|c a IH]; [reflexivity|].
  change (String c a ++ b) with (String c (a ++ b)).
  rewrite !dec_val_cons, IH. unfold slen.
  rewrite length_append, Nat2Z.inj_add, Z.pow_add_r by lia. ring.
Qed.

Lemma dec_val_bounds (s : string) :
  all_digits s = true -> 0 <= dec_val s < 10 ^ slen s.
Proof.
  induction s as [|c s IH]; intros H.
  - cbn. lia.
  - simpl in H. apply andb_true_iff in H as [Hc Hs].
    apply is_digit_val in Hc. specialize (IH Hs).
    rewrite dec_val_cons. unfold slen in *. simpl String.length.
    rewrite Nat2Z.inj_succ, Z.pow_succ_r by lia. nia.
Qed.

Lemma all_digits_app (a b : string) :
  all_digits (a ++ b) = all_digits a && all_digits b.
Proof.
  induction a as [|c a IH]; simpl; [reflexivity|].
  now rewrite IH, andb_assoc.
Qed.

(** [digits_tail] reads a whole run of digits. *)
Lemma digits_tail_all (ds rest : string) (acc : Z) (n : nat) :
  all_digits ds = true ->
  match rest with
  | String c _ => is_digit c = false /\ c <> "_"%char
  | EmptyString => True
  end ->
  digits_tail acc n (ds ++ rest) =
  (acc * 10 ^ slen ds + dec_val ds, (n + String.length ds)%nat, rest).
Proof.
  revert acc n. induction ds as [|c ds IH]; intros acc n Hd Hr.
  - cbn [append slen String.length dec_val dec_val_from Z.of_nat].
    rewrite Z.pow_0_r, Nat.add_0_r, Z.mul_1_r, Z.add_0_r.
    destruct rest as [|c r]; [reflexivity|].
    destruct Hr as [Hc Hu]. cbn [digits_tail]. rewrite Hc.
    destruct (Ascii.eqb_spec c "_"); [contradiction|reflexivity].
  - simpl in Hd. apply andb_true_iff in Hd as [Hc Hd].
    change (String c ds ++ rest) with (String c (ds ++ rest)).
    cbn [digits_tail]. rewrite Hc, (IH _ _ Hd Hr).
    rewrite dec_val_cons. unfold slen. simpl String.length.
    rewrite Nat2Z.inj_succ, Z.pow_succ_r by lia.
    f_equal. f_equal; [ring|lia].
Qed.

Lemma digits_of_S (f : nat) (n : Z) (acc : string) :
  digits_of (S f) n acc =
  if n <? 10 then String (digit_char (n mod 10)) acc
  else digits_of f (n / 10) (String (digit_char (n mod 10)) acc).
Proof. reflexivity. Qed.

Lemma digits_of_spec (f : nat) (n : Z) (acc : string) :
  0 <= n < 10 ^ Z.of_nat (S f) ->
  exists ds,
    digits_of (S f) n acc = ds ++ acc /\
    all_digits ds = true /\ dec_val ds = n /\ ds <> "" /\
    forall k, 1 <= k -> n < 10 ^ k -> slen ds <= k.
Proof.
  revert n acc. induction f as [|f IH]; intros n acc Hn.
  - change (10 ^ Z.of_nat 1) with 10 in Hn.
    exists (String (digit_char n) "").
    assert (H9 : 0 <= n <= 9) by lia.
    destruct (digit_char_ok n H9) as [D V].
    split; [|split; [|split; [|split]]].
    + cbn [digits_of]. rewrite Z.mod_small by lia. now destruct (n <? 10).
    + simpl. now rewrite D.
    + rewrite dec_val_cons. cbn. lia.
    + discriminate.
    + intros k Hk _. cbn. lia.
  - rewrite digits_of_S. destruct (Z.ltb_spec n 10) as [L|L].
    + exists (String (digit_char n) "").
      assert (H9 : 0 <= n <= 9) by lia.
      destruct (digit_char_ok n H9) as [D V].
      split; [rewrite Z.mod_small by lia; reflexivity|]. split; [simpl; now rewrite D|].
      split; [rewrite dec_val_cons; cbn; lia|]. split; [discriminate|].
      intros k Hk _. cbn. lia.
    + rewrite Nat2Z.inj_succ, Z.pow_succ_r in Hn by lia.
      pose proof (Z.div_mod n 10 ltac:(lia)) as E.
      pose proof (Z.mod_pos_bound n 10 ltac:(lia)) as B.
      destruct (IH (n / 10) (String (digit_char (n mod 10)) acc)) as
        (ds & E1 & D1 & V1 & _ & K1).
      { split; [apply Z.div_pos; lia|].
        apply Z.div_lt_upper_bound; lia. }
      assert (H9 : 0 <= n mod 10 <= 9) by lia.
      destruct (digit_char_ok (n mod 10) H9) as [D V].
      exists (ds ++ String (digit_char (n mod 10)) "").
      split; [|split; [|split; [|split]]].
      * rewrite E1, append_assoc. reflexivity.
      * rewrite all_digits_app, D1. simpl. now rewrite D.
      * rewrite dec_val_app, V1, dec_val_cons. cbn. lia.
      * destruct ds; discriminate.
      * intros k Hk Hlt. unfold slen in *.
        rewrite length_append, Nat2Z.inj_add. simpl String.length.
        assert (2 <= k).
        { destruct (Z.eq_dec k 1) as [->|]; [|lia]. simpl in Hlt. lia. }
        assert (n / 10 < 10 ^ (k - 1)).
        { apply Z.div_lt_upper_bound; [lia|].
          rewrite <- Z.pow_succ_r by lia. now replace (Z.succ (k - 1)) with k by lia. }
        specialize (K1 (k - 1) ltac:(lia) ltac:(assumption)). lia.
Qed.

Lemma str_of_Z_spec (n : Z) :
  0 <= n ->
  all_digits (str_of_Z n) = true /\ dec_val (str_of_Z n) = n /\
  str_of_Z n <> "" /\
  forall k, 1 <= k -> n < 10 ^ k -> slen (str_of_Z n) <= k.
Proof.
  intros Hn. unfold str_of_Z.
  destruct (digits_of_spec (Z.to_nat (Z.log2 n)) n "") as (ds & E & D & V & N & K).
  - split; [lia|]. rewrite Nat2Z.inj_succ, Z2Nat.id by apply Z.log2_nonneg.
    destruct (Z.eq_dec n 0) as [->|Hz]; [reflexivity|].
    destruct (Z.log2_spec n ltac:(lia)) as [_ U].
    eapply Z.lt_le_trans; [exact U|].
    apply Z.pow_le_mono_l. pose proof (Z.log2_nonneg n). lia.
  - rewrite E, append_nil_r. auto.
Qed.

Lemma zeros_digits (n : nat) : all_digits (zeros n) = true.
Proof. induction n; simpl; auto. Qed.

Lemma zeros_val (n : nat) (s : string) : dec_val (zeros n ++ s) = dec_val s.
Proof.
  induction n as [|n IH]; [reflexivity|].
  change (zeros (S n) ++ s) with (String "0" (zeros n ++ s)).
  rewrite dec_val_cons, IH. change (digit_val "0") with 0. lia.
Qed.

Lemma zeros_length (n : nat) : String.length (zeros n) = n.
Proof. induction n; simpl; congruence. Qed.

Lemma zfill_digits (w : nat) (s : string) :
  all_digits s = true -> all_digits (zfill w s) = true.
Proof. intros H. unfold zfill. now rewrite all_digits_app, zeros_digits. Qed.

Lemma zfill_val (w : nat) (s : string) : dec_val (zfill w s) = dec_val s.
Proof. apply zeros_val. Qed.

Lemma zfill_length (w : nat) (s : string) :
  String.length (zfill w s) = Nat.max w (String.length s).
Proof. unfold zfill. rewrite length_append, zeros_length. lia. Qed.

Lemma zfill_long (w : nat) (s : string) :
  (w <= String.length s)%nat -> zfill w s = s.
Proof.
  intros H. unfold zfill. replace (w - String.length s)%nat with O by lia.
  reflexivity.
Qed.

(** ** Reading the fields of a timecode *)

Lemma py_int_two (a b : ascii) :
  is_digit a = true -> is_digit b = true ->
  py_int (String a (String b "")) = Ok (hours_of a b).
Proof.
  intros Ha Hb. unfold py_int, digitpart. rewrite Ha.
  cbn [digits_tail]. rewrite Hb. reflexivity.
Qed.

Lemma digitpart_all (ds rest : string) :
  all_digits ds = true -> ds <> "" ->
  match rest with
  | String c _ => is_digit c = false /\ c <> "_"%char
  | EmptyString => True
  end ->
  digitpart (ds ++ rest) = Some (dec_val ds, String.length ds, rest).
Proof.
  intros Hd Hne Hr. destruct ds as [|c ds]; [congruence|].
  simpl in Hd. apply andb_true_iff in Hd as [Hc Hd].
  change (String c ds ++ rest) with (String c (ds ++ rest)).
  unfold digitpart. rewrite Hc, (digits_tail_all ds rest _ _ Hd Hr).
  rewrite dec_val_cons. reflexivity.
Qed.

Lemma py_float_fields (ip fp : string) :
  all_digits ip = true -> ip <> "" -> all_digits fp = true -> fp <> "" ->
  py_float (ip ++ String "." fp) = Ok (rnd (secs_of ip fp)).
Proof.
  intros Hi Hin Hf Hfn. unfold py_float.
  rewrite (digitpart_all ip (String "." fp) Hi Hin)
    by (split; [reflexivity|discriminate]).
  cbn [fraction_part]. change (Ascii.eqb "." ".") with true. cbv iota.
  rewrite <- (append_nil_r fp) at 1.
  rewrite (digitpart_all fp "" Hf Hfn I).
  cbn [exponent_part]. reflexivity.
Qed.

Lemma parse_fields (h1 h2 m1 m2 : ascii) (ip fp : string) :
  fields_ok h1 h2 m1 m2 ip fp ->
  let s := timecode_text h1 h2 m1 m2 ip fp in
  py_int (slice 0 2 s) = Ok (hours_of h1 h2) /\
  py_int (slice 3 5 s) = Ok (hours_of m1 m2) /\
  py_float (drop 6 s) = Ok (rnd (secs_of ip fp)).
Proof.
  intros [ok_h1 ok_h2 ok_m1 ok_m2 ok_ip ok_fp ok_ip_ne ok_fp_ne ok_ip_len] s. subst s. unfold timecode_text.
  split; [|split].
  - apply py_int_two; assumption.
  - apply py_int_two; assumption.
  - cbn [drop]. now apply py_float_fields.
Qed.

Lemma pow10_neg (k : Z) :
  0 <= k -> (pow10 (0 - k) == 1 / inject_Z (10 ^ k))%Q.
Proof.
  intros H. unfold pow10. replace (0 - k) with (- k) by lia.
  rewrite Qpower_opp, Zpower_Qpower by lia.
  change (inject_Z 10) with 10%Q. field.
  apply Qpower_not_0. discriminate.
Qed.

Lemma secs_of_bounds (ip fp : string) :
  all_digits ip = true -> all_digits fp = true -> slen ip <= 2 ->
  (0 <= secs_of ip fp)%Q /\ (secs_of ip fp < 100)%Q /\
  (secs_of ip fp ==
   inject_Z (dec_val ip) + inject_Z (dec_val fp) / inject_Z (10 ^ slen fp))%Q.
Proof.
  intros Hi Hf Hl.
  pose proof (dec_val_bounds ip Hi) as Bi.
  pose proof (dec_val_bounds fp Hf) as Bf.
  assert (Hk : 0 <= slen fp) by (unfold slen; lia).
  assert (P : 0 < 10 ^ slen fp) by (apply Z.pow_pos_nonneg; lia).
  assert (Pi : 10 ^ slen ip <= 10 ^ 2) by (apply Z.pow_le_mono_r; lia).
  assert (PQ : (0 < inject_Z (10 ^ slen fp))%Q)
    by (change 0%Q with (inject_Z 0); rewrite <- Zlt_Qlt; lia).
  assert (E : (secs_of ip fp ==
     inject_Z (dec_val ip) + inject_Z (dec_val fp) / inject_Z (10 ^ slen fp))%Q).
  { unfold secs_of. rewrite (pow10_neg _ Hk), inject_Z_plus, inject_Z_mult.
    field. lra. }
  assert (Fr : (0 <= inject_Z (dec_val fp) / inject_Z (10 ^ slen fp) < 1)%Q).
  { split.
    - apply Qle_shift_div_l; [exact PQ|]. rewrite Qmult_0_l.
      change 0%Q with (inject_Z 0). rewrite <- Zle_Qle. lia.
    - apply Qlt_shift_div_r; [exact PQ|]. rewrite Qmult_1_l.
      rewrite <- Zlt_Qlt. lia. }
  assert (Ii : (0 <= inject_Z (dec_val ip) <= 99)%Q).
  { change 0%Q with (inject_Z 0). change 99%Q with (inject_Z 99).
    rewrite <- !Zle_Qle. change (10 ^ 2) with 100 in Pi. lia. }
  rewrite E. repeat split; lra.
Qed.

(** ** The corrected total *)

Lemma pow2_7 : (pow2 7 == 128)%Q.
Proof. vm_compute. reflexivity. Qed.
Lemma pow2_19 : (pow2 19 == 524288)%Q.
Proof. vm_compute. reflexivity. Qed.
Lemma pow2_1 : (pow2 1 == 2)%Q.
Proof. vm_compute. reflexivity. Qed.
Lemma pow2_20 : (pow2 20 == 1048576)%Q.
Proof. vm_compute. reflexivity. Qed.
Lemma pow2_m47 : (pow2 (-47) == 1 # 140737488355328)%Q.
Proof. vm_compute. reflexivity. Qed.
Lemma pow2_m35 : (pow2 (-35) == 1 # 34359738368)%Q.
Proof. vm_compute. reflexivity. Qed.
Lemma pow2_m53 : (pow2 (-53) == 1 # 9007199254740992)%Q.
Proof. vm_compute. reflexivity. Qed.
Lemma pow2_m34 : (pow2 (-34) == 1 # 17179869184)%Q.
Proof. vm_compute. reflexivity. Qed.

(** The float the corrector formats: within 2e-10 of the exact product. *)
Lemma corrected_total (a b I : Z) (S : Q) :
  0 < a -> 0 < b -> a < 2 * b -> 0 <= I <= 362340 ->
  (0 <= S)%Q -> (S < 100)%Q ->
  exists n,
    fmul (Fraction_float (a, b)) (fadd (rnd (inject_Z I)) (rnd S)) = Fin n /\
    (0 <= n)%Q /\ (n <= 724881)%Q /\
    ((a # Z.to_pos b) * (inject_Z I + S) - (1 # 5000000000) <= n
     <= (a # Z.to_pos b) * (inject_Z I + S) + (1 # 5000000000))%Q.
Proof.
  intros Ha Hb Hab HI HS0 HS1.
  destruct b as [|pb|pb]; try lia. change (Z.to_pos (Zpos pb)) with pb.
  set (F := (a # pb)%Q).
  assert (HF : (0 <= F)%Q /\ (F < 2)%Q).
  { unfold F, Qle, Qlt. simpl. lia. }
  assert (HIq : (0 <= inject_Z I)%Q /\ (inject_Z I <= 362340)%Q).
  { change 0%Q with (inject_Z 0). change 362340%Q with (inject_Z 362340).
    rewrite <- !Zle_Qle. lia. }
  destruct (rnd_error S 6) as (secs & Rs & Ps & Bs);
    [exact HS0| |lia|].
  { change (6 + 1) with 7. rewrite pow2_7. lra. }
  change (6 - 53) with (-47) in Bs. rewrite pow2_m47 in Bs.
  destruct (rnd_exact (inject_Z I) I) as (yI & RI & EI);
    [reflexivity|lia|].
  destruct (rnd_error (yI + secs) 18) as (t & Rt & Pt & Bt).
  { lra. }
  { change (18 + 1) with 19. rewrite pow2_19. lra. }
  { lia. }
  change (18 - 53) with (-35) in Bt. rewrite pow2_m35 in Bt.
  destruct (rnd_error F 0) as (c & Rc & Pc & Bc).
  { lra. }
  { change (0 + 1) with 1. rewrite pow2_1. lra. }
  { lia. }
  change (0 - 53) with (-53) in Bc. rewrite pow2_m53 in Bc.
  assert (Tt : (t <= 362441)%Q) by lra.
  assert (Cc : (c <= 2 + (1 # 9007199254740992))%Q) by lra.
  assert (Pct : (0 <= c * t)%Q) by (apply Qmult_le_0_compat; assumption).
  assert (Uct : (c * t <= 724883)%Q) by nra.
  destruct (rnd_error (c * t) 19) as (n & Rn & Pn & Bn).
  { exact Pct. }
  { change (19 + 1) with 20. rewrite pow2_20. lra. }
  { lia. }
  change (19 - 53) with (-34) in Bn. rewrite pow2_m34 in Bn.
  exists n. split; [|split; [exact Pn|]].
  - unfold Fraction_float. change (Z.to_pos (Z.pos pb)) with pb. fold F.
    rewrite Rc, RI, Rs.
    unfold fadd. rewrite Rt. unfold fmul. exact Rn.
  - set (T := (inject_Z I + S)%Q) in *.
    assert (HT : (0 <= T)%Q /\ (T <= 362440)%Q) by (unfold T; lra).
    assert (Dt : (T - (1 # 34000000000) <= t <= T + (1 # 34000000000))%Q)
      by (unfold T; lra).
    assert (Id : (c * t == (c - F) * t + F * (t - T) + F * T)%Q) by ring.
    assert (A1 : (- ((1 # 9007199254740992) * 362441) <= (c - F) * t
                  <= (1 # 9007199254740992) * 362441)%Q) by nra.
    assert (A2 : (- (2 * (1 # 34000000000)) <= F * (t - T)
                  <= 2 * (1 # 34000000000))%Q) by nra.
    set (X := (c * t)%Q) in *. set (X1 := ((c - F) * t)%Q) in *.
    set (X2 := (F * (t - T))%Q) in *. set (X3 := (F * T)%Q) in *.
    assert (X3b : (X3 <= 724880)%Q) by (unfold X3; nra).
    split; [|split]; lra.
Qed.

(** ** Rendering *)

Lemma format_int (z : Q) (k : Z) :
  (z == inject_Z k)%Q -> format_f 2 0 (Fin z) = zfill 2 (str_of_Z k).
Proof.
  intros E. unfold format_f. cbn [Z.of_nat]. change (10 ^ 0) with 1.
  rewrite (Qrhe_inject (z * inject_Z 1) k).
  - now rewrite Z.div_1_r.
  - rewrite E. change (inject_Z 1) with 1%Q. ring.
Qed.

Lemma Qfloor_unique (x : Q) (k : Z) :
  (inject_Z k <= x)%Q -> (x < inject_Z k + 1)%Q -> Qfloor x = k.
Proof.
  intros L U.
  pose proof (Qfloor_le x) as L'. pose proof (Qlt_floor x) as U'.
  rewrite inject_Z_plus in U'. change (inject_Z 1) with 1%Q in U'.
  assert (A : (inject_Z k < inject_Z (Qfloor x) + 1)%Q) by lra.
  assert (B : (inject_Z (Qfloor x) < inject_Z k + 1)%Q) by lra.
  change 1%Q with (inject_Z 1) in A, B.
  rewrite <- inject_Z_plus, <- Zlt_Qlt in A, B. lia.
Qed.

Lemma inject_Z_nonneg (k : Z) : 0 <= k -> (0 <= inject_Z k)%Q.
Proof. intros H. change 0%Q with (inject_Z 0). now rewrite <- Zle_Qle. Qed.

(** The decomposition [n = 3600 H + 60 M + s] with [0 <= s < 60]. *)
Lemma fields_spec (n : Q) :
  (0 <= n)%Q ->
  let H := hours_field n in
  let M := minutes_field n in
  let s := (n - 60 * inject_Z (Qfloor (n / 60)))%Q in
  0 <= H /\ 0 <= M < 60 /\ (0 <= s)%Q /\ (s < 60)%Q /\
  (n == inject_Z (3600 * H + 60 * M) + s)%Q /\
  (inject_Z (3600 * H) <= n)%Q.
Proof.
  intros Hn H M s.
  destruct (Qfloor_div_bounds n 3600 ltac:(reflexivity) Hn) as (H0 & HL & HU).
  fold (hours_field n) in H0, HL, HU. fold H in H0, HL, HU.
  set (r := (n - 3600 * inject_Z H)%Q).
  assert (Hr : (0 <= r)%Q /\ (r < 3600)%Q) by (unfold r; lra).
  destruct (Qfloor_div_bounds r 60 ltac:(reflexivity) (proj1 Hr)) as (M0 & ML & MU).
  change (Qfloor (r / 60)) with M in M0, ML, MU.
  assert (M60 : M < 60).
  { rewrite Zlt_Qlt. change (inject_Z 60) with 60%Q. lra. }
  assert (Q60 : Qfloor (n / 60) = 60 * H + M).
  { apply Qfloor_unique; rewrite inject_Z_plus, inject_Z_mult;
      change (inject_Z 60) with 60%Q.
    - apply Qle_shift_div_l; [reflexivity|]. unfold r in ML. lra.
    - apply Qlt_shift_div_r; [reflexivity|]. unfold r in MU. lra. }
  subst s. rewrite Q60. rewrite !inject_Z_plus, !inject_Z_mult.
  change (inject_Z 60) with 60%Q. change (inject_Z 3600) with 3600%Q.
  unfold r in *. repeat split; try lia; lra.
Qed.

Lemma nanos_spec (n : Q) :
  (0 <= n)%Q ->
  let s := (n - 60 * inject_Z (Qfloor (n / 60)))%Q in
  let N := nanos_field n in
  0 <= N <= 60 * 10 ^ 9 /\
  (s - (1 # 2000000000) <= inject_Z N / inject_Z (10 ^ 9)
   <= s + (1 # 2000000000))%Q.
Proof.
  intros Hn s N.
  destruct (fields_spec n Hn) as (_ & _ & S0 & S1 & _ & _). fold s in S0, S1.
  pose proof (Qrhe_error (s * inject_Z (10 ^ 9))) as B.
  change (Qround_half_even (s * inject_Z (10 ^ 9))) with N in B.
  apply Qabs_Qle_condition in B.
  change (inject_Z (10 ^ 9)) with 1000000000%Q in *.
  split.
  - split.
    + apply Qrhe_nonneg. apply Qmult_le_0_compat; [exact S0|discriminate].
    + assert (A : (inject_Z N < inject_Z (60 * 10 ^ 9) + 1)%Q).
      { change (inject_Z (60 * 10 ^ 9)) with 60000000000%Q. lra. }
      change 1%Q with (inject_Z 1) in A.
      rewrite <- inject_Z_plus, <- Zlt_Qlt in A. lia.
  - split.
    + apply Qle_shift_div_l; [reflexivity|]. lra.
    + apply Qle_shift_div_r; [reflexivity|]. lra.
Qed.

Lemma format_timestamp_fin (n : Q) :
  (0 <= n)%Q -> (n < inject_Z (2 ^ 53))%Q ->
  format_timestamp (Fin n) = render n.
Proof.
  intros Hn Hb. unfold format_timestamp, render.
  destruct (fields_spec n Hn) as (H0 & M0 & S0 & S1 & E & HL).
  destruct (float_floordiv_exact n 3600 3600 ltac:(reflexivity) ltac:(lia) Hn Hb)
    as (z1 & F1 & E1).
  rewrite F1, (format_int z1 _ E1).
  rewrite float_mod_exact.
  set (r := (n - 3600 * inject_Z (Qfloor (n / 3600)))%Q).
  assert (Hr : (0 <= r)%Q /\ (r < inject_Z (2 ^ 53))%Q).
  { unfold r. fold (hours_field n).
    rewrite inject_Z_mult in HL. change (inject_Z 3600) with 3600%Q in HL.
    pose proof (inject_Z_nonneg _ H0). split; lra. }
  destruct (float_floordiv_exact r 60 60 ltac:(reflexivity) ltac:(lia)
              (proj1 Hr) (proj2 Hr)) as (z2 & F2 & E2).
  rewrite F2, (format_int z2 _ E2).
  reflexivity.
Qed.

Lemma nonempty_ne (s : string) : nonempty s = true <-> s <> "".
Proof. destruct s; simpl; split; congruence. Qed.

Lemma is_colon_eq (c : ascii) : is_colon c = true -> c = ":"%char.
Proof. unfold is_colon. destruct (Ascii.eqb_spec c ":"); congruence. Qed.

Lemma is_timecode_text (s : string) :
  is_timecode s = true ->
  exists h1 h2 m1 m2 s1 s2 fp,
    s = timecode_text h1 h2 m1 m2 (String s1 (String s2 "")) fp /\
    fields_ok h1 h2 m1 m2 (String s1 (String s2 "")) fp.
Proof.
  destruct s as [|h1 [|h2 [|c1 [|m1 [|m2 [|c2 [|s1 [|s2 [|dot fr]]]]]]]]];
    try discriminate.
  unfold is_timecode. rewrite !andb_true_iff.
  intros ((((((((((H1 & H2) & C1) & M1) & M2) & C2) & S1) & S2) & D) & F) & N).
  apply is_colon_eq in C1, C2. apply Ascii.eqb_eq in D. subst c1 c2 dot.
  exists h1, h2, m1, m2, s1, s2, fr. split; [reflexivity|].
  constructor; auto.
  - simpl. now rewrite S1, S2.
  - discriminate.
  - now apply nonempty_ne.
  - cbn. lia.
Qed.

Lemma timecode_value_parts (hh mm ss ff : string) :
  all_digits hh = true -> all_digits mm = true ->
  all_digits ss = true -> all_digits ff = true ->
  hh <> "" -> mm <> "" -> ss <> "" -> ff <> "" ->
  timecode_value (hh ++ ":" ++ mm ++ ":" ++ ss ++ "." ++ ff) =
  Some (inject_Z (3600 * dec_val hh + 60 * dec_val mm + dec_val ss)
        + inject_Z (dec_val ff) / inject_Z (10 ^ slen ff))%Q.
Proof.
  intros Dh Dm Ds Df Nh Nm Ns Nf. unfold timecode_value.
  rewrite (span_digits_all hh _ Dh) by reflexivity.
  change (":" ++ mm ++ ":" ++ ss ++ "." ++ ff)
    with (String ":" (mm ++ ":" ++ ss ++ "." ++ ff)).
  cbv iota beta.
  rewrite (span_digits_all mm _ Dm) by reflexivity.
  change (":" ++ ss ++ "." ++ ff) with (String ":" (ss ++ "." ++ ff)).
  cbv iota beta.
  rewrite (span_digits_all ss _ Ds) by reflexivity.
  change ("." ++ ff) with (String "." ff). cbv iota beta.
  rewrite Df.
  apply nonempty_ne in Nh, Nm, Ns, Nf. rewrite Nh, Nm, Ns, Nf.
  reflexivity.
Qed.

Lemma dec_val_two (a b : ascii) :
  dec_val (String a (String b "")) = hours_of a b.
Proof. unfold dec_val, hours_of. cbn. lia. Qed.

Lemma timecode_text_value (h1 h2 m1 m2 : ascii) (ip fp : string) :
  fields_ok h1 h2 m1 m2 ip fp ->
  exists T, timecode_value (timecode_text h1 h2 m1 m2 ip fp) = Some T /\
            (T == total_of h1 h2 m1 m2 ip fp)%Q.
Proof.
  intros [ok_h1 ok_h2 ok_m1 ok_m2 ok_ip ok_fp ok_ip_ne ok_fp_ne ok_ip_len].
  pose proof (timecode_value_parts (String h1 (String h2 ""))
                (String m1 (String m2 "")) ip fp) as V.
  eexists. split.
  - apply V; auto; try discriminate; simpl.
    + now rewrite ok_h1, ok_h2.
    + now rewrite ok_m1, ok_m2.
  - unfold total_of.
    destruct (secs_of_bounds ip fp ok_ip ok_fp ok_ip_len) as (_ & _ & E).
    rewrite E, !dec_val_two.
    set (D := (inject_Z (dec_val fp) / inject_Z (10 ^ slen fp))%Q).
    rewrite (inject_Z_plus _ (dec_val ip)). ring.
Qed.

Lemma slen_zfill_le (w : nat) (s : string) :
  slen s <= Z.of_nat w -> slen (zfill w s) = Z.of_nat w.
Proof. unfold slen. rewrite zfill_length. lia. Qed.

Lemma slen_zfill_ge (w : nat) (s : string) : Z.of_nat w <= slen (zfill w s).
Proof. unfold slen. rewrite zfill_length. lia. Qed.

Lemma slen_pos (s : string) : s <> "" -> 1 <= slen s.
Proof. destruct s; [congruence|]. unfold slen. simpl String.length. lia. Qed.

Lemma zfill_ne (w : nat) (s : string) : s <> "" -> zfill w s <> "".
Proof.
  intros H E. apply (f_equal String.length) in E.
  rewrite zfill_length in E. destruct s; [congruence|]. simpl in E. lia.
Qed.

Lemma two_digits_min (s : string) :
  all_digits s = true -> 10 <= dec_val s -> 2 <= slen s.
Proof.
  intros D H. pose proof (dec_val_bounds s D) as B.
  destruct s as [|a [|b s]]; unfold slen in *; simpl String.length in *;
    try lia; cbn in B; lia.
Qed.

(** The text of a rendered total, field by field. *)
Lemma render_parts (n : Q) :
  (0 <= n)%Q ->
  exists hh mm ss ff,
    render n = hh ++ ":" ++ mm ++ ":" ++ ss ++ "." ++ ff /\
    (all_digits hh = true /\ all_digits mm = true /\
     all_digits ss = true /\ all_digits ff = true) /\
    (dec_val hh = hours_field n /\ dec_val mm = minutes_field n /\
     dec_val ss = nanos_field n / 10 ^ 9 /\
     dec_val ff = nanos_field n mod 10 ^ 9) /\
    (2 <= slen hh /\ (hours_field n < 100 -> slen hh = 2) /\
     slen mm = 2 /\ 1 <= slen ss <= 2 /\
     (10 <= dec_val ss -> slen ss = 2) /\ slen ff = 9).
Proof.
  intros Hn.
  destruct (fields_spec n Hn) as (H0 & M0 & _).
  destruct (nanos_spec n Hn) as (N0 & _).
  set (H := hours_field n) in *. set (M := minutes_field n) in *.
  set (N := nanos_field n) in *.
  assert (Q0 : 0 <= N / 10 ^ 9 <= 60).
  { split; [apply Z.div_pos; lia|]. apply Z.div_le_upper_bound; lia. }
  pose proof (Z.mod_pos_bound N (10 ^ 9) ltac:(lia)) as R0.
  destruct (str_of_Z_spec H H0) as (Dh & Vh & Nh & Lh).
  destruct (str_of_Z_spec M ltac:(lia)) as (Dm & Vm & Nm & Lm).
  destruct (str_of_Z_spec (N / 10 ^ 9) ltac:(lia)) as (Ds & Vs & Ns & Ls).
  destruct (str_of_Z_spec (N mod 10 ^ 9) ltac:(lia)) as (Df & Vf & Nf & Lf).
  exists (zfill 2 (str_of_Z H)), (zfill 2 (str_of_Z M)),
         (str_of_Z (N / 10 ^ 9)), (zfill 9 (str_of_Z (N mod 10 ^ 9))).
  assert (Lff : slen (zfill 9 (str_of_Z (N mod 10 ^ 9))) = 9).
  { apply (slen_zfill_le 9). change (Z.of_nat 9) with 9. apply Lf; lia. }
  assert (Lss : 1 <= slen (str_of_Z (N / 10 ^ 9)) <= 2).
  { split; [now apply slen_pos|]. apply Ls; [lia|]. change (10 ^ 2) with 100. lia. }
  split; [|split; [|split]].
  - unfold render. fold H M N. rewrite (zfill_long 2 (_ ++ "." ++ _)); [reflexivity|].
    rewrite length_append. cbn [append String.length]. unfold slen in Lss. lia.
  - repeat split; auto using zfill_digits.
  - rewrite !zfill_val. auto.
  - repeat split.
    + apply (slen_zfill_ge 2).
    + intros H100. apply (slen_zfill_le 2). change (Z.of_nat 2) with 2.
      apply Lh; [lia|]. change (10 ^ 2) with 100. lia.
    + apply (slen_zfill_le 2). change (Z.of_nat 2) with 2.
      apply Lm; [lia|]. change (10 ^ 2) with 100. lia.
    + lia.
    + lia.
    + intros H10. pose proof (two_digits_min _ Ds H10). lia.
    + exact Lff.
Qed.

(** Reading a rendered total back gives it to within half a unit of the
    ninth decimal. *)
Lemma render_value (n : Q) :
  (0 <= n)%Q ->
  exists v, timecode_value (render n) = Some v /\
            (n - (1 # 2000000000) <= v <= n + (1 # 2000000000))%Q.
Proof.
  intros Hn.
  destruct (render_parts n Hn) as
    (hh & mm & ss & ff & E & (Dh & Dm & Ds & Df) & (Vh & Vm & Vs & Vf) &
     (Lh & _ & Lm & Ls & _ & Lf)).
  assert (Nh : hh <> "") by (destruct hh; [unfold slen in Lh; simpl in Lh; lia|discriminate]).
  assert (Nm : mm <> "") by (destruct mm; [discriminate Lm|discriminate]).
  assert (Ns : ss <> "") by (destruct ss; [unfold slen in Ls; simpl in Ls; lia|discriminate]).
  assert (Nf : ff <> "") by (destruct ff; [discriminate Lf|discriminate]).
  rewrite E, (timecode_value_parts hh mm ss ff) by assumption.
  eexists. split; [reflexivity|].
  rewrite Vh, Vm, Vs, Vf, Lf.
  destruct (fields_spec n Hn) as (_ & _ & _ & _ & En & _).
  destruct (nanos_spec n Hn) as (_ & Bn).
  set (s := (n - 60 * inject_Z (Qfloor (n / 60)))%Q) in *.
  set (N := nanos_field n) in *.
  assert (EN : (inject_Z (N / 10 ^ 9) + inject_Z (N mod 10 ^ 9) / inject_Z (10 ^ 9)
                == inject_Z N / inject_Z (10 ^ 9))%Q).
  { rewrite (Z.div_mod N (10 ^ 9)) at 3 by lia.
    rewrite inject_Z_plus, inject_Z_mult. field. discriminate. }
  rewrite (inject_Z_plus _ (N / 10 ^ 9)), <- Qplus_assoc, EN.
  set (X := (inject_Z N / inject_Z (10 ^ 9))%Q) in *.
  set (Y := inject_Z (3600 * hours_field n + 60 * minutes_field n)) in *.
  split; lra.
Qed.

Lemma slen_two (s : string) :
  slen s = 2 -> exists a b, s = String a (String b "").
Proof.
  unfold slen. destruct s as [|a [|b [|c s]]]; simpl String.length; try lia.
  intros _. now exists a, b.
Qed.

(** A rendered total below 100 hours is again text the corrector reads. *)
Lemma render_reparse (n : Q) :
  (0 <= n)%Q -> (n < 360000)%Q ->
  exists h1 h2 m1 m2 ip fp,
    render n = timecode_text h1 h2 m1 m2 ip fp /\
    fields_ok h1 h2 m1 m2 ip fp.
Proof.
  intros Hn Hb.
  destruct (render_parts n Hn) as
    (hh & mm & ss & ff & E & (Dh & Dm & Ds & Df) & _ &
     (_ & Lh & Lm & Ls & _ & Lf)).
  assert (H100 : hours_field n < 100).
  { destruct (fields_spec n Hn) as (_ & _ & _ & _ & _ & HL).
    rewrite Zlt_Qlt. rewrite inject_Z_mult in HL.
    change (inject_Z 3600) with 3600%Q in HL. change (inject_Z 100) with 100%Q.
    set (x := inject_Z (hours_field n)) in *. lra. }
  specialize (Lh H100).
  destruct (slen_two hh Lh) as (h1 & h2 & ->).
  destruct (slen_two mm Lm) as (m1 & m2 & ->).
  simpl in Dh, Dm. rewrite !andb_true_iff in Dh, Dm.
  exists h1, h2, m1, m2, ss, ff. split; [exact E|].
  constructor; try tauto.
  - intros ->. cbn in Ls. lia.
  - intros ->. discriminate Lf.
Qed.

Lemma hours_of_bounds (a b : ascii) :
  is_digit a = true -> is_digit b = true -> 0 <= hours_of a b <= 99.
Proof.
  intros Ha Hb. apply is_digit_val in Ha, Hb. unfold hours_of. lia.
Qed.

(** What the corrector does on well-formed text, for a factor below 2. *)
Lemma adjust_spec (cf : string) (a b : Z) (h1 h2 m1 m2 : ascii) (ip fp : string) :
  Fraction cf = Ok (a, b) -> 0 < a -> 0 < b -> a < 2 * b ->
  fields_ok h1 h2 m1 m2 ip fp ->
  exists n,
    adjust_timestamp_by cf (timecode_text h1 h2 m1 m2 ip fp) = Ok (render n) /\
    (0 <= n)%Q /\ (n <= 724881)%Q /\
    ((a # Z.to_pos b) * total_of h1 h2 m1 m2 ip fp - (1 # 5000000000) <= n
     <= (a # Z.to_pos b) * total_of h1 h2 m1 m2 ip fp + (1 # 5000000000))%Q.
Proof.
  intros HF Ha Hb Hab Hok.
  destruct (parse_fields _ _ _ _ _ _ Hok) as (P1 & P2 & P3).
  destruct Hok as [ok_h1 ok_h2 ok_m1 ok_m2 ok_ip ok_fp ok_ip_ne ok_fp_ne ok_ip_len].
  pose proof (hours_of_bounds _ _ ok_h1 ok_h2) as Bh.
  pose proof (hours_of_bounds _ _ ok_m1 ok_m2) as Bm.
  destruct (secs_of_bounds ip fp ok_ip ok_fp ok_ip_len) as (S0 & S1 & _).
  destruct (corrected_total a b (3600 * hours_of h1 h2 + 60 * hours_of m1 m2)
              (secs_of ip fp) Ha Hb Hab ltac:(lia) S0 S1)
    as (n & En & N0 & N1 & Bn).
  exists n. split; [|split; [exact N0|split; [exact N1|exact Bn]]].
  unfold adjust_timestamp_by. rewrite P1, P2, P3, HF. cbn [rbind].
  rewrite En. f_equal. apply format_timestamp_fin; [exact N0|].
  change (inject_Z (2 ^ 53)) with 9007199254740992%Q. lra.
Qed.

(** ** adjust_timestamp *)

Lemma Fraction_25_24 : Fraction CORRECTION_FACTOR = Ok (25, 24).
Proof. reflexivity. Qed.

Lemma Fraction_24_25 : Fraction "24/25" = Ok (24, 25).
Proof. reflexivity. Qed.

(** C1 (the claim fails): on "71:05:16.028078555" the exact product ends
    in ...161458 and rounds to ...161, but the corrector prints ...162:
    its value is more than half a unit of the ninth decimal away. *)
Lemma adjust_timestamp_drift_counterexample :
  exists T v,
    timecode_value "71:05:16.028078555" = Some T /\
    adjust_timestamp "71:05:16.028078555" = Ok "74:02:59.195915162" /\
    timecode_value "74:02:59.195915162" = Some v /\
    Qround_half_even ((25 # 24) * T * inject_Z (10 ^ 9)) = 266579195915161 /\
    ((1 # 2000000000) < Qabs (v - (25 # 24) * T))%Q.
Proof.
  eexists. eexists.
  split; [vm_compute; reflexivity|].
  split; [vm_compute; reflexivity|].
  split; [vm_compute; reflexivity|].
  split; vm_compute; reflexivity.
Qed.

(** C1 (amended): for every text of shape DD:DD:DD.D+ with exact value
    T seconds, the corrector returns a timecode whose value is less than
    10^-9 away from T * 25/24. *)
Theorem adjust_timestamp_value (s : string) :
  is_timecode s = true ->
  exists T out v,
    timecode_value s = Some T /\
    adjust_timestamp s = Ok out /\
    timecode_value out = Some v /\
    (Qabs (v - (25 # 24) * T) < 1 # 1000000000)%Q.
Proof.
  intros Hs.
  destruct (is_timecode_text s Hs) as (h1 & h2 & m1 & m2 & s1 & s2 & fp & -> & Hok).
  destruct (timecode_text_value _ _ _ _ _ _ Hok) as (T & ET & EqT).
  destruct (adjust_spec CORRECTION_FACTOR 25 24 _ _ _ _ _ _ Fraction_25_24
              ltac:(lia) ltac:(lia) ltac:(lia) Hok) as (n & En & N0 & _ & Bn).
  destruct (render_value n N0) as (v & Ev & Bv).
  exists T, (render n), v. repeat split; auto.
  change (Z.to_pos 24) with 24%positive in Bn. rewrite <- EqT in Bn.
  apply Qabs_Qlt_condition. set (X := ((25 # 24) * T)%Q) in *. split; lra.
Qed.

Lemma adjust_timestamp_value_witness :
  exists T out v,
    timecode_value "00:00:50.000" = Some T /\
    adjust_timestamp "00:00:50.000" = Ok out /\
    timecode_value out = Some v /\
    (Qabs (v - (25 # 24) * T) < 1 # 1000000000)%Q.
Proof. apply (adjust_timestamp_value "00:00:50.000"). reflexivity. Defined.

(** C2 (the claim fails): seconds below ten are printed with one digit,
    and hours from 100 on with three. *)
Lemma adjust_timestamp_shape_counterexample :
  adjust_timestamp "00:00:01.0" = Ok "00:00:1.041666667" /\
  is_timecode "00:00:1.041666667" = false /\
  adjust_timestamp "99:00:00.0" = Ok "103:07:30.000000000" /\
  is_timecode "103:07:30.000000000" = false.
Proof. repeat split; vm_compute; reflexivity. Qed.

(** C2 (amended): for every text of shape DD:DD:DD.D+ the corrector
    returns hours ":" minutes ":" seconds "." fraction, all digits: hours
    of at least two digits (exactly two below 100), minutes of exactly
    two digits, a fraction of exactly nine digits, and seconds of two
    digits whenever they are at least 10. *)
Theorem adjust_timestamp_shape (s : string) :
  is_timecode s = true ->
  exists hh mm ss ff,
    adjust_timestamp s = Ok (hh ++ ":" ++ mm ++ ":" ++ ss ++ "." ++ ff) /\
    all_digits hh = true /\ all_digits mm = true /\
    all_digits ss = true /\ all_digits ff = true /\
    2 <= slen hh /\ (dec_val hh < 100 -> slen hh = 2) /\
    slen mm = 2 /\
    ss <> "" /\ (10 <= dec_val ss -> slen ss = 2) /\
    slen ff = 9.
Proof.
  intros Hs.
  destruct (is_timecode_text s Hs) as (h1 & h2 & m1 & m2 & s1 & s2 & fp & -> & Hok).
  destruct (adjust_spec CORRECTION_FACTOR 25 24 _ _ _ _ _ _ Fraction_25_24
              ltac:(lia) ltac:(lia) ltac:(lia) Hok) as (n & En & N0 & _ & _).
  destruct (render_parts n N0) as
    (hh & mm & ss & ff & E & (Dh & Dm & Ds & Df) & (Vh & _) &
     (Lh & Lh2 & Lm & Ls & Ls2 & Lf)).
  exists hh, mm, ss, ff. unfold adjust_timestamp. rewrite En, E.
  repeat split; auto.
  - intros H. apply Lh2. now rewrite <- Vh.
  - intros ->. cbn in Ls. lia.
Qed.

Lemma adjust_timestamp_shape_witness :
  exists hh mm ss ff,
    adjust_timestamp "00:00:50.000"
    = Ok (hh ++ ":" ++ mm ++ ":" ++ ss ++ "." ++ ff) /\
    all_digits hh = true /\ all_digits mm = true /\
    all_digits ss = true /\ all_digits ff = true /\
    2 <= slen hh /\ (dec_val hh < 100 -> slen hh = 2) /\
    slen mm = 2 /\
    ss <> "" /\ (10 <= dec_val ss -> slen ss = 2) /\
    slen ff = 9.
Proof. apply (adjust_timestamp_shape "00:00:50.000"). reflexivity. Defined.

(** C3 (the code breaks the claim): the seconds are split off before
    they are rounded to nine decimals, so 59.9999999998958... is printed
    as 60.000000000 and nothing carries into the minutes. *)
Theorem adjust_timestamp_seconds_overflow :
  is_timecode "00:00:57.5999999999" = true /\
  adjust_timestamp "00:00:57.5999999999" = Ok "00:00:60.000000000".
Proof. split; vm_compute; reflexivity. Qed.

(** C4 (the claim fails): with the factor 1/10^10 the first correction
    prints zero and the way back cannot restore one second; and with the
    program's own factor a time of 99 hours comes out with three digits of
    hours, which the corrector cannot read again. *)
Lemma roundtrip_counterexample :
  adjust_timestamp_by "1/10000000000" "00:00:01.0" = Ok "00:00:0.000000000" /\
  adjust_timestamp_by "10000000000" "00:00:0.000000000"
  = Ok "00:00:0.000000000" /\
  adjust_timestamp_by "25/24" "99:00:00.0" = Ok "103:07:30.000000000" /\
  adjust_timestamp_by "24/25" "103:07:30.000000000" = Raise ValueError /\
  re_sub (adjust_timestamp_by "24/25") "103:07:30.000000000"
  = Ok "103:00:0.000000000".
Proof. repeat split; vm_compute; reflexivity. Qed.

(** C4 (amended): for the program's factor 25/24 and a text of shape
    DD:DD:DD.D+ whose corrected time is at most 359999 seconds, correcting
    by 25/24 and then by 24/25 gives a timecode within 1.5 * 10^-9 seconds
    of the original. *)
Theorem roundtrip_within_precision (s : string) (T : Q) :
  is_timecode s = true ->
  timecode_value s = Some T ->
  ((25 # 24) * T <= 359999)%Q ->
  exists out1 out2 v,
    adjust_timestamp_by "25/24" s = Ok out1 /\
    adjust_timestamp_by "24/25" out1 = Ok out2 /\
    timecode_value out2 = Some v /\
    (Qabs (v - T) <= 3 # 2000000000)%Q.
Proof.
  intros Hs HT Hb.
  destruct (is_timecode_text s Hs) as (h1 & h2 & m1 & m2 & s1 & s2 & fp & -> & Hok).
  destruct (timecode_text_value _ _ _ _ _ _ Hok) as (T' & ET & EqT).
  rewrite HT in ET. injection ET as <-.
  destruct (adjust_spec "25/24" 25 24 _ _ _ _ _ _ Fraction_25_24
              ltac:(lia) ltac:(lia) ltac:(lia) Hok) as (n1 & E1 & N10 & _ & B1).
  change (Z.to_pos 24) with 24%positive in B1. rewrite <- EqT in B1.
  assert (N1b : (n1 < 360000)%Q) by lra.
  destruct (render_reparse n1 N10 N1b) as (a1 & a2 & b1 & b2 & ip & fq & R1 & Hok1).
  destruct (render_value n1 N10) as (v1 & Ev1 & Bv1).
  destruct (timecode_text_value _ _ _ _ _ _ Hok1) as (T1 & ET1 & EqT1).
  rewrite <- R1, Ev1 in ET1. injection ET1 as <-.
  destruct (adjust_spec "24/25" 24 25 _ _ _ _ _ _ Fraction_24_25
              ltac:(lia) ltac:(lia) ltac:(lia) Hok1) as (n2 & E2 & N20 & _ & B2).
  change (Z.to_pos 25) with 25%positive in B2. rewrite <- EqT1 in B2.
  destruct (render_value n2 N20) as (v2 & Ev2 & Bv2).
  exists (render n1), (render n2), v2. rewrite R1 at 2.
  repeat split; auto.
  apply Qabs_Qle_condition. split; lra.
Qed.

Lemma roundtrip_within_precision_witness :
  exists out1 out2 v,
    adjust_timestamp_by "25/24" "00:00:50.000" = Ok out1 /\
    adjust_timestamp_by "24/25" out1 = Ok out2 /\
    timecode_value out2 = Some v /\
    (Qabs (v - (50000 # 1000)) <= 3 # 2000000000)%Q.
Proof.
  refine (roundtrip_within_precision "00:00:50.000" (50000 # 1000) _ _ _).
  - reflexivity.
  - vm_compute. reflexivity.
  - vm_compute. discriminate.
Defined.

(** ** edit_timecodes *)

Lemma concat_str_app (a b : list string) :
  concat_str (a ++ b) = concat_str a ++ concat_str b.
Proof.
  induction a as [|x a IH]; simpl; [reflexivity|].
  now rewrite IH, append_assoc.
Qed.

Lemma span_digits_split (s ds r : string) :
  span_digits s = (ds, r) -> s = ds ++ r /\ all_digits ds = true.
Proof.
  revert ds r. induction s as [|c s IH]; intros ds r; simpl.
  - intros [= <- <-]. split; reflexivity.
  - destruct (is_digit c) eqn:Hc.
    + destruct (span_digits s) as [d r'] eqn:E.
      intros [= <- <-]. destruct (IH _ _ eq_refl) as [-> D].
      split; [reflexivity|]. simpl. now rewrite Hc, D.
    + intros [= <- <-]. split; reflexivity.
Qed.

Lemma match_timecode_split (s m r : string) :
  match_timecode s = Some (m, r) ->
  s = m ++ r /\ (String.length r < String.length s)%nat /\
  matches_pattern m = true.
Proof.
  destruct s as [|h1 [|h2 [|c1 [|m1 [|m2 [|c2 [|s1 [|s2 [|sep t]]]]]]]]];
    try discriminate.
  unfold match_timecode.
  destruct (is_digit h1 && is_digit h2 && is_colon c1 &&
            is_digit m1 && is_digit m2 && is_colon c2 &&
            is_digit s1 && is_digit s2 && negb (Ascii.eqb sep LF)) eqn:G;
    [|discriminate].
  destruct (span_digits t) as [[|d ds] r'] eqn:E; [discriminate|].
  intros [= <- <-].
  destruct (span_digits_split _ _ _ E) as [-> D].
  split; [reflexivity|]. split.
  - simpl. rewrite length_append. simpl. lia.
  - unfold matches_pattern, match_timecode. rewrite G.
    rewrite <- (append_nil_r (String d ds)) at 1.
    rewrite (span_digits_all (String d ds) "" D I). reflexivity.
Qed.

Lemma scan_src (fuel : nat) (s : string) :
  (String.length s <= fuel)%nat ->
  concat_str (map piece_src (scan fuel s)) = s.
Proof.
  revert s. induction fuel as [|fuel IH]; intros s Hl.
  - destruct s; [reflexivity|simpl in Hl; lia].
  - cbn [scan]. destruct (match_timecode s) as [[m r]|] eqn:E.
    + destruct (match_timecode_split _ _ _ E) as (-> & L & _).
      cbn [map concat_str piece_src]. rewrite IH; [reflexivity|].
      rewrite length_append in *. lia.
    + destruct s as [|c s]; [reflexivity|].
      cbn [map concat_str piece_src]. rewrite IH; [reflexivity|].
      simpl in Hl. lia.
Qed.

Lemma pieces_src (s : string) : concat_str (map piece_src (pieces s)) = s.
Proof. apply scan_src. unfold pieces. lia. Qed.

Lemma scan_hit (fuel : nat) (s m : string) :
  In (Hit m) (scan fuel s) ->
  exists a b, s = a ++ m ++ b /\ matches_pattern m = true.
Proof.
  revert s. induction fuel as [|fuel IH]; intros s; [intros []|].
  cbn [scan]. destruct (match_timecode s) as [[m' r]|] eqn:E.
  - destruct (match_timecode_split _ _ _ E) as (-> & _ & P).
    intros [[= ->]|H].
    + exists "", r. split; [reflexivity|exact P].
    + destruct (IH _ H) as (a & b & -> & P').
      exists (m' ++ a), b. split; [now rewrite append_assoc|exact P'].
  - destruct s as [|c s]; [intros []|].
    intros [[=]|H]. destruct (IH _ H) as (a & b & -> & P').
    exists (String c a), b. split; [reflexivity|exact P'].
Qed.

(** The lines of a text, put back together, are the text. *)
Lemma lines_from_concat (s cur : string) :
  concat_str (lines_from cur s) = cur ++ s.
Proof.
  revert cur. induction s as [|c s IH]; intros cur.
  - cbn [lines_from]. rewrite append_nil_r.
    destruct cur; [reflexivity|]. simpl. now rewrite append_nil_r.
  - cbn [lines_from]. destruct (Ascii.eqb c LF).
    + cbn [concat_str]. rewrite (IH ""). now rewrite append_assoc.
    + rewrite IH. now rewrite append_assoc.
Qed.

Lemma file_lines_concat (s : string) : concat_str (file_lines s) = s.
Proof. apply (lines_from_concat s ""). Qed.

Lemma read_translate_no_cr (s : string) :
  no_cr s = true -> read_translate s = s.
Proof.
  induction s as [|c s IH]; [reflexivity|]. simpl.
  intros H. apply andb_true_iff in H as [Hc Hs].
  apply negb_true_iff in Hc. rewrite Hc. now rewrite IH.
Qed.

Lemma write_translate_lf (s : string) :
  write_translate (String LF "") s = s.
Proof.
  induction s as [|c s IH]; [reflexivity|]. simpl.
  destruct (Ascii.eqb_spec c LF) as [->|]; now rewrite IH.
Qed.

Lemma write_translate_app (linesep a b : string) :
  write_translate linesep (a ++ b) =
  write_translate linesep a ++ write_translate linesep b.
Proof.
  induction a as [|c a IH]; [reflexivity|]. simpl.
  destruct (Ascii.eqb c LF); rewrite IH; [now rewrite append_assoc|reflexivity].
Qed.

Lemma adjust_timestamp_total (m : string) :
  is_timecode m = true -> exists out, adjust_timestamp m = Ok out.
Proof.
  intros H.
  destruct (is_timecode_text m H) as (h1 & h2 & m1 & m2 & s1 & s2 & fp & -> & Hok).
  destruct (adjust_spec CORRECTION_FACTOR 25 24 _ _ _ _ _ _ Fraction_25_24
              ltac:(lia) ltac:(lia) ltac:(lia) Hok) as (n & En & _).
  eexists. exact En.
Qed.

Lemma substitute_ok (ps : list piece) :
  (forall m, In (Hit m) ps -> is_timecode m = true) ->
  exists outs, Forall2 rewritten ps outs /\
               substitute adjust_timestamp ps = Ok (concat_str outs).
Proof.
  induction ps as [|p ps IH]; intros H.
  - exists []. split; [constructor|reflexivity].
  - destruct IH as (outs & F & E); [intros; apply H; now right|].
    destruct p as [c|m].
    + exists (String c "" :: outs). split; [constructor; [reflexivity|exact F]|].
      cbn [substitute]. rewrite E. reflexivity.
    + destruct (adjust_timestamp_total m (H m (or_introl eq_refl))) as (o & Eo).
      exists (o :: outs). split; [constructor; [exact Eo|exact F]|].
      cbn [substitute]. rewrite Eo, E. reflexivity.
Qed.

Lemma rewrite_lines_ok (linesep : string) (lines : list string) (written : string) :
  (forall m, In (Hit m) (flat_map pieces lines) -> is_timecode m = true) ->
  exists outs,
    Forall2 rewritten (flat_map pieces lines) outs /\
    rewrite_lines linesep lines written =
    (written ++ write_translate linesep (concat_str outs), Ok tt).
Proof.
  revert written. induction lines as [|l lines IH]; intros written H.
  - exists []. split; [constructor|]. simpl. now rewrite append_nil_r.
  - cbn [flat_map] in H |- *.
    destruct (substitute_ok (pieces l)) as (o1 & F1 & E1).
    { intros m Hm. apply H, in_or_app. now left. }
    destruct (IH (written ++ write_translate linesep (concat_str o1))) as (o2 & F2 & E2).
    { intros m Hm. apply H, in_or_app. now right. }
    exists (o1 ++ o2)%list. split; [now apply Forall2_app|].
    cbn [rewrite_lines]. unfold re_sub. rewrite E1, E2.
    now rewrite concat_str_app, write_translate_app, append_assoc.
Qed.

Lemma lits_only (ps : list piece) (outs : list string) :
  (forall m, ~ In (Hit m) ps) -> Forall2 rewritten ps outs ->
  concat_str outs = concat_str (map piece_src ps).
Proof.
  intros H F. induction F as [|p o ps outs R F IH]; [reflexivity|].
  destruct p as [c|m].
  - simpl in R. subst o. cbn [map concat_str piece_src].
    rewrite IH; [reflexivity|]. intros m Hm. apply (H m). now right.
  - exfalso. apply (H m). now left.
Qed.

Lemma flat_map_src (lines : list string) :
  concat_str (map piece_src (flat_map pieces lines)) = concat_str lines.
Proof.
  induction lines as [|l lines IH]; [reflexivity|].
  cbn [flat_map]. rewrite map_app, concat_str_app, pieces_src, IH. reflexivity.
Qed.

Lemma in_lines_occurs (lines : list string) (l : string) :
  In l lines -> exists a b, concat_str lines = a ++ l ++ b.
Proof.
  induction lines as [|x lines IH]; [intros []|].
  intros [->|H].
  - exists "", (concat_str lines). reflexivity.
  - destruct (IH H) as (a & b & E). exists (x ++ a), b.
    cbn [concat_str]. now rewrite E, append_assoc.
Qed.

Lemma hit_occurs (text m : string) :
  In (Hit m) (flat_map pieces (file_lines text)) ->
  exists a b, text = a ++ m ++ b /\ matches_pattern m = true.
Proof.
  intros H. apply in_flat_map in H as (l & Hl & Hm).
  destruct (in_lines_occurs _ _ Hl) as (a & b & E).
  rewrite file_lines_concat in E.
  destruct (scan_hit _ _ _ Hm) as (a' & b' & -> & P).
  exists (a ++ a'), (b' ++ b). split; [|exact P].
  rewrite E. now rewrite !append_assoc.
Qed.

Lemma is_timecode_length (m : string) :
  is_timecode m = true -> (10 <= String.length m)%nat.
Proof.
  destruct m as [|h1 [|h2 [|c1 [|m1 [|m2 [|c2 [|s1 [|s2 [|dot [|d fr]]]]]]]]]];
    try discriminate.
  - unfold is_timecode. rewrite !andb_true_iff. intros [_ H]. discriminate H.
  - intros _. simpl. lia.
Qed.

(** C5 (the claim fails): a source with a CR LF line ending and no
    timecode in it is written with a bare LF; and text that is no timecode
    of the shape but matches the pattern (the dot is unescaped) stops the
    rewrite with [ValueError], leaving an empty destination. *)
Lemma edit_timecodes_counterexample :
  (forall a m b, crlf_source = a ++ m ++ b -> is_timecode m = false) /\
  files (snd (edit_timecodes (String LF "") "old.xml" "new.xml"
                (world_with "old.xml" crlf_source))) "new.xml"
  = Some ("a" ++ String LF "b") /\
  "a" ++ String LF "b" <> crlf_source /\
  edit_timecodes (String LF "") "old.xml" "new.xml"
    (world_with "old.xml" "01:02:03:04")
  = (Raise ValueError,
     {| files := fs_write "new.xml" "" (fs_write "new.xml" ""
                   (fs_write "old.xml" "01:02:03:04" (fun _ => None)));
        invoked := [] |}).
Proof.
  split; [|split; [|split]].
  - intros a m b E. destruct (is_timecode m) eqn:H; [|reflexivity].
    apply is_timecode_length in H.
    apply (f_equal String.length) in E.
    rewrite !length_append in E. simpl in E. lia.
  - reflexivity.
  - discriminate.
  - reflexivity.
Qed.

(** C5 (amended): the source is read with CR LF and CR turned into LF
    and written with LF turned into [os.linesep].  When every match of the
    pattern in the text read is a timecode DD:DD:DD.D+, the destination
    holds that text with each match replaced by its correction and every
    other character kept, in order; a text in which the pattern matches
    nowhere is written as read; and a source without CR, with LF as
    [os.linesep], is read and written byte for byte. *)
Theorem edit_timecodes_frame (linesep infile outfile raw : string) (w : world) :
  files w infile = Some raw -> infile <> outfile ->
  let text := read_translate raw in
  let segs := flat_map pieces (file_lines text) in
  ((forall m, In (Hit m) segs -> is_timecode m = true) ->
   exists outs w',
     edit_timecodes linesep infile outfile w = (Ok tt, w') /\
     files w' outfile = Some (write_translate linesep (concat_str outs)) /\
     concat_str (map piece_src segs) = text /\
     Forall2 rewritten segs outs) /\
  ((forall a m b, text = a ++ m ++ b -> matches_pattern m = false) ->
   exists w',
     edit_timecodes linesep infile outfile w = (Ok tt, w') /\
     files w' outfile = Some (write_translate linesep text)) /\
  (no_cr raw = true -> text = raw) /\
  (linesep = String LF "" -> forall t, write_translate linesep t = t).
Proof.
  intros Hin Hne text segs.
  assert (Src : concat_str (map piece_src segs) = text).
  { unfold segs. now rewrite flat_map_src, file_lines_concat. }
  assert (Run : (forall m, In (Hit m) segs -> is_timecode m = true) ->
          exists outs w',
            edit_timecodes linesep infile outfile w = (Ok tt, w') /\
            files w' outfile = Some (write_translate linesep (concat_str outs)) /\
            Forall2 rewritten segs outs).
  { intros Hhits.
    destruct (rewrite_lines_ok linesep (file_lines text) "" Hhits) as (outs & F & E).
    assert (R : fs_write outfile "" (files w) infile = Some raw).
    { unfold fs_write. apply String.eqb_neq in Hne. now rewrite Hne. }
    exists outs. unfold edit_timecodes. rewrite Hin. cbv zeta. rewrite R.
    fold text. rewrite E. eexists. split; [reflexivity|].
    split; [|exact F]. cbn [files]. unfold fs_write at 1.
    now rewrite String.eqb_refl. }
  split; [|split; [|split]].
  - intros Hhits. destruct (Run Hhits) as (outs & w' & E & Fw & F).
    exists outs, w'. auto.
  - intros Hno.
    assert (Hnone : forall m, ~ In (Hit m) segs).
    { intros m Hm. destruct (hit_occurs text m Hm) as (a & b & E & P).
      rewrite (Hno a m b E) in P. discriminate P. }
    destruct Run as (outs & w' & E & Fw & F).
    { intros m Hm. destruct (Hnone m Hm). }
    exists w'. split; [exact E|].
    rewrite Fw, (lits_only segs outs Hnone F), Src. reflexivity.
  - apply read_translate_no_cr.
  - intros ->. apply write_translate_lf.
Qed.

Lemma edit_timecodes_frame_witness :
  exists outs w',
    edit_timecodes (String LF "") "old.xml" "new.xml"
      (world_with "old.xml" chapter_source) = (Ok tt, w') /\
    files w' "new.xml" = Some (write_translate (String LF "") (concat_str outs)) /\
    concat_str (map piece_src
                  (flat_map pieces (file_lines (read_translate chapter_source))))
    = read_translate chapter_source /\
    Forall2 rewritten
      (flat_map pieces (file_lines (read_translate chapter_source))) outs.
Proof.
  refine (proj1 (edit_timecodes_frame (String LF "") "old.xml" "new.xml"
                   chapter_source (world_with "old.xml" chapter_source) _ _) _).
  - reflexivity.
  - discriminate.
  - intros m Hm. vm_compute in Hm.
    repeat (destruct Hm as [Hm|Hm]; [try discriminate Hm|]);
      try contradiction.
    injection Hm as <-. reflexivity.
Defined.

(** * Further properties of the code *)

(** ** adjust_timestamp: fields, exact values, order *)

(** Reading a rendered total back: its value is a whole number of
    nanoseconds, within half a unit of the total. *)
Lemma render_value_nanos (n : Q) :
  (0 <= n)%Q ->
  exists v K, timecode_value (render n) = Some v /\
              (v == inject_Z K / inject_Z (10 ^ 9))%Q /\
              (n - (1 # 2000000000) <= v <= n + (1 # 2000000000))%Q.
Proof.
  intros Hn.
  destruct (render_parts n Hn) as
    (hh & mm & ss & ff & E & (Dh & Dm & Ds & Df) & (Vh & Vm & Vs & Vf) &
     (Lh & _ & Lm & Ls & _ & Lf)).
  destruct (render_value n Hn) as (v & Ev & Bv).
  exists v, ((3600 * hours_field n + 60 * minutes_field n) * 10 ^ 9 + nanos_field n).
  split; [exact Ev|]. split; [|exact Bv].
  assert (Nh : hh <> "") by (intros ->; cbn in Lh; lia).
  assert (Nm : mm <> "") by (intros ->; discriminate Lm).
  assert (Ns : ss <> "") by (intros ->; cbn in Ls; lia).
  assert (Nf : ff <> "") by (intros ->; discriminate Lf).
  rewrite E, (timecode_value_parts hh mm ss ff) in Ev by assumption.
  injection Ev as <-. rewrite Vh, Vm, Vs, Vf, Lf.
  set (N := nanos_field n). set (A := 3600 * hours_field n + 60 * minutes_field n).
  assert (EN : (inject_Z N == inject_Z (10 ^ 9) * inject_Z (N / 10 ^ 9)
                              + inject_Z (N mod 10 ^ 9))%Q).
  { rewrite <- inject_Z_mult, <- inject_Z_plus, <- Z.div_mod by lia. reflexivity. }
  rewrite (inject_Z_plus A), (inject_Z_plus (A * 10 ^ 9)), inject_Z_mult, EN.
  field. discriminate.
Qed.

(** X1: in the corrected timecode of a text of shape DD:DD:DD.D+ the
    minutes are below 60 and the seconds at most 60; they are 60 only
    with a fraction of nine zeros. *)
Theorem adjust_timestamp_fields_bounded (s : string) :
  is_timecode s = true ->
  exists hh mm ss ff,
    adjust_timestamp s = Ok (hh ++ ":" ++ mm ++ ":" ++ ss ++ "." ++ ff) /\
    all_digits hh = true /\ all_digits mm = true /\
    all_digits ss = true /\ all_digits ff = true /\
    dec_val mm < 60 /\ dec_val ss <= 60 /\
    (dec_val ss = 60 -> dec_val ff = 0).
Proof.
  intros Hs.
  destruct (is_timecode_text s Hs) as (h1 & h2 & m1 & m2 & s1 & s2 & fp & -> & Hok).
  destruct (adjust_spec CORRECTION_FACTOR 25 24 _ _ _ _ _ _ Fraction_25_24
              ltac:(lia) ltac:(lia) ltac:(lia) Hok) as (n & En & N0 & _ & _).
  destruct (render_parts n N0) as
    (hh & mm & ss & ff & E & (Dh & Dm & Ds & Df) & (_ & Vm & Vs & Vf) & _).
  destruct (fields_spec n N0) as (_ & M0 & _).
  destruct (nanos_spec n N0) as (NB & _).
  exists hh, mm, ss, ff. unfold adjust_timestamp. rewrite En, E.
  repeat split; auto.
  - rewrite Vm. lia.
  - rewrite Vs. apply Z.div_le_upper_bound; lia.
  - rewrite Vs, Vf. intros H60.
    pose proof (Z.div_mod (nanos_field n) (10 ^ 9) ltac:(lia)) as D.
    pose proof (Z.mod_pos_bound (nanos_field n) (10 ^ 9) ltac:(lia)) as B.
    lia.
Qed.

Lemma adjust_timestamp_fields_bounded_witness :
  exists hh mm ss ff,
    adjust_timestamp "00:59:59.999"
    = Ok (hh ++ ":" ++ mm ++ ":" ++ ss ++ "." ++ ff) /\
    all_digits hh = true /\ all_digits mm = true /\
    all_digits ss = true /\ all_digits ff = true /\
    dec_val mm < 60 /\ dec_val ss <= 60 /\
    (dec_val ss = 60 -> dec_val ff = 0).
Proof. apply (adjust_timestamp_fields_bounded "00:59:59.999"). reflexivity. Defined.

(** X2: when the corrected time T * 25/24 is a whole number of
    nanoseconds, the timecode returned has exactly that value. *)
Theorem adjust_timestamp_exact (s : string) (T : Q) (X : Z) :
  is_timecode s = true ->
  timecode_value s = Some T ->
  ((25 # 24) * T == inject_Z X / inject_Z (10 ^ 9))%Q ->
  exists out v,
    adjust_timestamp s = Ok out /\
    timecode_value out = Some v /\
    (v == (25 # 24) * T)%Q.
Proof.
  intros Hs HT HX.
  destruct (is_timecode_text s Hs) as (h1 & h2 & m1 & m2 & s1 & s2 & fp & -> & Hok).
  destruct (timecode_text_value _ _ _ _ _ _ Hok) as (T' & ET & EqT).
  rewrite HT in ET. injection ET as <-.
  destruct (adjust_spec CORRECTION_FACTOR 25 24 _ _ _ _ _ _ Fraction_25_24
              ltac:(lia) ltac:(lia) ltac:(lia) Hok) as (n & En & N0 & _ & Bn).
  change (Z.to_pos 24) with 24%positive in Bn. rewrite <- EqT in Bn.
  destruct (render_value_nanos n N0) as (v & K & Ev & EK & Bv).
  exists (render n), v. split; [exact En|]. split; [exact Ev|].
  rewrite HX in Bn |- *. rewrite EK in Bv |- *.
  assert (K = X).
  { assert (A : (inject_Z K < inject_Z X + 1)%Q /\ (inject_Z X < inject_Z K + 1)%Q).
    { change (inject_Z (10 ^ 9)) with 1000000000%Q in *.
      set (k := inject_Z K) in *. set (x := inject_Z X) in *.
      assert (Ek : (k / 1000000000 * 1000000000 == k)%Q) by (field).
      assert (Ex : (x / 1000000000 * 1000000000 == x)%Q) by (field).
      set (kq := (k / 1000000000)%Q) in *. set (xq := (x / 1000000000)%Q) in *.
      split; lra. }
    destruct A as [A1 A2]. change 1%Q with (inject_Z 1) in A1, A2.
    rewrite <- inject_Z_plus, <- Zlt_Qlt in A1, A2. lia. }
  subst K. reflexivity.
Qed.

Lemma adjust_timestamp_exact_witness :
  exists out v,
    adjust_timestamp "00:00:48.000" = Ok out /\
    timecode_value out = Some v /\
    (v == (25 # 24) * (48000 # 1000))%Q.
Proof.
  refine (adjust_timestamp_exact "00:00:48.000" (48000 # 1000) 50000000000 _ _ _).
  - reflexivity.
  - vm_compute. reflexivity.
  - vm_compute. reflexivity.
Defined.

(** X3: correcting a timecode and then correcting the result scales
    the time by (25/24)^2, to within 1.5 * 10^-9 seconds, as long as the
    first result is at most 359999 seconds: [adjust_timestamp] is not
    idempotent. *)
Theorem double_correction (s : string) (T : Q) :
  is_timecode s = true ->
  timecode_value s = Some T ->
  ((25 # 24) * T <= 359999)%Q ->
  exists out1 out2 v,
    adjust_timestamp s = Ok out1 /\
    adjust_timestamp out1 = Ok out2 /\
    timecode_value out2 = Some v /\
    (Qabs (v - (625 # 576) * T) <= 3 # 2000000000)%Q.
Proof.
  intros Hs HT Hb.
  destruct (is_timecode_text s Hs) as (h1 & h2 & m1 & m2 & s1 & s2 & fp & -> & Hok).
  destruct (timecode_text_value _ _ _ _ _ _ Hok) as (T' & ET & EqT).
  rewrite HT in ET. injection ET as <-.
  destruct (adjust_spec CORRECTION_FACTOR 25 24 _ _ _ _ _ _ Fraction_25_24
              ltac:(lia) ltac:(lia) ltac:(lia) Hok) as (n1 & E1 & N10 & _ & B1).
  change (Z.to_pos 24) with 24%positive in B1. rewrite <- EqT in B1.
  assert (N1b : (n1 < 360000)%Q) by lra.
  destruct (render_reparse n1 N10 N1b) as (a1 & a2 & b1 & b2 & ip & fq & R1 & Hok1).
  destruct (render_value n1 N10) as (v1 & Ev1 & Bv1).
  destruct (timecode_text_value _ _ _ _ _ _ Hok1) as (T1 & ET1 & EqT1).
  rewrite <- R1, Ev1 in ET1. injection ET1 as <-.
  destruct (adjust_spec CORRECTION_FACTOR 25 24 _ _ _ _ _ _ Fraction_25_24
              ltac:(lia) ltac:(lia) ltac:(lia) Hok1) as (n2 & E2 & N20 & _ & B2).
  change (Z.to_pos 24) with 24%positive in B2. rewrite <- EqT1 in B2.
  destruct (render_value n2 N20) as (v2 & Ev2 & Bv2).
  exists (render n1), (render n2), v2. unfold adjust_timestamp. rewrite R1 at 2.
  repeat split; auto.
  apply Qabs_Qle_condition. split; lra.
Qed.

Lemma double_correction_witness :
  exists out1 out2 v,
    adjust_timestamp "00:00:50.000" = Ok out1 /\
    adjust_timestamp out1 = Ok out2 /\
    timecode_value out2 = Some v /\
    (Qabs (v - (625 # 576) * (50000 # 1000)) <= 3 # 2000000000)%Q.
Proof.
  refine (double_correction "00:00:50.000" (50000 # 1000) _ _ _).
  - reflexivity.
  - vm_compute. reflexivity.
  - vm_compute. discriminate.
Defined.

(** The corrected value of a timecode, to within 0.7 * 10^-9. *)
Lemma adjust_timestamp_near (s : string) (T : Q) :
  is_timecode s = true -> timecode_value s = Some T ->
  exists out v,
    adjust_timestamp s = Ok out /\ timecode_value out = Some v /\
    ((25 # 24) * T - (7 # 10000000000) <= v
     <= (25 # 24) * T + (7 # 10000000000))%Q.
Proof.
  intros Hs HT.
  destruct (is_timecode_text s Hs) as (h1 & h2 & m1 & m2 & s1 & s2 & fp & -> & Hok).
  destruct (timecode_text_value _ _ _ _ _ _ Hok) as (T' & ET & EqT).
  rewrite HT in ET. injection ET as <-.
  destruct (adjust_spec CORRECTION_FACTOR 25 24 _ _ _ _ _ _ Fraction_25_24
              ltac:(lia) ltac:(lia) ltac:(lia) Hok) as (n & En & N0 & _ & Bn).
  change (Z.to_pos 24) with 24%positive in Bn. rewrite <- EqT in Bn.
  destruct (render_value n N0) as (v & Ev & Bv).
  exists (render n), v. split; [exact En|]. split; [exact Ev|].
  set (X := ((25 # 24) * T)%Q) in *. split; lra.
Qed.

(** X4: correction keeps timecodes in order: of two timecodes at least
    two nanoseconds apart, the earlier one is still the earlier one after
    both are corrected. *)
Theorem adjust_timestamp_keeps_order (s1 s2 : string) (T1 T2 : Q) :
  is_timecode s1 = true -> is_timecode s2 = true ->
  timecode_value s1 = Some T1 -> timecode_value s2 = Some T2 ->
  (T1 + (2 # 1000000000) <= T2)%Q ->
  exists out1 out2 v1 v2,
    adjust_timestamp s1 = Ok out1 /\ adjust_timestamp s2 = Ok out2 /\
    timecode_value out1 = Some v1 /\ timecode_value out2 = Some v2 /\
    (v1 < v2)%Q.
Proof.
  intros H1 H2 E1 E2 Hd.
  destruct (adjust_timestamp_near s1 T1 H1 E1) as (o1 & v1 & A1 & V1 & B1).
  destruct (adjust_timestamp_near s2 T2 H2 E2) as (o2 & v2 & A2 & V2 & B2).
  exists o1, o2, v1, v2. repeat split; auto. lra.
Qed.

Lemma adjust_timestamp_keeps_order_witness :
  exists out1 out2 v1 v2,
    adjust_timestamp "00:00:50.000" = Ok out1 /\
    adjust_timestamp "00:00:50.001" = Ok out2 /\
    timecode_value out1 = Some v1 /\ timecode_value out2 = Some v2 /\
    (v1 < v2)%Q.
Proof.
  apply (adjust_timestamp_keeps_order "00:00:50.000" "00:00:50.001"
           (50000 # 1000) (50001 # 1000)).
  - reflexivity.
  - reflexivity.
  - vm_compute. reflexivity.
  - vm_compute. reflexivity.
  - vm_compute. discriminate.
Defined.

(** ** Matches that are no timecodes *)

Lemma matches_pattern_text (m : string) :
  matches_pattern m = true ->
  exists h1 h2 m1 m2 s1 s2 c d ds,
    m = String h1 (String h2 (String ":" (String m1 (String m2 (String ":"
          (String s1 (String s2 (String c (String d ds))))))))) /\
    (is_digit h1 = true /\ is_digit h2 = true /\ is_digit m1 = true /\
     is_digit m2 = true /\ is_digit s1 = true /\ is_digit s2 = true) /\
    all_digits (String d ds) = true.
Proof.
  unfold matches_pattern.
  destruct m as [|h1 [|h2 [|c1 [|m1 [|m2 [|c2 [|s1 [|s2 [|c t]]]]]]]]];
    try discriminate.
  unfold match_timecode.
  destruct (is_digit h1 && is_digit h2 && is_colon c1 &&
            is_digit m1 && is_digit m2 && is_colon c2 &&
            is_digit s1 && is_digit s2 && negb (Ascii.eqb c LF)) eqn:G;
    [|discriminate].
  destruct (span_digits t) as [[|d ds] r'] eqn:E; [discriminate|].
  destruct r'; [|discriminate]. intros _.
  destruct (span_digits_split _ _ _ E) as [-> D].
  rewrite !andb_true_iff in G.
  destruct G as ((((((((H1 & H2) & C1) & M1) & M2) & C2) & S1) & S2) & _).
  apply is_colon_eq in C1, C2. subst c1 c2.
  exists h1, h2, m1, m2, s1, s2, c, d, ds.
  rewrite append_nil_r. repeat split; auto.
Qed.

Lemma digitpart_digits (ds : string) :
  all_digits ds = true -> ds <> "" ->
  digitpart ds = Some (dec_val ds, String.length ds, "").
Proof.
  intros D N. rewrite <- (append_nil_r ds) at 1.
  now apply digitpart_all.
Qed.

(** [float()] on two digits, a separator and a run of digits. *)
Lemma py_float_separator (s1 s2 c d : ascii) (ds : string) :
  is_digit s1 = true -> is_digit s2 = true ->
  all_digits (String d ds) = true ->
  if float_separator c
  then exists x, py_float (String s1 (String s2 (String c (String d ds)))) = Ok x
  else py_float (String s1 (String s2 (String c (String d ds)))) = Raise ValueError.
Proof.
  intros S1 S2 D. unfold float_separator.
  pose proof D as D'. simpl in D'. apply andb_true_iff in D' as [Dd Dds].
  destruct (is_digit c) eqn:Cd; cbn [orb].
  { (* a digit: one long integer *)
    assert (A : all_digits (String s1 (String s2 (String c (String d ds)))) = true).
    { simpl. now rewrite S1, S2, Cd, Dd, Dds. }
    unfold py_float. rewrite (digitpart_digits _ A) by discriminate.
    cbn [fraction_part exponent_part]. eexists. reflexivity. }
  destruct (Ascii.eqb_spec c ".") as [->|Cdot]; cbn [orb].
  { change (String s1 (String s2 (String "." (String d ds))))
      with (String s1 (String s2 "") ++ String "." (String d ds)).
    rewrite py_float_fields; try discriminate; auto.
    - eexists. reflexivity.
    - simpl. now rewrite S1, S2. }
  destruct (Ascii.eqb_spec c "_") as [->|Cus]; cbn [orb].
  { unfold py_float, digitpart. rewrite S1. cbn [digits_tail]. rewrite S2.
    change (is_digit "_") with false. change (Ascii.eqb "_" "_") with true.
    cbv iota. rewrite Dd.
    rewrite <- (append_nil_r ds).
    rewrite (digits_tail_all ds "" _ _ Dds I).
    cbn [fraction_part exponent_part]. eexists. reflexivity. }
  assert (T : digitpart (String s1 (String s2 (String c (String d ds))))
              = Some (hours_of s1 s2, 2%nat, String c (String d ds))).
  { unfold digitpart. rewrite S1. cbn [digits_tail]. rewrite S2, Cd.
    destruct (Ascii.eqb_spec c "_"); [contradiction|]. reflexivity. }
  assert (Fp : fraction_part (String c (String d ds))
               = (0, O, String c (String d ds))).
  { cbn [fraction_part]. destruct (Ascii.eqb_spec c "."); [contradiction|].
    reflexivity. }
  unfold py_float. rewrite T, Fp.
  destruct (is_exp_mark c) eqn:Ce.
  - cbn [exponent_part]. rewrite Ce.
    assert (Nm : Ascii.eqb d "-" = false).
    { destruct (Ascii.eqb_spec d "-") as [->|]; [discriminate Dd|reflexivity]. }
    assert (Np : Ascii.eqb d "+" = false).
    { destruct (Ascii.eqb_spec d "+") as [->|]; [discriminate Dd|reflexivity]. }
    rewrite Nm, Np, (digitpart_digits _ D) by discriminate.
    eexists. reflexivity.
  - cbn [exponent_part]. rewrite Ce. reflexivity.
Qed.

Lemma adjust_timestamp_separator (h1 h2 m1 m2 s1 s2 c d : ascii) (ds : string) :
  is_digit h1 = true -> is_digit h2 = true -> is_digit m1 = true ->
  is_digit m2 = true -> is_digit s1 = true -> is_digit s2 = true ->
  all_digits (String d ds) = true ->
  let m := String h1 (String h2 (String ":" (String m1 (String m2 (String ":"
             (String s1 (String s2 (String c (String d ds))))))))) in
  if float_separator c
  then exists out, adjust_timestamp m = Ok out
  else adjust_timestamp m = Raise ValueError.
Proof.
  intros H1 H2 M1 M2 S1 S2 D m. subst m.
  pose proof (py_float_separator s1 s2 c d ds S1 S2 D) as P.
  unfold adjust_timestamp, adjust_timestamp_by.
  change (slice 0 2 (String h1 (String h2 ?x))) with (String h1 (String h2 "")).
  cbn [slice drop take Nat.sub].
  rewrite (py_int_two h1 h2 H1 H2), (py_int_two m1 m2 M1 M2). cbn [rbind].
  destruct (float_separator c).
  - destruct P as (x & ->). cbn [rbind]. rewrite Fraction_25_24. cbn [rbind].
    eexists. reflexivity.
  - rewrite P. reflexivity.
Qed.

(** On a match of the pattern the corrector returns or raises
    [ValueError], nothing else. *)
Lemma adjust_timestamp_match_result (m : string) :
  matches_pattern m = true ->
  (exists out, adjust_timestamp m = Ok out) \/
  adjust_timestamp m = Raise ValueError.
Proof.
  intros Hm.
  destruct (matches_pattern_text m Hm) as
    (h1 & h2 & m1 & m2 & s1 & s2 & c & d & ds & -> &
     (H1 & H2 & M1 & M2 & S1 & S2) & D).
  pose proof (adjust_timestamp_separator h1 h2 m1 m2 s1 s2 c d ds
                H1 H2 M1 M2 S1 S2 D) as P.
  cbv zeta in P. destruct (float_separator c); [now left|now right].
Qed.

(** X5: on a match of the pattern the corrector fails exactly when the
    character the unescaped dot matched cannot stand inside a float
    literal: it returns a text when that character is a digit, a dot, an
    underscore, "e" or "E", and raises [ValueError] for any other. *)
Theorem adjust_timestamp_on_match (m : string) (c : ascii) :
  matches_pattern m = true ->
  String.get 8 m = Some c ->
  if float_separator c
  then exists out, adjust_timestamp m = Ok out
  else adjust_timestamp m = Raise ValueError.
Proof.
  intros Hm Hc.
  destruct (matches_pattern_text m Hm) as
    (h1 & h2 & m1 & m2 & s1 & s2 & c' & d & ds & -> &
     (H1 & H2 & M1 & M2 & S1 & S2) & D).
  cbn in Hc. injection Hc as ->.
  exact (adjust_timestamp_separator h1 h2 m1 m2 s1 s2 c d ds
           H1 H2 M1 M2 S1 S2 D).
Qed.

Lemma adjust_timestamp_on_match_witness :
  adjust_timestamp "01:02:03:04" = Raise ValueError.
Proof.
  apply (adjust_timestamp_on_match "01:02:03:04" ":"); reflexivity.
Defined.

(** ** edit_timecodes: failures and footprint *)

Lemma pieces_hits (s m : string) :
  In (Hit m) (pieces s) -> matches_pattern m = true.
Proof.
  intros H. destruct (scan_hit _ _ _ H) as (a & b & _ & P). exact P.
Qed.

Lemma substitute_raises (ps : list piece) (e : exn) :
  (forall m, In (Hit m) ps -> matches_pattern m = true) ->
  substitute adjust_timestamp ps = Raise e -> e = ValueError.
Proof.
  induction ps as [|p ps IH]; intros H; [discriminate|].
  assert (H' : forall m, In (Hit m) ps -> matches_pattern m = true)
    by (intros; apply H; now right).
  destruct p as [c|m]; cbn [substitute].
  - destruct (substitute adjust_timestamp ps) as [t|e'] eqn:E; [discriminate|].
    intros [= <-]. now apply IH.
  - destruct (adjust_timestamp_match_result m (H m (or_introl eq_refl)))
      as [(o & ->)| ->]; cbn [rbind].
    + destruct (substitute adjust_timestamp ps) as [t|e'] eqn:E; [discriminate|].
      intros [= <-]. now apply IH.
    + now intros [= <-].
Qed.

Lemma re_sub_raises (line : string) (e : exn) :
  re_sub adjust_timestamp line = Raise e -> e = ValueError.
Proof. apply substitute_raises. intros m. apply pieces_hits. Qed.

Lemma rewrite_lines_raises (linesep : string) (lines : list string)
  (written out : string) (e : exn) :
  rewrite_lines linesep lines written = (out, Raise e) -> e = ValueError.
Proof.
  revert written. induction lines as [|l lines IH]; intros written;
    cbn [rewrite_lines]; [discriminate|].
  destruct (re_sub adjust_timestamp l) as [fixed|e'] eqn:E.
  - apply IH.
  - intros [= _ <-]. exact (re_sub_raises l e' E).
Qed.

Lemma rewrite_lines_app (linesep : string) (a b : list string) (written : string) :
  rewrite_lines linesep (a ++ b) written =
  match rewrite_lines linesep a written with
  | (w1, Ok _) => rewrite_lines linesep b w1
  | r => r
  end.
Proof.
  revert written. induction a as [|l a IH]; intros written; [reflexivity|].
  cbn [app rewrite_lines].
  destruct (re_sub adjust_timestamp l); [apply IH|reflexivity].
Qed.

Lemma rewrite_lines_stop (linesep : string) (good rest : list string)
  (bad written : string) (e : exn) :
  (forall m, In (Hit m) (flat_map pieces good) -> is_timecode m = true) ->
  re_sub adjust_timestamp bad = Raise e ->
  exists outs,
    Forall2 rewritten (flat_map pieces good) outs /\
    rewrite_lines linesep (good ++ bad :: rest) written =
    (written ++ write_translate linesep (concat_str outs), Raise e).
Proof.
  intros Hg Hb.
  destruct (rewrite_lines_ok linesep good written Hg) as (outs & F & E).
  exists outs. split; [exact F|].
  rewrite rewrite_lines_app, E. cbn [rewrite_lines]. now rewrite Hb.
Qed.

(** With distinct paths the source is read as it was before the
    destination was truncated. *)
Lemma edit_timecodes_run (linesep infile outfile raw : string) (w : world) :
  files w infile = Some raw -> infile <> outfile ->
  edit_timecodes linesep infile outfile w =
  (snd (rewrite_lines linesep (file_lines (read_translate raw)) ""),
   {| files := fs_write outfile
                 (fst (rewrite_lines linesep (file_lines (read_translate raw)) ""))
                 (fs_write outfile "" (files w));
      invoked := invoked w |}).
Proof.
  intros Hin Hne. unfold edit_timecodes. rewrite Hin. cbv zeta.
  assert (R : fs_write outfile "" (files w) infile = Some raw).
  { unfold fs_write. apply String.eqb_neq in Hne. now rewrite Hne. }
  rewrite R. now destruct (rewrite_lines _ _ _).
Qed.

Lemma fs_write_same (path content : string) (f : fs) :
  fs_write path content f path = Some content.
Proof. unfold fs_write. now rewrite String.eqb_refl. Qed.


(** X6: when the correction of a line fails, the rewrite stops there: the
    error is a [ValueError], and the destination is left holding the
    corrected lines before the failing one and nothing of the lines from
    it on. *)
Theorem edit_timecodes_stops_at_failure
  (linesep infile outfile raw : string) (w : world)
  (good rest : list string) (bad : string) (e : exn) :
  files w infile = Some raw -> infile <> outfile ->
  file_lines (read_translate raw) = (good ++ bad :: rest)%list ->
  (forall m, In (Hit m) (flat_map pieces good) -> is_timecode m = true) ->
  re_sub adjust_timestamp bad = Raise e ->
  exists outs w',
    edit_timecodes linesep infile outfile w = (Raise e, w') /\
    e = ValueError /\
    Forall2 rewritten (flat_map pieces good) outs /\
    files w' outfile = Some (write_translate linesep (concat_str outs)).
Proof.
  intros Hin Hne Hl Hg Hb.
  destruct (rewrite_lines_stop linesep good rest bad "" e Hg Hb) as (outs & F & E).
  exists outs. rewrite (edit_timecodes_run _ _ _ raw) by assumption.
  rewrite Hl, E. eexists. split; [reflexivity|].
  split; [exact (re_sub_raises bad e Hb)|]. split; [exact F|].
  cbn [files fst]. apply fs_write_same.
Qed.

Lemma edit_timecodes_stops_at_failure_witness :
  exists outs w',
    edit_timecodes (String LF "") "old.xml" "new.xml"
      (world_with "old.xml" half_good_source) = (Raise ValueError, w') /\
    ValueError = ValueError /\
    Forall2 rewritten (flat_map pieces ["00:00:48.000
"]) outs /\
    files w' "new.xml" = Some (write_translate (String LF "") (concat_str outs)).
Proof.
  apply (edit_timecodes_stops_at_failure (String LF "") "old.xml" "new.xml"
           half_good_source (world_with "old.xml" half_good_source)
           ["00:00:48.000
"] ["00:00:48.000
"] "01:02:03:04
" ValueError).
  - reflexivity.
  - discriminate.
  - reflexivity.
  - intros m Hm. vm_compute in Hm.
    repeat (destruct Hm as [Hm|Hm]; [try discriminate Hm|]);
      try contradiction.
    injection Hm as <-. reflexivity.
  - reflexivity.
Defined.

Lemma edit_timecodes_outcome_parts (linesep infile outfile : string) (w : world) :
  invoked (snd (edit_timecodes linesep infile outfile w)) = invoked w /\
  (fst (edit_timecodes linesep infile outfile w) = Ok tt \/
   fst (edit_timecodes linesep infile outfile w) = Raise FileNotFoundError \/
   fst (edit_timecodes linesep infile outfile w) = Raise ValueError).
Proof.
  unfold edit_timecodes. destruct (files w infile) as [raw|]; cbv zeta.
  - destruct (rewrite_lines linesep _ "") as [written r] eqn:E.
    cbn [fst snd invoked]. split; [reflexivity|].
    destruct r as [[]|e]; [now left|right; right].
    now rewrite (rewrite_lines_raises _ _ _ _ _ E).
  - cbn [fst snd]. auto.
Qed.



(** X8: given one path as source and destination, [edit_timecodes]
    succeeds and leaves the file empty: the file is truncated before a
    line of it is read. *)
Theorem edit_timecodes_same_path (linesep path raw : string) (w : world) :
  files w path = Some raw ->
  exists w',
    edit_timecodes linesep path path w = (Ok tt, w') /\
    files w' path = Some "".
Proof.
  intros H. unfold edit_timecodes. rewrite H. cbv zeta.
  rewrite fs_write_same. cbn [read_translate file_lines lines_from rewrite_lines].
  eexists. split; [reflexivity|]. cbn [files]. apply fs_write_same.
Qed.

Lemma edit_timecodes_same_path_witness :
  exists w',
    edit_timecodes (String LF "") "old.xml" "old.xml"
      (world_with "old.xml" chapter_source) = (Ok tt, w') /\
    files w' "old.xml" = Some "".
Proof.
  apply (edit_timecodes_same_path (String LF "") "old.xml" chapter_source).
  reflexivity.
Defined.

(** ** Reports, whatever they hold *)

Lemma append_inv_head (a b c : string) : a ++ b = a ++ c -> b = c.
Proof.
  induction a as [|x a IH]; simpl; [auto|]. intros [= H]. auto.
Qed.

Lemma old_new_chapter_files (tmpdir : string) :
  tmpdir ++ "/hello-old-chap.xml" <> tmpdir ++ "/hello-new-chap.xml".
Proof. intros E. apply append_inv_head in E. discriminate E. Qed.

(** *** search_id *)

Lemma search_id_some (line id : string) :
  search_id line = Some id -> id_in_line line id.
Proof.
  induction line as [|c line IH]; [discriminate|].
  cbn [search_id].
  assert (Rec : search_id line = Some id -> id_in_line (String c line) id).
  { intros H. destruct (IH H) as (pre & post & -> & D & N).
    exists (String c pre), post. auto. }
  destruct (is_digit c) eqn:Hc; [|exact Rec].
  destruct (span_digits (String c line)) as [ds r] eqn:E.
  destruct r as [|c' r]; [exact Rec|].
  destruct (is_colon c') eqn:Hcol; [|exact Rec].
  intros [= <-]. apply is_colon_eq in Hcol. subst c'.
  destruct (span_digits_split _ _ _ E) as [Es D].
  exists "", r. split; [exact Es|]. split; [exact D|].
  intros ->. cbn in E. rewrite Hc in E.
  destruct (span_digits line); discriminate E.
Qed.

Lemma search_id_none (line : string) :
  search_id line = None -> ~ has_id line.
Proof.
  induction line as [|c line IH].
  - intros _ (pre & d & post & E & _). destruct pre; discriminate E.
  - cbn [search_id]. intros H (pre & d & post & E & Hd).
    destruct pre as [|x pre].
    + cbn in E. injection E as -> ->. rewrite Hd in H.
      cbn [span_digits] in H. rewrite Hd in H.
      change (is_digit ":") with false in H. cbv iota in H.
      change (is_colon ":") with true in H. discriminate H.
    + cbn in E. injection E as <- ->.
      assert (Hn : search_id (pre ++ String d (String ":" post)) = None).
      { destruct (is_digit c); [|exact H].
        destruct (span_digits _) as [ds [|c' r]]; [exact H|].
        destruct (is_colon c'); [discriminate H|exact H]. }
      apply (IH Hn). exists pre, d, post. auto.
Qed.

Lemma last_digit (id : string) :
  all_digits id = true -> id <> "" ->
  exists a d, id = a ++ String d "" /\ is_digit d = true.
Proof.
  induction id as [|c id IH]; [congruence|]. simpl.
  intros H _. apply andb_true_iff in H as [Hc Hid].
  destruct id as [|c' id'].
  - exists "", c. auto.
  - destruct (IH Hid) as (a & d & E & Hd); [discriminate|].
    exists (String c a), d. rewrite E. auto.
Qed.

Lemma id_in_line_has_id (line id : string) : id_in_line line id -> has_id line.
Proof.
  intros (pre & post & -> & D & N).
  destruct (last_digit id D N) as (a & d & -> & Hd).
  exists (pre ++ a), d, post. split; [|exact Hd].
  now rewrite !append_assoc.
Qed.

Lemma has_id_search (line : string) :
  has_id line -> exists id, search_id line = Some id.
Proof.
  intros H. destruct (search_id line) as [id|] eqn:E; [now exists id|].
  now apply search_id_none in E.
Qed.

(** *** sync_loop *)

Lemma sync_loop_ok (lines acc : list string) :
  (forall l, In l lines -> is_video_track_line l = true -> has_id l) ->
  exists ids,
    sync_loop lines acc = Ok (acc ++ flat_map sync_directive ids)%list /\
    Forall2 id_in_line (filter is_video_track_line lines) ids.
Proof.
  revert acc. induction lines as [|l lines IH]; intros acc H.
  - exists []. split; [simpl; now rewrite app_nil_r|constructor].
  - assert (H' : forall l0, In l0 lines -> is_video_track_line l0 = true ->
                            has_id l0) by (intros; apply H; auto; now right).
    cbn [sync_loop filter].
    destruct (in_casefold "Track ID" l) eqn:Ht.
    2:{ replace (is_video_track_line l) with false
          by (unfold is_video_track_line; now rewrite Ht).
        now apply IH. }
    destruct (in_casefold "audio" l) eqn:Ha; cbn [negb].
    { replace (is_video_track_line l) with false
        by (unfold is_video_track_line; now rewrite Ht, Ha).
      now apply IH. }
    assert (Hv : is_video_track_line l = true)
      by (unfold is_video_track_line; now rewrite Ht, Ha).
    rewrite Hv.
    destruct (has_id_search l) as (id & Hid); [apply H; [now left|exact Hv]|].
    rewrite Hid.
    destruct (IH (acc ++ ["--sync"; (id ++ ":0," ++ CORRECTION_FACTOR)%string])%list H')
      as (ids & E & F).
    exists (id :: ids). split.
    + rewrite E. cbn [flat_map]. unfold sync_directive at 2.
      now rewrite <- app_assoc.
    + constructor; [now apply search_id_some|exact F].
Qed.

Lemma sync_loop_fails (lines acc : list string) :
  (exists l, In l lines /\ is_video_track_line l = true /\ ~ has_id l) ->
  sync_loop lines acc = Raise AttributeError.
Proof.
  revert acc. induction lines as [|l lines IH]; intros acc (x & Hin & Hv & Hn);
    [destruct Hin|].
  cbn [sync_loop].
  destruct Hin as [->|Hin].
  - unfold is_video_track_line in Hv. apply andb_true_iff in Hv as [-> Ha].
    rewrite Ha. destruct (search_id x) as [id|] eqn:E; [|reflexivity].
    destruct Hn. now apply id_in_line_has_id with id, search_id_some.
  - assert (R : forall a, sync_loop lines a = Raise AttributeError).
    { intros a. apply IH. now exists x. }
    destruct (in_casefold "Track ID" l); [|apply R].
    destruct (negb (in_casefold "audio" l)); [|apply R].
    destruct (search_id l); [apply R|reflexivity].
Qed.

Lemma sync_loop_result (lines acc : list string) :
  (exists ids, sync_loop lines acc = Ok (acc ++ flat_map sync_directive ids)%list /\
               Forall (fun id => all_digits id = true /\ id <> "") ids) \/
  sync_loop lines acc = Raise AttributeError.
Proof.
  revert acc. induction lines as [|l lines IH]; intros acc.
  - left. exists []. split; [simpl; now rewrite app_nil_r|constructor].
  - cbn [sync_loop].
    destruct (in_casefold "Track ID" l); [|apply IH].
    destruct (negb (in_casefold "audio" l)); [|apply IH].
    destruct (search_id l) as [id|] eqn:E; [|now right].
    destruct (IH (acc ++ ["--sync"; (id ++ ":0," ++ CORRECTION_FACTOR)%string])%list)
      as [(ids & Es & F)|Er]; [left|now right].
    exists (id :: ids). split.
    + rewrite Es. cbn [flat_map]. unfold sync_directive at 2.
      now rewrite <- app_assoc.
    + constructor; [|exact F].
      destruct (search_id_some _ _ E) as (pre & post & _ & D & N). auto.
Qed.

(** X9: on every report, [get_sync_flags] returns exactly when each
    line with "Track ID" and without "audio" has a digit directly followed
    by a colon; it then returns one sync directive per such line, in
    order, for a run of digits of that line that a colon follows.  When
    some such line has no digit followed by a colon it raises
    [AttributeError]. *)
Theorem get_sync_flags_result
  (tools : string -> string) (exec : list string -> fs -> CompletedProcess * fs)
  (infile : string) (w : world) :
  let lines :=
    splitlines (stdout (fst (exec [tools "mkvmerge"; "-i"; infile] (files w)))) in
  ((forall l, In l lines -> is_video_track_line l = true -> has_id l) ->
   exists ids,
     fst (get_sync_flags tools exec infile w) = Ok (flat_map sync_directive ids) /\
     Forall2 id_in_line (filter is_video_track_line lines) ids) /\
  ((exists l, In l lines /\ is_video_track_line l = true /\ ~ has_id l) ->
   fst (get_sync_flags tools exec infile w) = Raise AttributeError).
Proof.
  intros lines. subst lines.
  unfold get_sync_flags, bind, subprocess_run.
  destruct (exec _ (files w)) as [cp f']. cbn [fst stdout]. split.
  - intros H. destruct (sync_loop_ok _ [] H) as (ids & E & F).
    exists ids. split; [exact E|exact F].
  - apply sync_loop_fails.
Qed.

Lemma get_sync_flags_result_witness :
  fst (get_sync_flags demo_tools (demo_exec 0 "Track ID 7 (video)
Track ID 1: audio") "in.mkv" empty_world) = Raise AttributeError.
Proof.
  apply (get_sync_flags_result demo_tools (demo_exec 0 "Track ID 7 (video)
Track ID 1: audio") "in.mkv" empty_world).
  exists "Track ID 7 (video)". split; [now left|]. split; [reflexivity|].
  apply search_id_none. reflexivity.
Defined.

(** *** rate_loop *)

Lemma search_number_shape (line r : string) :
  search_number line = Some r -> is_number r.
Proof.
  induction line as [|c line IH]; [discriminate|].
  cbn [search_number]. destruct (is_digit c) eqn:Hc; [|exact IH].
  destruct (span_digits (String c line)) as [ds rest] eqn:E.
  destruct (span_digits_split _ _ _ E) as [Es D].
  assert (N : ds <> "").
  { intros ->. cbn in E. rewrite Hc in E.
    destruct (span_digits line); discriminate E. }
  destruct rest as [|c' rest].
  - intros [= <-]. exists ds. auto.
  - destruct (Ascii.eqb c' ".").
    + intros [= <-]. exists ds. split; [exact D|]. split; [exact N|]. right.
      destruct (span_digits rest) as [fd r'] eqn:E'.
      destruct (span_digits_split _ _ _ E') as [_ D'].
      exists fd. auto.
    + intros [= <-]. exists ds. auto.
Qed.

Lemma rate_loop_raises (lines : list string) (e : exn) :
  rate_loop lines = Raise e -> e = AttributeError.
Proof.
  induction lines as [|l lines IH]; [discriminate|]. cbn [rate_loop].
  destruct (in_casefold "Sampling frequency" l); [|exact IH].
  destruct (search_number l); [discriminate|now intros [= <-]].
Qed.

Lemma rate_loop_number (lines : list string) (r : string) :
  rate_loop lines = Ok (Some r) -> is_number r.
Proof.
  induction lines as [|l lines IH]; [discriminate|]. cbn [rate_loop].
  destruct (in_casefold "Sampling frequency" l); [|exact IH].
  destruct (search_number l) as [r'|] eqn:E; [|discriminate].
  intros [= <-]. exact (search_number_shape _ _ E).
Qed.

Lemma rate_loop_app (before rest : list string) :
  rate_loop (before ++ rest) =
  match rate_loop before with
  | Ok None => rate_loop rest
  | r => r
  end.
Proof.
  induction before as [|l b IH]; cbn [app rate_loop]; [reflexivity|].
  destruct (in_casefold "Sampling frequency" l); [|exact IH].
  now destruct (search_number l).
Qed.

(** X10: of a report with a "Sampling frequency" line, only the lines
    up to the first such line matter: whatever follows, the result is the
    same, it is never [None], and a rate that is returned is a run of
    digits, possibly followed by a dot and further digits. *)
Theorem get_audio_sample_rate_first_line
  (tools : string -> string)
  (exec exec' : list string -> fs -> CompletedProcess * fs)
  (file : string) (w : world) (before after after' : list string) (line : string) :
  splitlines (stdout (fst (exec [tools "mkvinfo"; file] (files w))))
  = (before ++ line :: after)%list ->
  splitlines (stdout (fst (exec' [tools "mkvinfo"; file] (files w))))
  = (before ++ line :: after')%list ->
  in_casefold "Sampling frequency" line = true ->
  fst (get_audio_sample_rate tools exec file w) =
  fst (get_audio_sample_rate tools exec' file w) /\
  fst (get_audio_sample_rate tools exec file w) <> Ok None /\
  forall r, fst (get_audio_sample_rate tools exec file w) = Ok (Some r) ->
            is_number r.
Proof.
  intros E E' Hs.
  unfold get_audio_sample_rate, bind, subprocess_run.
  destruct (exec _ (files w)) as [cp f], (exec' _ (files w)) as [cp' f'].
  cbn [fst stdout] in *. rewrite E, E'.
  pose proof (rate_loop_app before) as P.
  split; [|split].
  - rewrite !P. cbn [rate_loop]. now rewrite Hs.
  - rewrite P. destruct (rate_loop before) as [[r|]|e]; try discriminate.
    cbn [rate_loop]. rewrite Hs. destruct (search_number line); discriminate.
  - intros r. apply rate_loop_number.
Qed.

Lemma get_audio_sample_rate_first_line_witness :
  fst (get_audio_sample_rate demo_tools (demo_exec 0 demo_info) "t.mkv" empty_world) =
  fst (get_audio_sample_rate demo_tools
         (demo_exec 0 "|  + Track
|   + Track type: audio
|   + Sampling frequency: 48000
|   + Sampling frequency: 44100") "t.mkv" empty_world) /\
  fst (get_audio_sample_rate demo_tools (demo_exec 0 demo_info) "t.mkv" empty_world)
  <> Ok None /\
  forall r,
    fst (get_audio_sample_rate demo_tools (demo_exec 0 demo_info) "t.mkv"
           empty_world) = Ok (Some r) ->
    is_number r.
Proof.
  apply (get_audio_sample_rate_first_line demo_tools (demo_exec 0 demo_info)
           (demo_exec 0 "|  + Track
|   + Track type: audio
|   + Sampling frequency: 48000
|   + Sampling frequency: 44100") "t.mkv" empty_world
           ["|  + Track"; "|   + Track type: audio"]
           ["|   + Channels: 2"] ["|   + Sampling frequency: 44100"]
           "|   + Sampling frequency: 48000"); reflexivity.
Defined.

(** ** Chapters present *)

Lemma subprocess_run_eq
  (exec : list string -> fs -> CompletedProcess * fs)
  (cmd : list string) (w : world) :
  subprocess_run exec cmd w =
  (Ok (fst (exec cmd (files w))),
   {| files := snd (exec cmd (files w)); invoked := (invoked w ++ [cmd])%list |}).
Proof. unfold subprocess_run. now destruct (exec cmd (files w)). Qed.

(** What [fix_chapters] can do to the list of commands run. *)
Lemma fix_chapters_cases
  (tools : string -> string) (exec : list string -> fs -> CompletedProcess * fs)
  (linesep infile tmpdir : string) (w : world) :
  let inspect := [tools "mkvmerge"; "-i"; infile] in
  let extract := [tools "mkvextract"; infile; "chapters";
                  tmpdir ++ "/hello-old-chap.xml"] in
  exists r w',
    fix_chapters tools exec linesep infile tmpdir w = (r, w') /\
    ((r = Ok (PyStr "") /\ invoked w' = (invoked w ++ [inspect])%list) \/
     ((r = Ok (PyList ["--chapters"; tmpdir ++ "/hello-new-chap.xml"]) \/
       r = Raise FileNotFoundError \/ r = Raise ValueError) /\
      invoked w' = (invoked w ++ [inspect; extract])%list)).
Proof.
  intros inspect extract.
  unfold fix_chapters, bind. fold inspect. rewrite subprocess_run_eq.
  destruct (in_casefold "Chapters" _); cbn [negb].
  2:{ eexists _, _. split; [reflexivity|]. left. split; reflexivity. }
  fold extract. rewrite subprocess_run_eq.
  set (w2 := {| files := _; invoked := _ |}).
  pose proof (edit_timecodes_outcome_parts linesep
                (tmpdir ++ "/hello-old-chap.xml")
                (tmpdir ++ "/hello-new-chap.xml") w2) as (Hi & Hr).
  destruct (edit_timecodes linesep _ _ w2) as [r w3]. cbn [fst snd] in *.
  assert (I3 : invoked w3 = (invoked w ++ [inspect; extract])%list).
  { rewrite Hi. subst w2. cbn [invoked]. now rewrite <- app_assoc. }
  destruct Hr as [->|[->| ->]]; eexists _, _; (split; [reflexivity|]);
    right; (split; [|exact I3]); auto.
Qed.

(** X11: when the report mentions chapters, the extractor is run on the
    input towards [tmpdir/hello-old-chap.xml] and its exit status is not
    looked at: if it left no such file the call ends in
    [FileNotFoundError]; if it left one whose pattern matches are all
    timecodes, the corrected text is written to
    [tmpdir/hello-new-chap.xml] and the options returned are "--chapters"
    and that path. *)
Theorem fix_chapters_with_chapters
  (tools : string -> string) (exec : list string -> fs -> CompletedProcess * fs)
  (linesep infile tmpdir : string) (w : world) :
  let inspect := [tools "mkvmerge"; "-i"; infile] in
  let old_chapter_file := tmpdir ++ "/hello-old-chap.xml" in
  let new_chapter_file := tmpdir ++ "/hello-new-chap.xml" in
  let extract := [tools "mkvextract"; infile; "chapters"; old_chapter_file] in
  let extracted := snd (exec extract (snd (exec inspect (files w)))) in
  in_casefold "Chapters" (stdout (fst (exec inspect (files w)))) = true ->
  (extracted old_chapter_file = None ->
   fix_chapters tools exec linesep infile tmpdir w =
   (Raise FileNotFoundError,
    {| files := extracted;
       invoked := ((invoked w ++ [inspect]) ++ [extract])%list |})) /\
  (forall raw,
     extracted old_chapter_file = Some raw ->
     let segs := flat_map pieces (file_lines (read_translate raw)) in
     (forall m, In (Hit m) segs -> is_timecode m = true) ->
     exists outs w',
       fix_chapters tools exec linesep infile tmpdir w =
       (Ok (PyList ["--chapters"; new_chapter_file]), w') /\
       invoked w' = ((invoked w ++ [inspect]) ++ [extract])%list /\
       Forall2 rewritten segs outs /\
       files w' new_chapter_file =
       Some (write_translate linesep (concat_str outs))).
Proof.
  intros inspect old_chapter_file new_chapter_file extract extracted H.
  unfold fix_chapters, bind. fold inspect. rewrite subprocess_run_eq.
  rewrite H. cbn [negb]. fold old_chapter_file new_chapter_file extract.
  rewrite subprocess_run_eq. cbn [files invoked]. fold extracted.
  split.
  - intros Hn. unfold edit_timecodes. cbn [files]. now rewrite Hn.
  - intros raw Hr Hhits.
    rewrite (edit_timecodes_run linesep _ _ raw);
      [|exact Hr|apply old_new_chapter_files].
    destruct (rewrite_lines_ok linesep (file_lines (read_translate raw)) "" Hhits)
      as (outs & F & E).
    rewrite E. cbn [fst snd]. exists outs. eexists. split; [reflexivity|].
    cbn [files invoked]. split; [reflexivity|]. split; [exact F|].
    apply fs_write_same.
Qed.

Lemma fix_chapters_with_chapters_witness :
  fix_chapters demo_tools (demo_exec 3 "Chapters: 2 entries") (String LF "")
    "in.mkv" "/tmp/x" empty_world =
  (Raise FileNotFoundError,
   {| files := files empty_world;
      invoked := [["/usr/bin/mkvmerge"; "-i"; "in.mkv"];
                  ["/usr/bin/mkvextract"; "in.mkv"; "chapters";
                   "/tmp/x/hello-old-chap.xml"]] |}).
Proof.
  refine (proj1 (fix_chapters_with_chapters demo_tools
            (demo_exec 3 "Chapters: 2 entries") (String LF "")
            "in.mkv" "/tmp/x" empty_world _) _); reflexivity.
Defined.

(** ** The commands of a run *)

Lemma get_sync_flags_cases
  (tools : string -> string) (exec : list string -> fs -> CompletedProcess * fs)
  (infile : string) (w : world) :
  exists r w',
    get_sync_flags tools exec infile w = (r, w') /\
    invoked w' = (invoked w ++ [[tools "mkvmerge"; "-i"; infile]])%list /\
    ((exists ids, r = Ok (flat_map sync_directive ids) /\
                  Forall (fun id => all_digits id = true /\ id <> "") ids) \/
     r = Raise AttributeError).
Proof.
  unfold get_sync_flags, bind. rewrite subprocess_run_eq.
  eexists _, _. split; [reflexivity|]. split; [reflexivity|].
  apply (sync_loop_result _ []).
Qed.

Lemma fix_audio_cases
  (tools : string -> string) (exec : list string -> fs -> CompletedProcess * fs)
  (infile outfile : string) (w : world) :
  exists r w',
    fix_audio tools exec infile outfile w = (r, w') /\
    ((r = Ok tt /\
      exists rate,
        (rate = None \/ exists n, rate = Some n /\ is_number n) /\
        invoked w' =
        (invoked w ++
         [[tools "mkvinfo"; infile];
          ffmpeg_cmd tools infile outfile
            ("asetrate=" ++ str_opt rate ++ "*24/25")%string])%list) \/
     (r = Raise AttributeError /\
      invoked w' = (invoked w ++ [[tools "mkvinfo"; infile]])%list)).
Proof.
  destruct (rate_loop (splitlines
              (stdout (fst (exec [tools "mkvinfo"; infile] (files w))))))
    as [rate|e] eqn:E.
  - destruct (fix_audio_run tools exec infile outfile w rate E) as (w' & R & I).
    exists (Ok tt), w'. split; [exact R|]. left. split; [reflexivity|].
    exists rate. split; [|exact I].
    destruct rate as [n|]; [right|now left].
    exists n. split; [reflexivity|]. exact (rate_loop_number _ _ E).
  - unfold fix_audio, get_audio_sample_rate, bind.
    change (f <- Fraction CORRECTION_FACTOR;; Fraction_inv f) with (Ok (24, 25)).
    cbv iota beta. rewrite subprocess_run_eq. cbn [stdout]. rewrite E.
    eexists _, _. split; [reflexivity|]. right.
    split; [|reflexivity]. now rewrite (rate_loop_raises _ _ E).
Qed.

Lemma not_transcoder (tools : string -> string) (c : list string)
  (infile outfile filter : string) :
  (List.length c <> 15%nat \/ nth 1 c "" <> "-y") ->
  c <> ffmpeg_cmd tools infile outfile filter.
Proof. intros [H|H] ->; apply H; reflexivity. Qed.

Lemma main_rest_cases
  (tools : string -> string) (exec : list string -> fs -> CompletedProcess * fs)
  (infile outfile tmpdir : string) (it : iterable)
  (chapter_args : list string) (w : world) :
  (forall l, extend l it = (l ++ chapter_args)%list) ->
  let tmpfile := tmpdir ++ "/temp.mkv" in
  let inspect := [tools "mkvmerge"; "-i"; infile] in
  exists r w' cmds,
    main_rest tools exec infile outfile tmpdir it w = (r, w') /\
    invoked w' = (invoked w ++ cmds)%list /\
    ((r = Ok tt /\
      exists ids rate,
        Forall (fun id => all_digits id = true /\ id <> "") ids /\
        (rate = None \/ exists n, rate = Some n /\ is_number n) /\
        cmds = [inspect;
                remux_cmd tools infile tmpfile (flat_map sync_directive ids)
                  chapter_args;
                [tools "mkvinfo"; tmpfile];
                ffmpeg_cmd tools tmpfile outfile
                  ("asetrate=" ++ str_opt rate ++ "*24/25")%string]) \/
     (r = Raise AttributeError /\
      (cmds = [inspect] \/
       exists sync_args,
         cmds = [inspect; remux_cmd tools infile tmpfile sync_args chapter_args;
                 [tools "mkvinfo"; tmpfile]]))).
Proof.
  intros Hext tmpfile inspect. unfold main_rest. fold tmpfile.
  unfold bind at 1.
  destruct (get_sync_flags_cases tools exec infile w) as (r2 & w2 & E2 & I2 & C2).
  rewrite E2. destruct C2 as [(ids & -> & Fids)| ->].
  2:{ eexists _, _, _. split; [reflexivity|]. split; [exact I2|].
      right. split; [reflexivity|]. now left. }
  unfold bind. rewrite subprocess_run_eq.
  set (cmd := (extend _ it ++ [infile])%list).
  assert (Ecmd : cmd = remux_cmd tools infile tmpfile
                         (flat_map sync_directive ids) chapter_args).
  { subst cmd. rewrite Hext. unfold extend, remux_cmd. cbn [app].
    now rewrite <- !app_assoc. }
  set (w3 := {| files := _; invoked := _ |}).
  destruct (fix_audio_cases tools exec tmpfile outfile w3) as (r4 & w4 & E4 & C4).
  rewrite E4.
  assert (I3 : invoked w3 = (invoked w ++ [inspect; cmd])%list).
  { subst w3. cbn [invoked]. rewrite I2. now rewrite <- app_assoc. }
  destruct C4 as [(-> & rate & Hrate & I4)|(-> & I4)];
    eexists _, _, _; (split; [reflexivity|]).
  - split; [rewrite I4, I3, <- app_assoc; reflexivity|].
    left. split; [reflexivity|]. exists ids, rate.
    split; [exact Fids|]. split; [exact Hrate|]. now rewrite Ecmd.
  - split; [rewrite I4, I3, <- app_assoc; reflexivity|].
    right. split; [reflexivity|]. right. eexists. now rewrite Ecmd.
Qed.

Lemma main_cases
  (tools : string -> string) (exec : list string -> fs -> CompletedProcess * fs)
  (linesep infile outfile tmpdir : string) (w : world) :
  let tmpfile := tmpdir ++ "/temp.mkv" in
  let inspect := [tools "mkvmerge"; "-i"; infile] in
  let extract := [tools "mkvextract"; infile; "chapters";
                  tmpdir ++ "/hello-old-chap.xml"] in
  exists r w' cmds,
    main tools exec linesep infile outfile tmpdir w = (r, w') /\
    invoked w' = (invoked w ++ cmds)%list /\
    ((r = Ok tt /\
      exists chapter_args extraction ids rate,
        ((chapter_args = [] /\ extraction = []) \/
         (chapter_args = ["--chapters"; tmpdir ++ "/hello-new-chap.xml"] /\
          extraction = [extract])) /\
        Forall (fun id => all_digits id = true /\ id <> "") ids /\
        (rate = None \/ exists n, rate = Some n /\ is_number n) /\
        cmds = ([inspect] ++ extraction ++
                [inspect;
                 remux_cmd tools infile tmpfile (flat_map sync_directive ids)
                   chapter_args;
                 [tools "mkvinfo"; tmpfile];
                 ffmpeg_cmd tools tmpfile outfile
                   ("asetrate=" ++ str_opt rate ++ "*24/25")%string])%list) \/
     ((r = Raise FileNotFoundError \/ r = Raise ValueError \/
       r = Raise AttributeError) /\
      forall i o f, ~ In (ffmpeg_cmd tools i o f) cmds)).
Proof.
  intros tmpfile inspect extract.
  assert (Ni : forall i o f, inspect <> ffmpeg_cmd tools i o f)
    by (intros; apply not_transcoder; left; discriminate).
  assert (Ne : forall i o f, extract <> ffmpeg_cmd tools i o f)
    by (intros; apply not_transcoder; left; discriminate).
  assert (Np : forall i o f, [tools "mkvinfo"; tmpfile] <> ffmpeg_cmd tools i o f)
    by (intros; apply not_transcoder; left; discriminate).
  assert (Nr : forall s c i o f,
             remux_cmd tools infile tmpfile s c <> ffmpeg_cmd tools i o f)
    by (intros; apply not_transcoder; right; discriminate).
  assert (Rest : forall it chapter_args extraction w1,
            (forall l, extend l it = (l ++ chapter_args)%list) ->
            ((chapter_args = [] /\ extraction = []) \/
             (chapter_args = ["--chapters"; tmpdir ++ "/hello-new-chap.xml"] /\
              extraction = [extract])) ->
            invoked w1 = (invoked w ++ [inspect] ++ extraction)%list ->
            exists r w' cmds,
              main_rest tools exec infile outfile tmpdir it w1 = (r, w') /\
              invoked w' = (invoked w ++ cmds)%list /\
              ((r = Ok tt /\
                exists chapter_args extraction ids rate,
                  ((chapter_args = [] /\ extraction = []) \/
                   (chapter_args = ["--chapters"; tmpdir ++ "/hello-new-chap.xml"] /\
                    extraction = [extract])) /\
                  Forall (fun id => all_digits id = true /\ id <> "") ids /\
                  (rate = None \/ exists n, rate = Some n /\ is_number n) /\
                  cmds = ([inspect] ++ extraction ++
                          [inspect;
                           remux_cmd tools infile tmpfile
                             (flat_map sync_directive ids) chapter_args;
                           [tools "mkvinfo"; tmpfile];
                           ffmpeg_cmd tools tmpfile outfile
                             ("asetrate=" ++ str_opt rate ++ "*24/25")%string])%list) \/
               ((r = Raise FileNotFoundError \/ r = Raise ValueError \/
                 r = Raise AttributeError) /\
                forall i o f, ~ In (ffmpeg_cmd tools i o f) cmds))).
  { intros it chapter_args extraction w1 Hext Hshape I1.
    destruct (main_rest_cases tools exec infile outfile tmpdir it chapter_args
                w1 Hext) as (r & w' & cmds & E & I & C).
    exists r, w', ([inspect] ++ extraction ++ cmds)%list.
    split; [exact E|]. split; [rewrite I, I1, <- !app_assoc; reflexivity|].
    destruct C as [(-> & ids & rate & Fids & Hrate & ->)|(-> & C)].
    - left. split; [reflexivity|]. exists chapter_args, extraction, ids, rate. auto.
    - right. split; [auto|]. intros i o f Hin.
      assert (Hx : forall c, In c extraction -> c = extract)
        by (destruct Hshape as [[_ ->]|[_ ->]]; intros c [];
            [now subst|contradiction]).
      apply in_app_or in Hin as [[Hin|[]]|Hin]; [now apply (Ni i o f)|].
      apply in_app_or in Hin as [Hin|Hin].
      + apply Hx in Hin. now apply (Ne i o f).
      + destruct C as [->|(s & ->)].
        * destruct Hin as [Hin|[]]. now apply (Ni i o f).
        * destruct Hin as [Hin|[Hin|[Hin|[]]]];
            [now apply (Ni i o f)|now apply (Nr s chapter_args i o f)
            |now apply (Np i o f)]. }
  destruct (fix_chapters_cases tools exec linesep infile tmpdir w)
    as (r1 & w1 & E1 & C1).
  fold inspect extract in C1.
  change (main tools exec linesep infile outfile tmpdir w)
    with (bind (fix_chapters tools exec linesep infile tmpdir)
            (main_rest tools exec infile outfile tmpdir) w).
  unfold bind at 1. rewrite E1.
  destruct C1 as [(-> & I1)|([->|[->| ->]] & I1)].
  - apply (Rest (PyStr "") [] [] w1); [reflexivity|now left|exact I1].
  - apply (Rest (PyList ["--chapters"; tmpdir ++ "/hello-new-chap.xml"])
             ["--chapters"; tmpdir ++ "/hello-new-chap.xml"] [extract] w1);
      [reflexivity|now right|exact I1].
  - exists (Raise FileNotFoundError), w1, [inspect; extract].
    split; [reflexivity|]. split; [exact I1|]. right. split; [auto|].
    intros i o f [Hin|[Hin|[]]]; [now apply (Ni i o f)|now apply (Ne i o f)].
  - exists (Raise ValueError), w1, [inspect; extract].
    split; [reflexivity|]. split; [exact I1|]. right. split; [auto|].
    intros i o f [Hin|[Hin|[]]]; [now apply (Ni i o f)|now apply (Ne i o f)].
Qed.

(** X12: a run of [main] that succeeds has run, in this order and nothing
    else: the inspector on the input; the extractor, exactly when chapter
    options are used; the inspector again; the remux into
    [tmpdir/temp.mkv] with one sync directive per track ID found, then
    "--no-chapters", the chapter options and the input last; the
    inspector on the intermediate file; and last the transcoder from the
    intermediate file to the output. *)
Theorem main_commands
  (tools : string -> string) (exec : list string -> fs -> CompletedProcess * fs)
  (linesep infile outfile tmpdir : string) (w w' : world) :
  main tools exec linesep infile outfile tmpdir w = (Ok tt, w') ->
  let tmpfile := tmpdir ++ "/temp.mkv" in
  let inspect := [tools "mkvmerge"; "-i"; infile] in
  let extract := [tools "mkvextract"; infile; "chapters";
                  tmpdir ++ "/hello-old-chap.xml"] in
  exists chapter_args extraction ids rate,
    ((chapter_args = [] /\ extraction = []) \/
     (chapter_args = ["--chapters"; tmpdir ++ "/hello-new-chap.xml"] /\
      extraction = [extract])) /\
    Forall (fun id => all_digits id = true /\ id <> "") ids /\
    (rate = None \/ exists n, rate = Some n /\ is_number n) /\
    invoked w' =
    (invoked w ++ [inspect] ++ extraction ++
     [inspect;
      remux_cmd tools infile tmpfile (flat_map sync_directive ids) chapter_args;
      [tools "mkvinfo"; tmpfile];
      ffmpeg_cmd tools tmpfile outfile
        ("asetrate=" ++ str_opt rate ++ "*24/25")%string])%list.
Proof.
  intros H tmpfile inspect extract.
  destruct (main_cases tools exec linesep infile outfile tmpdir w)
    as (r & w0 & cmds & E & I & C).
  rewrite H in E. injection E as <- <-.
  destruct C as [(_ & ca & ex & ids & rate & Hs & Fi & Hr & ->)|([C|[C|C]] & _)];
    try discriminate C.
  exists ca, ex, ids, rate. auto.
Qed.

Lemma main_commands_witness :
  exists chapter_args extraction ids rate,
    ((chapter_args = [] /\ extraction = []) \/
     (chapter_args = ["--chapters"; "/tmp/x/hello-new-chap.xml"] /\
      extraction = [[demo_tools "mkvextract"; "in.mkv"; "chapters";
                     "/tmp/x/hello-old-chap.xml"]])) /\
    Forall (fun id => all_digits id = true /\ id <> "") ids /\
    (rate = None \/ exists n, rate = Some n /\ is_number n) /\
    invoked (snd (main demo_tools (demo_exec 0 demo_report) (String LF "")
                    "in.mkv" "out.mkv" "/tmp/x" empty_world)) =
    (invoked empty_world ++ [[demo_tools "mkvmerge"; "-i"; "in.mkv"]] ++
     extraction ++
     [[demo_tools "mkvmerge"; "-i"; "in.mkv"];
      remux_cmd demo_tools "in.mkv" "/tmp/x/temp.mkv"
        (flat_map sync_directive ids) chapter_args;
      [demo_tools "mkvinfo"; "/tmp/x/temp.mkv"];
      ffmpeg_cmd demo_tools "/tmp/x/temp.mkv" "out.mkv"
        ("asetrate=" ++ str_opt rate ++ "*24/25")%string])%list.
Proof.
  apply (main_commands demo_tools (demo_exec 0 demo_report) (String LF "")
           "in.mkv" "out.mkv" "/tmp/x" empty_world).
  vm_compute. reflexivity.
Defined.

(** X13: a run of [main] that ends in an exception has not run the
    transcoder, and the exception is [FileNotFoundError], [ValueError] or
    [AttributeError]. *)
Theorem main_failure
  (tools : string -> string) (exec : list string -> fs -> CompletedProcess * fs)
  (linesep infile outfile tmpdir : string) (w w' : world) (e : exn) :
  main tools exec linesep infile outfile tmpdir w = (Raise e, w') ->
  (e = FileNotFoundError \/ e = ValueError \/ e = AttributeError) /\
  exists cmds,
    invoked w' = (invoked w ++ cmds)%list /\
    forall i o f, ~ In (ffmpeg_cmd tools i o f) cmds.
Proof.
  intros H.
  destruct (main_cases tools exec linesep infile outfile tmpdir w)
    as (r & w0 & cmds & E & I & C).
  rewrite H in E. injection E as <- <-.
  destruct C as [(C & _)|(C & N)]; [discriminate C|].
  split.
  - destruct C as [C|[C|C]]; injection C as ->; auto.
  - now exists cmds.
Qed.

Lemma main_failure_witness :
  (AttributeError = FileNotFoundError \/ AttributeError = ValueError \/
   AttributeError = AttributeError) /\
  exists cmds,
    invoked (snd (main demo_tools (demo_exec 1 "Track ID: video") (String LF "")
                    "in.mkv" "out.mkv" "/tmp/x" empty_world))
    = (invoked empty_world ++ cmds)%list /\
    forall i o f, ~ In (ffmpeg_cmd demo_tools i o f) cmds.
Proof.
  apply (main_failure demo_tools (demo_exec 1 "Track ID: video") (String LF "")
           "in.mkv" "out.mkv" "/tmp/x" empty_world).
  vm_compute. reflexivity.
Defined.

(** ** check_prereqs *)

Lemma dict_get_set_same (k : string) (v : option string) (d : dict) :
  dict_get k (dict_set k v d) = Some v.
Proof.
  induction d as [|[k' v'] d IH]; simpl.
  - now rewrite String.eqb_refl.
  - destruct (String.eqb k' k) eqn:E; simpl; now rewrite E.
Qed.

Lemma dict_get_set_other (k k' : string) (v : option string) (d : dict) :
  k <> k' -> dict_get k' (dict_set k v d) = dict_get k' d.
Proof.
  intros N. induction d as [|[k0 v0] d IH]; simpl.
  - apply String.eqb_neq in N. now rewrite N.
  - destruct (String.eqb_spec k0 k) as [->|Hk]; simpl.
    + apply String.eqb_neq in N. now rewrite N.
    + now rewrite IH.
Qed.

Lemma prereq_loop_missing (which : string -> option string)
  (names : list string) (tools : dict) (missing : list string) :
  snd (prereq_loop which names tools missing) =
  (missing ++ missing_from which names)%list.
Proof.
  revert tools missing. induction names as [|t names IH]; intros tools missing.
  - simpl. now rewrite app_nil_r.
  - cbn [prereq_loop missing_from filter]. unfold found at 1.
    destruct (truthy (which t)); cbn [negb].
    + apply IH.
    + rewrite IH. now rewrite <- app_assoc.
Qed.

Lemma prereq_loop_tools (which : string -> option string)
  (names : list string) (tools : dict) (missing : list string) (t : string) :
  dict_get t (fst (prereq_loop which names tools missing)) =
  if existsb (String.eqb t) names && found which t
  then Some (which t) else dict_get t tools.
Proof.
  revert tools missing. induction names as [|n names IH]; intros tools missing.
  - reflexivity.
  - cbn [prereq_loop existsb]. unfold found in *.
    destruct (truthy (which n)) eqn:Hn; cbn [negb].
    + rewrite IH. destruct (String.eqb_spec t n) as [->|Ht]; cbn [orb].
      * rewrite Hn. cbn [andb].
        destruct (existsb _ names); cbn [andb]; [reflexivity|].
        apply dict_get_set_same.
      * destruct (existsb _ names && truthy (which t)); [reflexivity|].
        apply dict_get_set_other. congruence.
    + rewrite IH. destruct (String.eqb_spec t n) as [->|Ht]; cbn [orb];
        [|reflexivity].
      rewrite Hn. now rewrite !andb_false_r.
Qed.

Lemma missing_lines_eq (msg : string) (missing : list string) :
  missing_lines msg missing =
  msg ++ concat_str (map (fun t => String LF (String TAB t)) missing).
Proof.
  revert msg. induction missing as [|t missing IH]; intros msg; simpl.
  - now rewrite append_nil_r.
  - rewrite IH. now rewrite append_assoc.
Qed.

Lemma existsb_eqb_in (t : string) (names : list string) :
  In t names -> existsb (String.eqb t) names = true.
Proof.
  intros H. apply existsb_exists. exists t. split; [exact H|apply String.eqb_refl].
Qed.

Lemma check_prereqs_returns (which : string -> option string) (tools tools' : dict) :
  check_prereqs which tools = Returns tools' ->
  missing_from which (keys tools) = [].
Proof.
  unfold check_prereqs.
  pose proof (prereq_loop_missing which (keys tools) tools []) as Hm.
  destruct (prereq_loop which (keys tools) tools []) as [d missing].
  cbn [snd app] in Hm. subst missing.
  destruct (missing_from which (keys tools)); [reflexivity|discriminate].
Qed.

(** X14: [check_prereqs] returns exactly when [which] finds every tool
    of the dict, and the dict then maps each tool to the path found;
    otherwise it exits with one message that lists the tools not found,
    in the dict's order, each on a line of its own after a tab. *)
Theorem check_prereqs_outcome (which : string -> option string) (tools : dict) :
  (missing_from which (keys tools) = [] ->
   exists tools',
     check_prereqs which tools = Returns tools' /\
     forall t, In t (keys tools) ->
       dict_get t tools' = Some (which t) /\ found which t = true) /\
  (missing_from which (keys tools) <> [] ->
   check_prereqs which tools =
   SystemExit (ExitMsg (missing_report (missing_from which (keys tools))))).
Proof.
  unfold check_prereqs.
  pose proof (prereq_loop_missing which (keys tools) tools []) as Hm.
  pose proof (prereq_loop_tools which (keys tools) tools []) as Ht.
  destruct (prereq_loop which (keys tools) tools []) as [tools' missing].
  cbn [fst snd] in *. cbn [app] in Hm. subst missing. split.
  - intros E. rewrite E. cbn [List.length Nat.ltb Nat.leb].
    exists tools'. split; [reflexivity|]. intros t Hin.
    assert (F : found which t = true).
    { destruct (found which t) eqn:F; [reflexivity|].
      assert (In t (missing_from which (keys tools))).
      { apply filter_In. split; [exact Hin|]. now rewrite F. }
      rewrite E in H. destruct H. }
    split; [|exact F].
    rewrite Ht, (existsb_eqb_in _ _ Hin), F. reflexivity.
  - intros N. destruct (missing_from which (keys tools)) as [|m ms] eqn:E;
      [congruence|].
    cbn [List.length Nat.ltb Nat.leb]. rewrite missing_lines_eq.
    unfold missing_report. now rewrite append_assoc.
Qed.

Lemma check_prereqs_outcome_witness :
  check_prereqs demo_which tools_dict =
  SystemExit (ExitMsg
    ("Error: the following utilities are missing from your system:" ++
     String LF (String TAB "mkvinfo") ++
     String LF "Please install them in order to use this script.")).
Proof.
  apply (check_prereqs_outcome demo_which tools_dict). discriminate.
Defined.

(** ** confirm_overwrite and get_and_validate_args *)

Lemma casefold_nonempty (c : ascii) (s : string) : casefold (String c s) <> "".
Proof.
  cbn [casefold]. unfold casefold_char.
  repeat match goal with |- context [if ?b then _ else _] => destruct b end;
    discriminate.
Qed.

Lemma casefold_char_y (c : ascii) (t : string) :
  casefold_char c ++ t = "y" -> (c = "y"%char \/ c = "Y"%char) /\ t = "".
Proof.
  destruct c as [[] [] [] [] [] [] [] []]; vm_compute; intros H;
    try discriminate H; injection H as ->; auto.
Qed.

(** Only "y" and "Y" fold to "y". *)
Lemma casefold_y (s : string) :
  String.eqb (casefold s) (casefold "y") = says_yes s.
Proof.
  unfold says_yes. change (casefold "y") with "y".
  destruct (String.eqb_spec (casefold s) "y") as [E|N].
  - destruct s as [|c s]; [discriminate E|]. cbn [casefold] in E.
    apply casefold_char_y in E as [Hc Hs].
    destruct s as [|c' s']; [|now apply casefold_nonempty in Hs].
    destruct Hc as [-> | ->]; reflexivity.
  - symmetry. apply orb_false_iff. split; apply String.eqb_neq; intros ->;
      now apply N.
Qed.

Lemma node_eq_dec (a b : node) : {a = b} + {a <> b}.
Proof. decide equality. Qed.

Lemma confirm_overwrite_asked
  (Path_str : string -> string) (stat : string -> option node)
  (path : string) (c : console) (n : node)
  (reply : string) (rest : list string) :
  stat (Path_str path) = Some n -> n <> Directory ->
  typed c = reply :: rest ->
  let asked := {| typed := rest;
                  shown := (shown c ++ [overwrite_query (Path_str path)])%list |} in
  confirm_overwrite Path_str stat path c =
  if says_yes reply then (Returns tt, asked)
  else (SystemExit ExitNone, print "Stopping." asked).
Proof.
  intros Hs Hn Ht asked.
  unfold confirm_overwrite, Path_exists, Path_is_dir, input.
  rewrite Hs, Ht, casefold_y.
  destruct n; [| now destruct Hn |]; now destruct (says_yes reply).
Qed.

(** X15: [confirm_overwrite] asks nothing when there is nothing at the
    output path, and refuses a directory without asking; for anything else
    there it shows the query once and goes on only if the line typed is
    "y" or "Y": any other line makes it print "Stopping." and exit with no
    exit argument; with no line to read it ends in [EOFError]. *)
Theorem confirm_overwrite_outcome
  (Path_str : string -> string) (stat : string -> option node)
  (path : string) (c : console) :
  let p := Path_str path in
  let asked rest := {| typed := rest;
                       shown := (shown c ++ [overwrite_query p])%list |} in
  (stat p = None -> confirm_overwrite Path_str stat path c = (Returns tt, c)) /\
  (stat p = Some Directory ->
   confirm_overwrite Path_str stat path c =
   (SystemExit (ExitMsg "Error: output path is a directory!"), c)) /\
  (forall n, stat p = Some n -> n <> Directory ->
     (typed c = [] ->
      confirm_overwrite Path_str stat path c = (EOFError, asked [])) /\
     (forall reply rest, typed c = reply :: rest ->
        (reply = "y" \/ reply = "Y" ->
         confirm_overwrite Path_str stat path c = (Returns tt, asked rest)) /\
        (reply <> "y" -> reply <> "Y" ->
         confirm_overwrite Path_str stat path c =
         (SystemExit ExitNone, print "Stopping." (asked rest))))).
Proof.
  intros p asked. split; [|split].
  - intros H. unfold confirm_overwrite, Path_exists. fold p. now rewrite H.
  - intros H. unfold confirm_overwrite, Path_exists, Path_is_dir. fold p.
    now rewrite H.
  - intros n Hs Hn. split.
    + intros Ht. unfold confirm_overwrite, Path_exists, Path_is_dir, input.
      fold p. rewrite Hs, Ht. destruct n; [| now destruct Hn |]; reflexivity.
    + intros reply rest Ht.
      pose proof (confirm_overwrite_asked Path_str stat path c n reply rest
                    Hs Hn Ht) as E.
      cbv zeta in E. fold p in E. split.
      * intros [-> | ->]; exact E.
      * intros N1 N2. rewrite E. unfold says_yes.
        apply String.eqb_neq in N1, N2. now rewrite N1, N2.
Qed.

Lemma confirm_overwrite_outcome_witness :
  confirm_overwrite (fun p => p) demo_stat "out.mkv" (demo_console ["yes"]) =
  (SystemExit ExitNone,
   {| typed := [];
      shown := [overwrite_query "out.mkv"; "Stopping." ++ String LF ""] |}).
Proof.
  refine (proj2 (proj2 (proj2 (proj2
            (confirm_overwrite_outcome (fun p => p) demo_stat "out.mkv"
               (demo_console ["yes"]))) RegularFile _ _) "yes" [] _) _ _).
  - reflexivity.
  - discriminate.
  - reflexivity.
  - discriminate.
  - discriminate.
Defined.

Lemma confirm_overwrite_returns
  (Path_str : string -> string) (stat : string -> option node)
  (path : string) (c c' : console) :
  confirm_overwrite Path_str stat path c = (Returns tt, c') <->
  (stat (Path_str path) = None /\ c' = c) \/
  (exists n reply,
     stat (Path_str path) = Some n /\ n <> Directory /\
     says_yes reply = true /\
     typed c = reply :: typed c' /\
     shown c' = (shown c ++ [overwrite_query (Path_str path)])%list).
Proof.
  destruct (stat (Path_str path)) as [n|] eqn:Hs.
  - destruct (node_eq_dec n Directory) as [->|Hn].
    + unfold confirm_overwrite, Path_exists, Path_is_dir. rewrite Hs. split.
      * discriminate.
      * intros [[H _]|(n & reply & H & Hn & _)]; [discriminate H|].
        injection H as <-. now destruct Hn.
    + destruct (typed c) as [|reply rest] eqn:Ht.
      * unfold confirm_overwrite, Path_exists, Path_is_dir, input.
        rewrite Hs, Ht. split.
        -- destruct n; [| now destruct Hn |]; discriminate.
        -- intros [[H _]|(n' & reply & _ & _ & _ & H & _)]; discriminate H.
      * rewrite (confirm_overwrite_asked Path_str stat path c n reply rest
                   Hs Hn Ht).
        destruct (says_yes reply) eqn:Y; split.
        -- intros [= <-]. right. exists n, reply. cbn [typed shown]. auto.
        -- intros [[H _]|(n' & reply' & _ & _ & _ & H & Hsh)]; [discriminate H|].
           injection H as _ ->. destruct c'. cbn [typed shown] in *. now subst.
        -- discriminate.
        -- intros [[H _]|(n' & reply' & _ & _ & Y' & H & _)]; [discriminate H|].
           injection H as <- _. congruence.
  - unfold confirm_overwrite, Path_exists. rewrite Hs. split.
    + intros [= <-]. now left.
    + intros [[_ ->]|(n & reply & H & _)]; [reflexivity|discriminate H].
Qed.

(** The checks a returning [get_and_validate_args] has made. *)
Lemma get_and_validate_args_checked
  (Path_str : string -> string) (stat : string -> option node)
  (realpath : string -> string) (handle_args : ending (string * string))
  (c c' : console) (infile outfile : string) :
  get_and_validate_args Path_str stat realpath handle_args c
  = (Returns (infile, outfile), c') ->
  handle_args = Returns (infile, outfile) /\
  stat (Path_str infile) = Some RegularFile /\
  realpath infile <> realpath outfile /\
  confirm_overwrite Path_str stat outfile c = (Returns tt, c').
Proof.
  unfold get_and_validate_args, check_exists, Path_exists, Path_is_file.
  destruct handle_args as [[i o]|a| |e]; try discriminate.
  destruct (stat (Path_str i)) as [[]|] eqn:Hs; cbn [negb]; try discriminate.
  destruct (String.eqb_spec (realpath i) (realpath o)) as [Er|Nr];
    [discriminate|].
  destruct (confirm_overwrite Path_str stat o c) as [[[]|a| |e] c1] eqn:Ec;
    try discriminate.
  intros [= <- <- <-]. auto.
Qed.

(** X16: [get_and_validate_args] returns the two paths exactly when the
    input is a regular file, the two real paths differ, and either nothing
    is at the output path (nothing is asked) or what is there is no
    directory and the line typed at the one query is "y" or "Y". *)
Theorem get_and_validate_args_returns
  (Path_str : string -> string) (stat : string -> option node)
  (realpath : string -> string) (handle_args : ending (string * string))
  (c c' : console) (infile outfile : string) :
  get_and_validate_args Path_str stat realpath handle_args c
  = (Returns (infile, outfile), c') <->
  handle_args = Returns (infile, outfile) /\
  stat (Path_str infile) = Some RegularFile /\
  realpath infile <> realpath outfile /\
  ((stat (Path_str outfile) = None /\ c' = c) \/
   (exists n reply,
      stat (Path_str outfile) = Some n /\ n <> Directory /\
      says_yes reply = true /\
      typed c = reply :: typed c' /\
      shown c' = (shown c ++ [overwrite_query (Path_str outfile)])%list)).
Proof.
  rewrite <- confirm_overwrite_returns. split.
  - apply get_and_validate_args_checked.
  - intros (Ha & Hi & Hr & Ho).
    unfold get_and_validate_args, check_exists, Path_exists, Path_is_file.
    rewrite Ha, Hi, Ho. cbn [negb].
    apply String.eqb_neq in Hr. now rewrite Hr.
Qed.

Lemma get_and_validate_args_returns_witness :
  get_and_validate_args (fun p => p) demo_stat demo_realpath
    (Returns ("in.mkv", "out.mkv")) (demo_console ["Y"])
  = (Returns ("in.mkv", "out.mkv"),
     {| typed := []; shown := [overwrite_query "out.mkv"] |}).
Proof.
  apply (get_and_validate_args_returns (fun p => p) demo_stat demo_realpath
           (Returns ("in.mkv", "out.mkv")) (demo_console ["Y"])).
  split; [reflexivity|]. split; [reflexivity|]. split; [discriminate|].
  right. exists RegularFile, "Y".
  split; [reflexivity|]. split; [discriminate|]. repeat split.
Defined.

(** ** The script as a whole *)

Lemma confirm_overwrite_console
  (Path_str : string -> string) (stat : string -> option node)
  (path : string) (c c' : console) (r : ending unit) :
  confirm_overwrite Path_str stat path c = (r, c') -> c' <> c ->
  exists n, stat (Path_str path) = Some n /\ n <> Directory.
Proof.
  unfold confirm_overwrite, Path_exists, Path_is_dir.
  destruct (stat (Path_str path)) as [n|].
  - destruct n; intros H N.
    + exists RegularFile. split; [reflexivity|discriminate].
    + injection H as _ <-. now destruct N.
    + exists OtherNode. split; [reflexivity|discriminate].
  - intros [= _ <-] N. now destruct N.
Qed.

Lemma get_and_validate_args_console
  (Path_str : string -> string) (stat : string -> option node)
  (realpath : string -> string) (handle_args : ending (string * string))
  (c c' : console) (r : ending (string * string)) :
  get_and_validate_args Path_str stat realpath handle_args c = (r, c') ->
  c' <> c ->
  exists i o n,
    handle_args = Returns (i, o) /\
    stat (Path_str i) = Some RegularFile /\
    realpath i <> realpath o /\
    stat (Path_str o) = Some n /\ n <> Directory.
Proof.
  unfold get_and_validate_args, check_exists, Path_exists, Path_is_file.
  destruct handle_args as [[i o]|a| |e];
    try (intros [= _ <-] N; now destruct N).
  destruct (stat (Path_str i)) as [[]|] eqn:Hs; cbn [negb];
    try (intros [= _ <-] N; now destruct N).
  destruct (String.eqb_spec (realpath i) (realpath o)) as [Er|Nr];
    [intros [= _ <-] N; now destruct N|].
  destruct (confirm_overwrite Path_str stat o c) as [r1 c1] eqn:Ec.
  intros H N.
  assert (c1 = c') by (destruct r1; now injection H). subst c1.
  destruct (confirm_overwrite_console Path_str stat o c c' r1 Ec N)
    as (n & Hn & Nd).
  exists i, o, n. auto.
Qed.

(** X17: the script asks nothing before every tool is found, the input
    is a regular file and the real paths differ; and it runs no tool and
    changes no file before, on top of that, the output path is free or
    the user has typed "y" or "Y" to overwrite what is there. *)
Theorem run_main_guarded
  (which : string -> option string)
  (Path_str : string -> string) (stat : string -> option node)
  (realpath : string -> string) (handle_args : ending (string * string))
  (exec : list string -> fs -> CompletedProcess * fs) (linesep : string)
  (tmpdir : string) (c c' : console) (w w' : world) (e : ending unit) :
  run_main which Path_str stat realpath handle_args exec linesep tmpdir c w
  = (e, c', w') ->
  (c' <> c ->
   missing_from which (keys tools_dict) = [] /\
   exists i o n,
     handle_args = Returns (i, o) /\
     stat (Path_str i) = Some RegularFile /\
     realpath i <> realpath o /\
     stat (Path_str o) = Some n /\ n <> Directory) /\
  (w' <> w ->
   missing_from which (keys tools_dict) = [] /\
   exists i o,
     handle_args = Returns (i, o) /\
     stat (Path_str i) = Some RegularFile /\
     realpath i <> realpath o /\
     (stat (Path_str o) = None \/
      exists n reply,
        stat (Path_str o) = Some n /\ n <> Directory /\
        says_yes reply = true /\ typed c = reply :: typed c')).
Proof.
  unfold run_main.
  destruct (check_prereqs which tools_dict) as [tools| a | |e0] eqn:Ep;
    try (intros [= _ <- <-]; split; intros N; now destruct N).
  apply check_prereqs_returns in Ep.
  destruct (get_and_validate_args Path_str stat realpath handle_args c)
    as [r c1] eqn:Eg.
  intros H.
  assert (Hc : c1 = c').
  { destruct r as [[i o]|a| |e0]; [|now injection H..].
    destruct (main _ _ _ _ _ _ _). now injection H. }
  subst c1. split.
  - intros N. split; [exact Ep|].
    exact (get_and_validate_args_console _ _ _ _ c c' r Eg N).
  - intros N. split; [exact Ep|].
    destruct r as [[i o]|a| |e0];
      try (injection H as _ <-; now destruct N).
    apply get_and_validate_args_checked in Eg as (Ha & Hi & Hr & Ho).
    apply confirm_overwrite_returns in Ho.
    exists i, o. split; [exact Ha|]. split; [exact Hi|]. split; [exact Hr|].
    destruct Ho as [[Ho _]|(n & reply & Ho & Hn & Y & Ht & _)]; [now left|].
    right. exists n, reply. auto.
Qed.

Lemma run_main_guarded_witness :
  missing_from (fun t => Some (demo_tools t)) (keys tools_dict) = [] /\
  exists i o n,
    Returns ("in.mkv", "out.mkv") = Returns (i, o) /\
    demo_stat i = Some RegularFile /\
    demo_realpath i <> demo_realpath o /\
    demo_stat o = Some n /\ n <> Directory.
Proof.
  refine (proj1 (run_main_guarded (fun t => Some (demo_tools t)) (fun p => p)
            demo_stat demo_realpath (Returns ("in.mkv", "out.mkv"))
            (demo_exec 0 demo_report) (String LF "") "/tmp/x"
            (demo_console ["n"])
            {| typed := [];
               shown := [overwrite_query "out.mkv"; "Stopping." ++ String LF ""] |}
            empty_world empty_world (SystemExit ExitNone) _) _).
  - reflexivity.
  - discriminate.
Defined.
